(** * traefik_cdn_whitelist: the refresh-and-aggregation engine

    A shallow embedding of [traefik_dynamic_public_whitelist.go] and the
    properties its specification states about it.

    Layout:
    - the parts of the Go standard library the plugin calls
      ([unicode/utf8], [strings], [net], [net/netip], [time]), modelled after
      the library's sources; [encoding/json] is a parameter of the engine;
    - the plugin itself: configuration, construction, provider strategies,
      aggregation, configuration emission and the refresh loop, as a small
      state-and-error monad over the outside world;
    - the properties. *)

From Stdlib Require Import ZArith List Ascii String Lia Bool.
From Stdlib Require Import Floats.SpecFloat.
From stdpp Require Import gmap strings list.

Open Scope Z_scope.

(** ** Bytes and strings

    A Go [string] and a Go [[]byte] are both sequences of bytes; both are
    [string] here and the conversions [string(b)] and [[]byte(s)] are the
    identity. *)

Definition code (c : ascii) : Z := Z.of_N (N_of_ascii c).

Definition byteOf (z : Z) : ascii := ascii_of_N (Z.to_N z).

Fixpoint dropBytes (n : nat) (s : string) : string :=
  match n, s with
  | O, _ => s
  | S n', String _ r => dropBytes n' r
  | S _, EmptyString => EmptyString
  end.

Fixpoint takeBytes (n : nat) (s : string) : string :=
  match n, s with
  | S n', String c r => String c (takeBytes n' r)
  | _, _ => EmptyString
  end.

Definition isEmpty (s : string) : bool :=
  match s with EmptyString => true | _ => false end.

Definition LF : string := String (byteOf 10) EmptyString.

(** ** unicode/utf8 *)

Definition RuneError : Z := 65533.

(** [utf8.RuneStart]: the byte is not a continuation byte. *)
Definition utf8_RuneStart (c : ascii) : bool :=
  negb (Z.land (code c) 192 =? 128).

Definition inRange (lo hi b : Z) : bool := (lo <=? b) && (b <=? hi).

(** The table [first] of package utf8 together with [acceptRanges]: for a
    leading byte, the length of the sequence and the range the second byte
    must lie in; [None] for a byte that starts no multi-byte sequence. *)
Definition utf8_first (b : Z) : option (nat * (Z * Z)) :=
  if inRange 194 223 b then Some (2%nat, (128, 191))
  else if b =? 224 then Some (3%nat, (160, 191))
  else if inRange 225 236 b then Some (3%nat, (128, 191))
  else if b =? 237 then Some (3%nat, (128, 159))
  else if inRange 238 239 b then Some (3%nat, (128, 191))
  else if b =? 240 then Some (4%nat, (144, 191))
  else if inRange 241 243 b then Some (4%nat, (128, 191))
  else if b =? 244 then Some (4%nat, (128, 143))
  else None.

(** [utf8.DecodeRuneInString]: the first rune of [s] and its width in bytes.
    An empty string gives [(RuneError, 0)], an invalid encoding
    [(RuneError, 1)]. *)
Definition utf8_DecodeRuneInString (s : string) : Z * nat :=
  match s with
  | EmptyString => (RuneError, 0%nat)
  | String c0 r0 =>
      let s0 := code c0 in
      if s0 <? 128 then (s0, 1%nat)
      else
        match utf8_first s0 with
        | None => (RuneError, 1%nat)
        | Some (sz, (lo, hi)) =>
            if (String.length s <? sz)%nat then (RuneError, 1%nat)
            else
              match r0 with
              | EmptyString => (RuneError, 1%nat)
              | String c1 r1 =>
                  let s1 := code c1 in
                  if negb (inRange lo hi s1) then (RuneError, 1%nat)
                  else if (sz <=? 2)%nat
                  then (Z.lor (Z.shiftl (Z.land s0 31) 6) (Z.land s1 63), 2%nat)
                  else
                    match r1 with
                    | EmptyString => (RuneError, 1%nat)
                    | String c2 r2 =>
                        let s2 := code c2 in
                        if negb (inRange 128 191 s2) then (RuneError, 1%nat)
                        else if (sz <=? 3)%nat
                        then (Z.lor (Z.shiftl (Z.land s0 15) 12)
                                (Z.lor (Z.shiftl (Z.land s1 63) 6) (Z.land s2 63)),
                              3%nat)
                        else
                          match r2 with
                          | EmptyString => (RuneError, 1%nat)
                          | String c3 _ =>
                              let s3 := code c3 in
                              if negb (inRange 128 191 s3) then (RuneError, 1%nat)
                              else (Z.lor (Z.shiftl (Z.land s0 7) 18)
                                      (Z.lor (Z.shiftl (Z.land s1 63) 12)
                                         (Z.lor (Z.shiftl (Z.land s2 63) 6)
                                            (Z.land s3 63))),
                                    4%nat)
                          end
                    end
              end
        end
  end.

(** Index of the first rune-start byte among the bytes before the last one,
    looking back over at most [UTFMax - 1 = 3] of them; [rs] is the string
    reversed and without its last byte. *)
Fixpoint lookBack (k : nat) (rs : string) : option nat :=
  match k, rs with
  | S k', String c r =>
      if utf8_RuneStart c then Some 0%nat
      else option_map S (lookBack k' r)
  | _, _ => None
  end.

(** [utf8.DecodeLastRuneInString]: the last rune of [s] and its width. *)
Definition utf8_DecodeLastRuneInString (s : string) : Z * nat :=
  match String.rev s with
  | EmptyString => (RuneError, 0%nat)
  | String c rs =>
      if code c <? 128 then (code c, 1%nat)
      else
        let n := String.length s in
        let width :=
          match lookBack 3 rs with
          | Some k => S (S k)
          | None => if (n <=? 4)%nat then n else 5%nat
          end in
        let tail := dropBytes (n - width) s in
        let '(r, size) := utf8_DecodeRuneInString tail in
        if (size =? width)%nat then (r, size) else (RuneError, 1%nat)
  end.

(** ** unicode *)

(** [unicode.IsSpace]: the Latin-1 spaces and the code points with the
    White_Space property. *)
Definition unicode_IsSpace (r : Z) : bool :=
  inRange 9 13 r || (r =? 32) || (r =? 133) || (r =? 160)
  || (r =? 5760) || inRange 8192 8202 r || (r =? 8232) || (r =? 8233)
  || (r =? 8239) || (r =? 8287) || (r =? 12288).

(** ** strings *)

(** [strings.TrimLeftFunc s unicode.IsSpace]; the fuel is the number of
    bytes left, enough for every string. *)
Fixpoint trimLeftSpace (fuel : nat) (s : string) : string :=
  match fuel with
  | O => s
  | S fuel' =>
      let '(r, size) := utf8_DecodeRuneInString s in
      if (0 <? size)%nat && unicode_IsSpace r
      then trimLeftSpace fuel' (dropBytes size s)
      else s
  end.

(** [strings.TrimRightFunc s unicode.IsSpace]. *)
Fixpoint trimRightSpace (fuel : nat) (s : string) : string :=
  match fuel with
  | O => s
  | S fuel' =>
      let '(r, size) := utf8_DecodeLastRuneInString s in
      if (0 <? size)%nat && unicode_IsSpace r
      then trimRightSpace fuel' (takeBytes (String.length s - size) s)
      else s
  end.

(** [strings.TrimSpace]. The library first skips ASCII spaces byte by byte
    and hands over to [TrimFunc] and [TrimRightFunc] at the first non-ASCII
    byte; an ASCII space is a one-byte rune for which [unicode.IsSpace]
    holds, so the result is that of trimming runes on the left, then on the
    right. *)
Definition strings_TrimSpace (s : string) : string :=
  let l := trimLeftSpace (String.length s) s in
  trimRightSpace (String.length l) l.

(** [strings.ToLower]. For a string of ASCII bytes this is the library's
    function: the letters [A-Z] are moved to [a-z]. A byte from 128 up is
    kept as it is, where the library maps the rune it belongs to by
    [unicode.ToLower] (and an invalid byte to U+FFFD); the only runes above
    127 that the library sends to an ASCII letter are U+212A (to [k]) and
    U+0130 (to [i]). *)
Definition lowerByte (c : ascii) : ascii :=
  if inRange 65 90 (code c) then byteOf (code c + 32) else c.

Fixpoint strings_ToLower (s : string) : string :=
  match s with
  | EmptyString => EmptyString
  | String c r => String (lowerByte c) (strings_ToLower r)
  end.

(** [strings.Split s "\n"]: the pieces of [s] between line feeds;
    one piece more than there are line feeds. *)
Fixpoint splitLines (s : string) : list string :=
  match s with
  | EmptyString => [EmptyString]
  | String c r =>
      if code c =? 10 then EmptyString :: splitLines r
      else
        match splitLines r with
        | piece :: pieces => String c piece :: pieces
        | [] => [String c EmptyString]
        end
  end.

(** ** strconv *)

Definition digitChar (d : Z) : ascii := byteOf (48 + d).

Fixpoint itoaDigits (fuel : nat) (n : Z) (acc : string) : string :=
  match fuel with
  | O => acc
  | S fuel' =>
      let acc' := String (digitChar (n mod 10)) acc in
      if n <? 10 then acc' else itoaDigits fuel' (n / 10) acc'
  end.

(** [strconv.Itoa] on a 64-bit [int]; 20 digits are enough. *)
Definition strconv_Itoa (n : Z) : string :=
  if n <? 0 then String "-" (itoaDigits 20 (- n) EmptyString)
  else itoaDigits 20 n EmptyString.

(** ** net/netip: parsing and printing of addresses *)

Definition isDigit (c : ascii) : bool := inRange 48 57 (code c).

Definition hexVal (c : ascii) : option Z :=
  let b := code c in
  if inRange 48 57 b then Some (b - 48)
  else if inRange 97 102 b then Some (b - 97 + 10)
  else if inRange 65 70 b then Some (b - 65 + 10)
  else None.

(** An address as [netip.Addr] holds it: four bytes, or sixteen bytes and a
    zone. *)
Inductive Addr : Type :=
| Addr4 (b : list Z)
| Addr6 (b : list Z) (zone : string).

(** [netip.parseIPv4Fields] on the bytes [s]: [prev] is the byte before the
    current one, [val] and [digLen] the value and the number of digits of the
    octet being read, [fields] the octets completed ([pos] is their number). *)
Fixpoint parseIPv4Fields (s : string) (prev : option ascii)
    (val digLen : Z) (fields : list Z) : option (list Z) :=
  match s with
  | EmptyString =>
      if (length fields <? 3)%nat then None else Some (fields ++ [val])
  | String c r =>
      if isDigit c then
        if (digLen =? 1) && (val =? 0) then None
        else
          let val' := val * 10 + (code c - 48) in
          if 255 <? val' then None
          else parseIPv4Fields r (Some c) val' (digLen + 1) fields
      else if code c =? 46 then
        match prev with
        | None => None
        | Some p =>
            if isEmpty r || (code p =? 46) then None
            else if (length fields =? 3)%nat then None
            else parseIPv4Fields r (Some c) 0 0 (fields ++ [val])
        end
      else None
  end.

Definition netip_parseIPv4 (s : string) : option Addr :=
  option_map Addr4 (parseIPv4Fields s None 0 0 []).

(** The hexadecimal digits at the head of [s]: their number, their value and
    what follows them; [None] for a fifth digit or a value above 65535. *)
Fixpoint hexGroup (s : string) (off : nat) (acc : Z) : option (nat * Z * string) :=
  match s with
  | EmptyString => Some (off, acc, s)
  | String c r =>
      match hexVal c with
      | None => Some (off, acc, s)
      | Some d =>
          let acc' := Z.shiftl acc 4 + d in
          if (3 <? off)%nat then None
          else if 65535 <? acc' then None
          else hexGroup r (S off) acc'
      end
  end.

Definition startsWith (b : Z) (s : string) : bool :=
  match s with
  | String c _ => code c =? b
  | EmptyString => false
  end.

(** [ellipsis < 0] in the source: no [::] seen so far. *)
Definition noEllipsis (ellipsis : option nat) : bool :=
  match ellipsis with None => true | Some _ => false end.

(** The loop of [netip.parseIPv6]. [ip] holds the bytes written so far (the
    index [i] of the source is their number), [ellipsis] the position of
    [::] if one was seen. The result is the state in which the loop is left:
    the unread input, the bytes and the ellipsis. Each round writes at least
    two bytes and the loop runs while fewer than 16 are written. *)
Fixpoint parseIPv6Loop (fuel : nat) (s : string) (ip : list Z)
    (ellipsis : option nat) : option (string * list Z * option nat) :=
  match fuel with
  | O => Some (s, ip, ellipsis)
  | S fuel' =>
      let i := length ip in
      if (16 <=? i)%nat then Some (s, ip, ellipsis)
      else
        match hexGroup s 0 0 with
        | None => None
        | Some (off, acc, rest) =>
            if (off =? 0)%nat then None
            else if startsWith 46 rest then
              if noEllipsis ellipsis && negb (i =? 12)%nat then None
              else if (16 <? i + 4)%nat then None
              else
                match parseIPv4Fields s None 0 0 [] with
                | None => None
                | Some quad => Some (EmptyString, ip ++ quad, ellipsis)
                end
            else
              let ip' := ip ++ [Z.shiftr acc 8; Z.land acc 255] in
              match rest with
              | EmptyString => Some (rest, ip', ellipsis)
              | String c0 r0 =>
                  if negb (code c0 =? 58) then None
                  else
                    match r0 with
                    | EmptyString => None
                    | String c1 r1 =>
                        if code c1 =? 58 then
                          match ellipsis with
                          | Some _ => None
                          | None =>
                              if isEmpty r1
                              then Some (r1, ip', Some (length ip'))
                              else parseIPv6Loop fuel' r1 ip' (Some (length ip'))
                          end
                        else parseIPv6Loop fuel' r0 ip' ellipsis
                    end
              end
        end
  end.

(** The input up to the first [%] and, when there is one, what follows it. *)
Fixpoint splitZone (s : string) : string * option string :=
  match s with
  | EmptyString => (EmptyString, None)
  | String c r =>
      if code c =? 37 then (EmptyString, Some r)
      else let '(a, z) := splitZone r in (String c a, z)
  end.

Definition zeros (n : nat) : list Z := repeat 0 n.

(** [netip.parseIPv6]. *)
Definition netip_parseIPv6 (input : string) : option Addr :=
  let '(s, z) := splitZone input in
  match z with
  | Some EmptyString => None
  | _ =>
      let zone := match z with Some zn => zn | None => EmptyString end in
      let lead := startsWith 58 s && startsWith 58 (dropBytes 1 s) in
      let s1 := if lead then dropBytes 2 s else s in
      let ellipsis0 := if lead then Some 0%nat else None in
      if lead && isEmpty s1 then Some (Addr6 (zeros 16) zone)
      else
        match parseIPv6Loop 9 s1 [] ellipsis0 with
        | None => None
        | Some (rest, ip, ellipsis) =>
            if negb (isEmpty rest) then None
            else
              let i := length ip in
              if (i <? 16)%nat then
                match ellipsis with
                | None => None
                | Some e =>
                    Some (Addr6 (take e ip ++ zeros (16 - i) ++ drop e ip) zone)
                end
              else
                match ellipsis with
                | Some _ => None
                | None => Some (Addr6 ip zone)
                end
        end
  end.

(** The first of the bytes [.], [:] and [%] in [s]. *)
Fixpoint firstSeparator (s : string) : option Z :=
  match s with
  | EmptyString => None
  | String c r =>
      let b := code c in
      if (b =? 46) || (b =? 58) || (b =? 37) then Some b else firstSeparator r
  end.

(** [netip.ParseAddr]. *)
Definition netip_ParseAddr (s : string) : option Addr :=
  match firstSeparator s with
  | Some 46 => netip_parseIPv4 s
  | Some 58 => netip_parseIPv6 s
  | _ => None
  end.

Definition hexDigit (d : Z) : ascii :=
  if d <? 10 then byteOf (48 + d) else byteOf (97 + d - 10).

(** [netip.appendHex]: lower case, no leading zeros. *)
Definition appendHex (x : Z) : string :=
  (if 4096 <=? x then String (hexDigit (Z.shiftr x 12)) EmptyString else EmptyString)
  +:+ (if 256 <=? x then String (hexDigit (Z.land (Z.shiftr x 8) 15)) EmptyString else EmptyString)
  +:+ (if 16 <=? x then String (hexDigit (Z.land (Z.shiftr x 4) 15)) EmptyString else EmptyString)
  +:+ String (hexDigit (Z.land x 15)) EmptyString.

(** The eight 16-bit fields of sixteen bytes. *)
Fixpoint v6u16 (b : list Z) : list Z :=
  match b with
  | hi :: lo :: r => (Z.shiftl hi 8 + lo) :: v6u16 r
  | _ => []
  end.

Definition field (g : list Z) (i : Z) : Z := nth (Z.to_nat i) g 0.

(** Length of the run of zero fields that starts at field [j]. *)
Fixpoint zeroRun (fuel : nat) (g : list Z) (j : Z) : Z :=
  match fuel with
  | O => 0
  | S fuel' =>
      if (j <? 8) && (field g j =? 0) then 1 + zeroRun fuel' g (j + 1) else 0
  end.

(** First loop of [Addr.appendTo6]: the longest run of at least two zero
    fields, the first such run among equals; [(255, 255)] when there is
    none. *)
Fixpoint longestZeroRun (fuel : nat) (g : list Z) (i zeroStart zeroEnd : Z) : Z * Z :=
  match fuel with
  | O => (zeroStart, zeroEnd)
  | S fuel' =>
      if 8 <=? i then (zeroStart, zeroEnd)
      else
        let l := zeroRun 8 g i in
        if (2 <=? l) && (zeroEnd - zeroStart <? l)
        then longestZeroRun fuel' g (i + 1) i (i + l)
        else longestZeroRun fuel' g (i + 1) zeroStart zeroEnd
  end.

(** Second loop of [Addr.appendTo6]. *)
Fixpoint appendFields (fuel : nat) (g : list Z) (zeroStart zeroEnd i : Z) : string :=
  match fuel with
  | O => EmptyString
  | S fuel' =>
      if 8 <=? i then EmptyString
      else if i =? zeroStart then
        "::" +:+ (if 8 <=? zeroEnd then EmptyString
                  else appendHex (field g zeroEnd)
                       +:+ appendFields fuel' g zeroStart zeroEnd (zeroEnd + 1))
      else
        (if 0 <? i then ":" else EmptyString)
        +:+ appendHex (field g i) +:+ appendFields fuel' g zeroStart zeroEnd (i + 1)
  end.

(** [Addr.string6] of an address without a zone. *)
Definition netip_string6 (b : list Z) : string :=
  let g := v6u16 b in
  let '(zeroStart, zeroEnd) := longestZeroRun 9 g 0 255 255 in
  appendFields 9 g zeroStart zeroEnd 0.

(** [Addr.string4]: dotted decimal. *)
Definition netip_string4 (b : list Z) : string :=
  match b with
  | [b0; b1; b2; b3] =>
      strconv_Itoa b0 +:+ "." +:+ strconv_Itoa b1 +:+ "."
      +:+ strconv_Itoa b2 +:+ "." +:+ strconv_Itoa b3
  | _ => EmptyString
  end.

(** ** net: the [IP] type

    [net.IP] is a byte slice; the nil slice is the empty list, and every
    other value the functions below produce has 4 or 16 bytes. *)

Definition IP : Type := list Z.

Definition isNil (ip : IP) : bool :=
  match ip with [] => true | _ => false end.

Definition v4InV6Prefix : list Z := zeros 10 ++ [255; 255].

(** [Addr.As16] followed by the conversion to a slice. *)
Definition netip_As16 (a : Addr) : IP :=
  match a with
  | Addr4 b => v4InV6Prefix ++ b
  | Addr6 b _ => b
  end.

(** [net.ParseIP]: nil unless the text is an address without a zone. *)
Definition net_ParseIP (s : string) : IP :=
  match netip_ParseAddr s with
  | Some (Addr4 b) => netip_As16 (Addr4 b)
  | Some (Addr6 b EmptyString) => netip_As16 (Addr6 b EmptyString)
  | _ => []
  end.

Definition isZeros (p : list Z) : bool := forallb (Z.eqb 0) p.

(** [IP.To4]. *)
Definition To4 (ip : IP) : IP :=
  if (length ip =? 4)%nat then ip
  else if (length ip =? 16)%nat && isZeros (take 10 ip)
          && (nth 10 ip 0 =? 255) && (nth 11 ip 0 =? 255)
  then drop 12 ip
  else [].

(** [IP.To16]. *)
Definition To16 (ip : IP) : IP :=
  if (length ip =? 4)%nat then v4InV6Prefix ++ ip
  else if (length ip =? 16)%nat then ip
  else [].

(** The loop of [net.CIDRMask]: [l] bytes, the first [n] bits set. *)
Fixpoint maskBytes (l : nat) (n : Z) : list Z :=
  match l with
  | O => []
  | S l' =>
      if 8 <=? n then 255 :: maskBytes l' (n - 8)
      else Z.lxor 255 (Z.shiftr 255 n) :: maskBytes l' 0
  end.

(** [net.CIDRMask]. *)
Definition net_CIDRMask (ones bits : Z) : list Z :=
  if negb (bits =? 32) && negb (bits =? 128) then []
  else if (ones <? 0) || (bits <? ones) then []
  else maskBytes (Z.to_nat (bits / 8)) ones.

Definition allFF (p : list Z) : bool := forallb (Z.eqb 255) p.

Definition listEqb (a b : list Z) : bool :=
  (length a =? length b)%nat && forallb (fun p => fst p =? snd p) (combine a b).

(** [IP.Mask]. *)
Definition Mask (ip : IP) (mask : list Z) : IP :=
  let mask1 :=
    if (length mask =? 16)%nat && (length ip =? 4)%nat && allFF (take 12 mask)
    then drop 12 mask else mask in
  let ip1 :=
    if (length mask1 =? 4)%nat && (length ip =? 16)%nat
       && listEqb (take 12 ip) v4InV6Prefix
    then drop 12 ip else ip in
  if negb (length ip1 =? length mask1)%nat then []
  else map (fun p => Z.land (fst p) (snd p)) (combine ip1 mask1).

(** [hexString] of package net. *)
Fixpoint hexString (b : list Z) : string :=
  match b with
  | [] => EmptyString
  | x :: r =>
      String (hexDigit (Z.shiftr x 4)) (String (hexDigit (Z.land x 15)) (hexString r))
  end.

(** [IP.String]. The step through [To4] comes first, so that [Addr.String]
    never meets an IPv4-mapped address here and [netip_string6] is all of it
    that is needed. *)
Definition IP_String (ip : IP) : string :=
  if (length ip =? 0)%nat then "<nil>"
  else if negb (length ip =? 4)%nat && negb (length ip =? 16)%nat
  then "?" +:+ hexString ip
  else if (length (To4 ip) =? 4)%nat then netip_string4 (To4 ip)
  else netip_string6 ip.

(** ** time: durations

    A [time.Duration] is a signed 64-bit count of nanoseconds. *)

Definition two63 : Z := 2 ^ 63.
Definition two64 : Z := 2 ^ 64.

(** The [float64] operations [time.ParseDuration] uses, as the IEEE 754
    binary64 operations of [SpecFloat]. *)
Definition float64 : Type := spec_float.
Definition f64_of_Z (n : Z) : float64 := binary_normalize 53 1024 n 0 false.
Definition f64_mul : float64 -> float64 -> float64 := SFmul 53 1024.
Definition f64_div : float64 -> float64 -> float64 := SFdiv 53 1024.

(** Conversion of a finite, non-negative [float64] to [uint64]: the
    fractional part is dropped. *)
Definition f64_to_uint64 (x : float64) : Z :=
  match x with
  | S754_finite false m e =>
      if 0 <=? e then Z.pos m * 2 ^ e else Z.pos m / 2 ^ (- e)
  | _ => 0
  end.

(** [leadingInt]: the digits at the head of [s] as a number, and the rest;
    [None] when the number exceeds [1 << 63]. *)
Fixpoint leadingInt (s : string) (x : Z) : option (Z * string) :=
  match s with
  | EmptyString => Some (x, s)
  | String c r =>
      if isDigit c then
        if two63 / 10 <? x then None
        else
          let x' := x * 10 + (code c - 48) in
          if two63 <? x' then None else leadingInt r x'
      else Some (x, s)
  end.

(** [leadingFraction]: the digits at the head of [s] as a numerator [x] and
    a power of ten [scale]; digits that would overflow are read and
    dropped. *)
Fixpoint leadingFraction (s : string) (x : Z) (scale : float64) (overflow : bool)
    : Z * float64 * string :=
  match s with
  | EmptyString => (x, scale, s)
  | String c r =>
      if isDigit c then
        if overflow then leadingFraction r x scale true
        else if (two63 - 1) / 10 <? x then leadingFraction r x scale true
        else
          let y := x * 10 + (code c - 48) in
          if two63 <? y then leadingFraction r x scale true
          else leadingFraction r y (f64_mul scale (f64_of_Z 10)) false
      else (x, scale, s)
  end.

(** The unit at the head of [s]: the bytes up to the first digit or dot. *)
Fixpoint spanUnit (s : string) : string * string :=
  match s with
  | EmptyString => (EmptyString, EmptyString)
  | String c r =>
      if (code c =? 46) || isDigit c then (EmptyString, s)
      else let '(u, rest) := spanUnit r in (String c u, rest)
  end.

Definition microSign : string := String (byteOf 194) (String (byteOf 181) "s").
Definition greekMu : string := String (byteOf 206) (String (byteOf 188) "s").

(** The table [unitMap]. *)
Definition unitMap (u : string) : option Z :=
  if String.eqb u "ns" then Some 1
  else if String.eqb u "us" then Some 1000
  else if String.eqb u microSign then Some 1000
  else if String.eqb u greekMu then Some 1000
  else if String.eqb u "ms" then Some 1000000
  else if String.eqb u "s" then Some 1000000000
  else if String.eqb u "m" then Some 60000000000
  else if String.eqb u "h" then Some 3600000000000
  else None.

(** The loop of [time.ParseDuration] over the terms [digits unit] of the
    input; [d] is the unsigned 64-bit sum so far. Each round reads at least
    one byte. *)
Fixpoint durationTerms (fuel : nat) (s : string) (d : Z) : option Z :=
  match fuel with
  | O => if isEmpty s then Some d else None
  | S fuel' =>
      match s with
      | EmptyString => Some d
      | String c0 _ =>
          if negb ((code c0 =? 46) || isDigit c0) then None
          else
            match leadingInt s 0 with
            | None => None
            | Some (v, s1) =>
                let pre := negb (String.length s =? String.length s1)%nat in
                let '(f, scale, s2, post) :=
                  if startsWith 46 s1 then
                    let s1' := dropBytes 1 s1 in
                    let '(f, scale, s2) := leadingFraction s1' 0 (f64_of_Z 1) false in
                    (f, scale, s2, negb (String.length s1' =? String.length s2)%nat)
                  else (0, f64_of_Z 1, s1, false) in
                if negb pre && negb post then None
                else
                  let '(u, s3) := spanUnit s2 in
                  if isEmpty u then None
                  else
                    match unitMap u with
                    | None => None
                    | Some unit =>
                        if two63 / unit <? v then None
                        else
                          let v1 := v * unit in
                          let v2 :=
                            if 0 <? f
                            then v1 + f64_to_uint64
                                        (f64_mul (f64_of_Z f)
                                           (f64_div (f64_of_Z unit) scale))
                            else v1 in
                          if two63 <? v2 then None
                          else
                            let d' := (d + v2) mod two64 in
                            if two63 <? d' then None
                            else durationTerms fuel' s3 d'
                    end
                end
      end
  end.

(** [time.ParseDuration]: [None] stands for the error. *)
Definition time_ParseDuration (orig : string) : option Z :=
  let '(neg, s) :=
    match orig with
    | String c r =>
        if (code c =? 45) || (code c =? 43) then (code c =? 45, r)
        else (false, orig)
    | EmptyString => (false, orig)
    end in
  if String.eqb s "0" then Some 0
  else if isEmpty s then None
  else
    match durationTerms (String.length s) s 0 with
    | None => None
    | Some d =>
        if neg then Some (- d)
        else if two63 - 1 <? d then None
        else Some d
    end.

(** ** encoding/hex and fmt *)

(** [hex.EncodeToString]: two lower-case digits for each byte. *)
Fixpoint hex_EncodeToString (src : list Z) : string :=
  match src with
  | [] => EmptyString
  | v :: rest =>
      String (hexDigit (Z.shiftr v 4))
        (String (hexDigit (Z.land v 15)) (hex_EncodeToString rest))
  end.

(** The digits of [fmt]'s [fmtInteger] in base 16, written right to left
    in front of [acc]; sixteen rounds are enough for 64 bits. *)
Fixpoint fmtHexDigits (fuel : nat) (u : Z) (acc : string) : string :=
  match fuel with
  | O => acc
  | S fuel' =>
      if 16 <=? u
      then fmtHexDigits fuel' (Z.shiftr u 4) (String (hexDigit (Z.land u 15)) acc)
      else String (hexDigit u) acc
  end.

Fixpoint zeroPad (n : nat) (s : string) : string :=
  match n with
  | O => s
  | S n' => String "0" (zeroPad n' s)
  end.

(** [fmt.Sprintf] of the verb [%032x] on an [int64]: the digits of the
    magnitude, zeros in front up to the width, which leaves room for the
    sign of a negative number, then the sign. *)
Definition fmt_Sprintf_032x (v : Z) : string :=
  let negative := v <? 0 in
  let u := if negative then - v else v in
  let prec := if negative then 31%nat else 32%nat in
  let digits := fmtHexDigits 16 u EmptyString in
  let padded := zeroPad (prec - String.length digits) digits in
  if negative then String "-" padded else padded.

(** ** encoding/json

    The decoder as the plugin uses it: [json.Unmarshal] of a body into a
    struct of strings and slices. The text is read into a value first, as
    the scanner of the library accepts it; the value is then stored into
    the struct. *)

(** [utf8.EncodeRune]. *)
Definition utf8_EncodeRune (r : Z) : string :=
  let r := if (r <? 0) || (1114111 <? r) || inRange 55296 57343 r
           then RuneError else r in
  if r <=? 127 then String (byteOf r) EmptyString
  else if r <=? 2047 then
    String (byteOf (Z.lor 192 (Z.shiftr r 6)))
      (String (byteOf (Z.lor 128 (Z.land r 63))) EmptyString)
  else if r <=? 65535 then
    String (byteOf (Z.lor 224 (Z.shiftr r 12)))
      (String (byteOf (Z.lor 128 (Z.land (Z.shiftr r 6) 63)))
         (String (byteOf (Z.lor 128 (Z.land r 63))) EmptyString))
  else
    String (byteOf (Z.lor 240 (Z.shiftr r 18)))
      (String (byteOf (Z.lor 128 (Z.land (Z.shiftr r 12) 63)))
         (String (byteOf (Z.lor 128 (Z.land (Z.shiftr r 6) 63)))
            (String (byteOf (Z.lor 128 (Z.land r 63))) EmptyString))).

(** A JSON value. A string is held as [unquote] leaves it, a number as it
    is written. The members of an object are in the order of the text,
    keys that come twice included. *)
#[warnings="-register-all"]
Inductive JSON : Type :=
| JNull
| JBool (b : bool)
| JNumber (literal : string)
| JString (s : string)
| JArray (elements : list JSON)
| JObject (members : list (string * JSON)).

(** [isSpace] of the scanner. *)
Definition json_isSpace (c : ascii) : bool :=
  (code c =? 32) || (code c =? 9) || (code c =? 13) || (code c =? 10).

Fixpoint json_skipSpace (s : string) : string :=
  match s with
  | String c r => if json_isSpace c then json_skipSpace r else s
  | EmptyString => s
  end.

(** Four hexadecimal digits at the head of [s], as a number. *)
Definition json_hex4 (s : string) : option Z :=
  match s with
  | String a (String b (String c (String d _))) =>
      match hexVal a, hexVal b, hexVal c, hexVal d with
      | Some x, Some y, Some z, Some t => Some (((x * 16 + y) * 16 + z) * 16 + t)
      | _, _, _, _ => None
      end
  | _ => None
  end.

(** [getu4]: the number of an escape [\uXXXX] at the head of [s]. *)
Definition json_getu4 (s : string) : option Z :=
  match s with
  | String b (String u r) =>
      if (code b =? 92) && (code u =? 117) then json_hex4 r else None
  | _ => None
  end.

(** The byte an escape of one letter stands for. *)
Definition json_escape (k : Z) : option Z :=
  if (k =? 34) || (k =? 92) || (k =? 47) then Some k
  else if k =? 98 then Some 8
  else if k =? 102 then Some 12
  else if k =? 110 then Some 10
  else if k =? 114 then Some 13
  else if k =? 116 then Some 9
  else None.

(** A string literal after its opening quote: the string it stands for,
    as [unquote] gives it, and the text after the closing quote. A byte
    below 32 and an escape the scanner does not know are errors; an escaped
    surrogate without its pair and a byte sequence that is not UTF-8 become
    U+FFFD. *)
Fixpoint json_string (fuel : nat) (s : string) : option (string * string) :=
  match fuel with
  | O => None
  | S fuel' =>
      let continue (piece rest : string) :=
        match json_string fuel' rest with
        | Some (d, rest') => Some (piece +:+ d, rest')
        | None => None
        end in
      match s with
      | EmptyString => None
      | String c r =>
          let b := code c in
          if b =? 34 then Some (EmptyString, r)
          else if b <? 32 then None
          else if b =? 92 then
            match r with
            | EmptyString => None
            | String e r' =>
                if code e =? 117 then
                  match json_hex4 r' with
                  | None => None
                  | Some rr =>
                      let r4 := dropBytes 4 r' in
                      if inRange 55296 57343 rr then
                        match json_getu4 r4 with
                        | Some rr1 =>
                            if (rr <? 56320) && inRange 56320 57343 rr1
                            then continue
                                   (utf8_EncodeRune
                                      (Z.lor (Z.shiftl (rr - 55296) 10) (rr1 - 56320)
                                       + 65536))
                                   (dropBytes 6 r4)
                            else continue (utf8_EncodeRune RuneError) r4
                        | None => continue (utf8_EncodeRune RuneError) r4
                        end
                      else continue (utf8_EncodeRune rr) r4
                  end
                else
                  match json_escape (code e) with
                  | Some k => continue (String (byteOf k) EmptyString) r'
                  | None => None
                  end
            end
          else if b <? 128 then continue (String c EmptyString) r
          else
            let '(rr, size) := utf8_DecodeRuneInString s in
            continue (utf8_EncodeRune rr) (dropBytes size s)
      end
  end.

Fixpoint json_digits (s : string) : string :=
  match s with
  | String c r => if isDigit c then json_digits r else s
  | EmptyString => s
  end.

(** A number literal at the head of [s]: the text after it. *)
Definition json_number (s : string) : option string :=
  let s := if startsWith 45 s then dropBytes 1 s else s in
  match s with
  | EmptyString => None
  | String c r =>
      let afterInt :=
        if code c =? 48 then Some r
        else if inRange 49 57 (code c) then Some (json_digits r)
        else None in
      match afterInt with
      | None => None
      | Some s1 =>
          let afterFrac :=
            if startsWith 46 s1 then
              match dropBytes 1 s1 with
              | String d r1 => if isDigit d then Some (json_digits r1) else None
              | EmptyString => None
              end
            else Some s1 in
          match afterFrac with
          | None => None
          | Some s2 =>
              if startsWith 101 s2 || startsWith 69 s2 then
                let s3 := dropBytes 1 s2 in
                let s4 := if startsWith 43 s3 || startsWith 45 s3
                          then dropBytes 1 s3 else s3 in
                match s4 with
                | String d r2 => if isDigit d then Some (json_digits r2) else None
                | EmptyString => None
                end
              else Some s2
          end
      end
  end.

(** The word [w] at the head of [s]: the text after it. *)
Fixpoint json_word (w s : string) : option string :=
  match w, s with
  | EmptyString, _ => Some s
  | String a w', String c r => if Ascii.eqb a c then json_word w' r else None
  | String _ _, EmptyString => None
  end.

(** [maxNestingDepth] of the scanner. *)
Definition json_maxNestingDepth : Z := 10000.

(** A value at the head of [s], where no space is left to skip: the value
    and the text after it. Every call reads at least one byte, two calls
    deep at most for each, so that fuel of twice the length of the text
    and two is enough. *)
Fixpoint json_value (fuel : nat) (depth : Z) (s : string) : option (JSON * string) :=
  match fuel with
  | O => None
  | S fuel' =>
      match s with
      | EmptyString => None
      | String c r =>
          let b := code c in
          if b =? 123 then
            if json_maxNestingDepth <? depth + 1 then None
            else
              match json_skipSpace r with
              | EmptyString => None
              | String c1 r1 =>
                  if code c1 =? 125 then Some (JObject [], r1)
                  else
                    match json_members fuel' (depth + 1) (String c1 r1) with
                    | Some (ms, rest) => Some (JObject ms, rest)
                    | None => None
                    end
              end
          else if b =? 91 then
            if json_maxNestingDepth <? depth + 1 then None
            else
              match json_skipSpace r with
              | EmptyString => None
              | String c1 r1 =>
                  if code c1 =? 93 then Some (JArray [], r1)
                  else
                    match json_elements fuel' (depth + 1) (String c1 r1) with
                    | Some (vs, rest) => Some (JArray vs, rest)
                    | None => None
                    end
              end
          else if b =? 34 then
            match json_string (String.length s) r with
            | Some (str, rest) => Some (JString str, rest)
            | None => None
            end
          else if b =? 116 then option_map (pair (JBool true)) (json_word "true" s)
          else if b =? 102 then option_map (pair (JBool false)) (json_word "false" s)
          else if b =? 110 then option_map (pair JNull) (json_word "null" s)
          else
            match json_number s with
            | Some rest =>
                Some (JNumber (takeBytes (String.length s - String.length rest) s),
                      rest)
            | None => None
            end
      end
  end
with json_elements (fuel : nat) (depth : Z) (s : string)
    : option (list JSON * string) :=
  match fuel with
  | O => None
  | S fuel' =>
      match json_value fuel' depth s with
      | None => None
      | Some (v, r) =>
          match json_skipSpace r with
          | EmptyString => None
          | String c r' =>
              if code c =? 44 then
                match json_elements fuel' depth (json_skipSpace r') with
                | Some (vs, rest) => Some (v :: vs, rest)
                | None => None
                end
              else if code c =? 93 then Some ([v], r')
              else None
          end
      end
  end
with json_members (fuel : nat) (depth : Z) (s : string)
    : option (list (string * JSON) * string) :=
  match fuel with
  | O => None
  | S fuel' =>
      match s with
      | EmptyString => None
      | String q r =>
          if negb (code q =? 34) then None
          else
            match json_string (String.length s) r with
            | None => None
            | Some (key, r1) =>
                match json_skipSpace r1 with
                | EmptyString => None
                | String colon r2 =>
                    if negb (code colon =? 58) then None
                    else
                      match json_value fuel' depth (json_skipSpace r2) with
                      | None => None
                      | Some (v, r3) =>
                          match json_skipSpace r3 with
                          | EmptyString => None
                          | String c r4 =>
                              if code c =? 44 then
                                match json_members fuel' depth (json_skipSpace r4) with
                                | Some (ms, rest) => Some ((key, v) :: ms, rest)
                                | None => None
                                end
                              else if code c =? 125 then Some ([(key, v)], r4)
                              else None
                          end
                      end
                end
            end
      end
  end.

(** The text as one value with nothing but space around it, which is what
    [checkValid] asks for; [None] for a syntax error. *)
Definition json_parse (data : string) : option JSON :=
  match json_value (2 * String.length data + 2) 0 (json_skipSpace data) with
  | Some (v, rest) => if isEmpty (json_skipSpace rest) then Some v else None
  | None => None
  end.

(** [foldName]: the key as it is compared with the names of the fields
    when no name equals it. The letters [a-z] are moved to [A-Z]; of the
    runes above 127 only U+017F and U+212A fold to a letter, [S] and [K];
    the other ones fold to runes above 127, which no field name of the
    plugin holds, and are kept as they are. *)
Fixpoint json_foldName (fuel : nat) (s : string) : string :=
  match fuel with
  | O => EmptyString
  | S fuel' =>
      match s with
      | EmptyString => EmptyString
      | String c r =>
          if code c <? 128 then
            String (if inRange 97 122 (code c) then byteOf (code c - 32) else c)
              (json_foldName fuel' r)
          else
            let '(rr, size) := utf8_DecodeRuneInString s in
            (if rr =? 383 then "S"
             else if rr =? 8490 then "K"
             else utf8_EncodeRune rr)
            +:+ json_foldName fuel' (dropBytes size s)
      end
  end.

(** The key names the field: it is the name, or folds to what the name
    folds to. *)
Definition json_names (key field : string) : bool :=
  String.eqb key field
  || String.eqb (json_foldName (String.length key) key)
       (json_foldName (String.length field) field).

(** A value stored into a string: a string literal replaces it, [null]
    leaves it as it is, and any other value is a type error. *)
Definition json_storeString (v : JSON) (old : string) : option string :=
  match v with
  | JString s => Some s
  | JNull => Some old
  | _ => None
  end.

(** The elements of an array stored into a slice, one after the other
    from index 0. [old] is what the backing array of the slice holds from
    the current index on; past its end a new element is the zero value.
    The result is the slice and what the backing array holds after it. *)
Fixpoint json_storeElements {A : Type} (store : JSON -> A -> option A) (zero : A)
    (elements : list JSON) (old : list A) : option (list A * list A) :=
  match elements with
  | [] => Some ([], old)
  | e :: es =>
      match store e (hd zero old) with
      | None => None
      | Some x =>
          match json_storeElements store zero es (tl old) with
          | Some (slice, spare) => Some (x :: slice, spare)
          | None => None
          end
      end
  end.

(** A value stored into a slice, which is given with the rest of its
    backing array: [null] and the empty array leave a slice without
    elements, an array is stored element by element over what is there,
    and any other value is a type error. *)
Definition json_storeSlice {A : Type} (store : JSON -> A -> option A) (zero : A)
    (v : JSON) (slice : list A * list A) : option (list A * list A) :=
  match v with
  | JNull => Some ([], [])
  | JArray [] => Some ([], [])
  | JArray elements => json_storeElements store zero elements (fst slice ++ snd slice)
  | _ => None
  end.

(** * The plugin

    ** Constants and configuration *)

Definition providerCloudflare : string := "cloudflare".
Definition providerFastly : string := "fastly".
Definition providerCloudfront : string := "cloudfront".
Definition providerCustom : string := "custom".
Definition awsCloudfrontLabel : string := "CLOUDFRONT".
Definition defaultPollInterval : string := "300s".

Definition defaultCloudflareIPv4Endpoint : string := "https://www.cloudflare.com/ips-v4/".
Definition defaultCloudflareIPv6Endpoint : string := "https://www.cloudflare.com/ips-v6/".
Definition defaultFastlyEndpoint : string := "https://api.fastly.com/public-ip-list".
Definition defaultAwsIPRangesEndpoint : string := "https://ip-ranges.amazonaws.com/ip-ranges.json".

(** The map [supportedProviders], used as a set. *)
Definition supportedProviders : gset string :=
  {[ providerCloudflare; providerFastly; providerCloudfront; providerCustom ]}.

(** [dynamic.IPStrategy], passed through as it is. *)
Record IPStrategy : Type := mkIPStrategy {
  Depth : Z;
  ExcludedIPs : list string
}.

(** [Config], the plugin configuration. *)
Module Config.

Record t : Type := mk {
  Provider : string;
  PollInterval : string;
  IPv4Resolver : string;
  IPv6Resolver : string;
  WhitelistIPv6 : bool;
  AdditionalSourceRange : list string;
  IPStrategy : IPStrategy
}.

End Config.

(** [CreateConfig]; the provider is left at the zero value. *)
Definition CreateConfig : Config.t :=
  {| Config.Provider := "";
     Config.PollInterval := defaultPollInterval;
     Config.IPv4Resolver := "https://api4.ipify.org/?format=text";
     Config.IPv6Resolver := "https://api6.ipify.org/?format=text";
     Config.WhitelistIPv6 := false;
     Config.AdditionalSourceRange := [];
     Config.IPStrategy := {| Depth := 0; ExcludedIPs := [] |} |}.

(** ** Errors

    One constructor for each place where the code makes an error; the
    comment gives the message. Errors that come out of the HTTP getter are
    kept apart in [httpError]. The last constructor is the panic of
    [time.NewTicker], which the goroutine of [Provide] recovers from. *)

Inductive httpError : Type :=
| ErrNewRequest                       (* http.NewRequestWithContext *)
| ErrDo                               (* client.Do *)
| ErrStatus (status : Z) (url : string) (* unexpected status code %d from %s *)
| ErrReadBody.                        (* io.ReadAll *)

Inductive error : Type :=
| ErrDuration (s : string)            (* time.ParseDuration *)
| ErrProviderRequired                 (* provider is required *)
| ErrUnsupportedProvider (name : string) (* unsupported provider %q *)
| ErrIPv4ResolverRequired             (* custom provider requires an ipv4Resolver *)
| ErrIPv6ResolverRequired             (* custom provider requires an ipv6Resolver when whitelistIPv6 is true *)
| ErrPollInterval                     (* poll interval must be greater than 0 *)
| ErrNotIPv6 (input : string)         (* input is not an IPv6 address: %s *)
| ErrNoSourceRanges                   (* no source ranges resolved *)
| ErrCloudflareEmpty                  (* cloudflare: empty IPv4 range list *)
| ErrFastlyJSON                       (* fastly: %w *)
| ErrFastlyEmpty                      (* fastly: empty IPv4 addresses list *)
| ErrCloudfrontJSON                   (* cloudfront: %w *)
| ErrCloudfrontEmpty                  (* cloudfront: empty IPv4 prefix set *)
| ErrInvalidIPv4Response              (* custom provider: invalid IPv4 response *)
| ErrInvalidIPv6Response              (* custom provider: invalid IPv6 response *)
| ErrHTTP (e : httpError)
| PanicNewTicker.                     (* panic: non-positive interval for NewTicker *)

Inductive result (A : Type) : Type :=
| Ok (a : A)
| Err (e : error).

Arguments Ok {A} a.
Arguments Err {A} e.

Definition isOk {A : Type} (r : result A) : bool :=
  match r with Ok _ => true | Err _ => false end.

(** ** The network and the HTTP getter *)

(** What one GET can come to. *)
Inductive Reply : Type :=
| RequestRefused                      (* the request cannot be built *)
| TransportFailed                     (* no response: DNS, connection, timeout *)
| Response (status : Z) (body : option string). (* [None]: the body cannot be read *)

(** The network: the reply to the [k]-th request, by URL, and the number of
    requests made so far. *)
Record Net : Type := mkNet {
  upstream : nat -> string -> Reply;
  served : nat
}.

(** [httpGetter] without its context argument. *)
Definition httpGetter : Type := string -> Net -> (httpError + string) * Net.

Record Client : Type := mkClient { Timeout : Z }.

(** [defaultHTTPGetter]. The request header [X-Kes-RequestID] does not show
    in the outcome and is left out; the timeout of the client is one of the
    ways in which [client.Do] fails. *)
Definition defaultHTTPGetter (client : Client) : httpGetter :=
  fun url n =>
    match upstream n (served n) url with
    | RequestRefused => (inl ErrNewRequest, n)
    | TransportFailed => (inl ErrDo, mkNet (upstream n) (S (served n)))
    | Response status body =>
        let n' := mkNet (upstream n) (S (served n)) in
        if (status <? 200) || (300 <=? status) then (inl (ErrStatus status url), n')
        else
          match body with
          | None => (inl ErrReadBody, n')
          | Some b => (inr b, n')
          end
    end.

(** [crypto/rand.Read] on the sixteen bytes of a buffer: it fills the
    buffer from the random source of the system, [entropy] here, and the
    error it returns is always [nil]. Where the source cannot be read the
    library stops the process, and nothing returns. *)
Definition rand_Read (entropy : list Z) : list Z * option error :=
  (entropy, None).

(** [newRequestID], given the bytes of the random source and the clock in
    nanoseconds. The branch of the error is in the code as it is here; no
    run takes it. *)
Definition newRequestID (entropy : list Z) (unixNano : Z) : string :=
  let '(buf, err) := rand_Read entropy in
  match err with
  | Some _ => fmt_Sprintf_032x unixNano
  | None => hex_EncodeToString buf
  end.

(** ** The provider *)

(** [Provider]. The field [cancel], set by [Provide] and called by [Stop],
    shows as the event [Done] of the refresh loop below. *)
Record Provider : Type := mkProvider {
  name : string;
  providerName : string;
  pollInterval : Z;
  ipv4Resolver : string;
  ipv6Resolver : string;
  whitelistIPv6 : bool;
  additionalSourceRange : list string;
  ipStrategy : IPStrategy;
  httpGet : httpGetter
}.

(** [normalizeProviderName]. *)
Definition normalizeProviderName (name : string) : string :=
  strings_ToLower (strings_TrimSpace name).

(** [New]. *)
Definition New (config : Config.t) (name : string) : result Provider :=
  let pollInterval :=
    if String.eqb (strings_TrimSpace (Config.PollInterval config)) ""
    then defaultPollInterval else Config.PollInterval config in
  match time_ParseDuration pollInterval with
  | None => Err (ErrDuration pollInterval)
  | Some pi =>
      let providerName := normalizeProviderName (Config.Provider config) in
      if String.eqb providerName "" then Err ErrProviderRequired
      else if negb (bool_decide (providerName ∈ supportedProviders))
      then Err (ErrUnsupportedProvider (Config.Provider config))
      else if String.eqb providerName providerCustom
              && String.eqb (strings_TrimSpace (Config.IPv4Resolver config)) ""
      then Err ErrIPv4ResolverRequired
      else if String.eqb providerName providerCustom
              && Config.WhitelistIPv6 config
              && String.eqb (strings_TrimSpace (Config.IPv6Resolver config)) ""
      then Err ErrIPv6ResolverRequired
      else
        let httpClient := {| Timeout := 10 * 1000000000 |} in
        Ok {| name := name;
              providerName := providerName;
              pollInterval := pi;
              ipv4Resolver := Config.IPv4Resolver config;
              ipv6Resolver := Config.IPv6Resolver config;
              whitelistIPv6 := Config.WhitelistIPv6 config;
              additionalSourceRange := [] ++ Config.AdditionalSourceRange config;
              ipStrategy := Config.IPStrategy config;
              httpGet := defaultHTTPGetter httpClient |}
  end.

(** [Init]. *)
Definition Init (p : Provider) : result unit :=
  if pollInterval p <=? 0 then Err ErrPollInterval else Ok tt.

(** The constant [MaskSize] of [ipv6ToCIDR]. *)
Definition MaskSize : Z := 64.

(** [ipv6ToCIDR]. *)
Definition ipv6ToCIDR (ipv6 : string) : result string :=
  let ip := net_ParseIP ipv6 in
  if negb (isNil (To4 ip)) then Err (ErrNotIPv6 ipv6)
  else
    let ip := To16 ip in
    if isNil ip then Err (ErrNotIPv6 ipv6)
    else Ok (IP_String (Mask ip (net_CIDRMask MaskSize 128))
             +:+ "/" +:+ strconv_Itoa MaskSize).

(** [parseLineList]. *)
Definition parseLineList (data : string) : list string :=
  let lines := splitLines data in
  fold_left
    (fun results line =>
       let line := strings_TrimSpace line in
       if String.eqb line "" then results else results ++ [line])
    lines [].

(** ** The produced configuration

    The part of package [dynamic] the plugin fills in. The tables of
    routers, services, stores and so on are made and left empty. *)

(** An entry of one of those tables: a value of package [dynamic] or [tls]
    whose fields the plugin neither writes nor reads, kept opaque. A
    table can hold such entries under any keys. *)
Inductive Unused : Type := unusedEntry.

Record IPWhiteList : Type := mkIPWhiteList {
  SourceRange : list string;
  Strategy : IPStrategy
}.

Record Middleware : Type := mkMiddleware {
  WhiteList : IPWhiteList
}.

Record HTTPConfiguration : Type := mkHTTP {
  httpRouters : gmap string Unused;
  Middlewares : gmap string Middleware;
  httpServices : gmap string Unused;
  ServersTransports : gmap string Unused
}.

Record TCPConfiguration : Type := mkTCP {
  tcpRouters : gmap string Unused;
  tcpServices : gmap string Unused
}.

Record TLSConfiguration : Type := mkTLS {
  Stores : gmap string Unused;
  Options : gmap string Unused
}.

Record UDPConfiguration : Type := mkUDP {
  udpRouters : gmap string Unused;
  udpServices : gmap string Unused
}.

Record Configuration : Type := mkConfiguration {
  HTTP : HTTPConfiguration;
  TCP : TCPConfiguration;
  TLS : TLSConfiguration;
  UDP : UDPConfiguration
}.

(** [dynamic.JSONPayload], the value sent to the host. *)
Record JSONPayload : Type := mkJSONPayload {
  payloadConfiguration : Configuration
}.

(** ** The world and the monad of the engine *)

(** What the engine reads and changes outside its own values: the network,
    the package-level endpoint variables, the log, and the values sent on
    the delivery channel, oldest first. [requests] is a record kept by the
    model: the URLs the provider's getter was called with. *)
Record World : Type := mkWorld {
  network : Net;
  cloudflareIPv4Endpoint : string;
  cloudflareIPv6Endpoint : string;
  fastlyEndpoint : string;
  awsIPRangesEndpoint : string;
  requests : list string;
  logged : list error;
  cfgChan : list JSONPayload
}.

Definition initialWorld (n : Net) : World :=
  {| network := n;
     cloudflareIPv4Endpoint := defaultCloudflareIPv4Endpoint;
     cloudflareIPv6Endpoint := defaultCloudflareIPv6Endpoint;
     fastlyEndpoint := defaultFastlyEndpoint;
     awsIPRangesEndpoint := defaultAwsIPRangesEndpoint;
     requests := [];
     logged := [];
     cfgChan := [] |}.

Definition M (A : Type) : Type := World -> result A * World.

#[export] Instance M_ret : MRet M := fun A a w => (Ok a, w).

#[export] Instance M_bind : MBind M := fun A B f m w =>
  match m w with
  | (Ok a, w') => f a w'
  | (Err e, w') => (Err e, w')
  end.

Definition fail {A : Type} (e : error) : M A := fun w => (Err e, w).

(** Reading a package-level variable. *)
Definition readVar (var : World -> string) : M string := fun w => (Ok (var w), w).

(** The world after the call [p.httpGet(ctx, url)] made in [w]: the getter
    has moved the network on and the call is on record. *)
Definition afterGet (p : Provider) (url : string) (w : World) : World :=
  {| network := snd (httpGet p url (network w));
     cloudflareIPv4Endpoint := cloudflareIPv4Endpoint w;
     cloudflareIPv6Endpoint := cloudflareIPv6Endpoint w;
     fastlyEndpoint := fastlyEndpoint w;
     awsIPRangesEndpoint := awsIPRangesEndpoint w;
     requests := requests w ++ [url];
     logged := logged w;
     cfgChan := cfgChan w |}.

(** The call [p.httpGet(ctx, url)]. *)
Definition callHTTPGet (p : Provider) (url : string) : M string := fun w =>
  (match fst (httpGet p url (network w)) with
   | inl e => Err (ErrHTTP e)
   | inr body => Ok body
   end, afterGet p url w).

(** [log.Printf] of a refresh failure, [log.Print] of a recovered panic. *)
Definition logFailure (e : error) : M unit := fun w =>
  (Ok tt,
   {| network := network w;
      cloudflareIPv4Endpoint := cloudflareIPv4Endpoint w;
      cloudflareIPv6Endpoint := cloudflareIPv6Endpoint w;
      fastlyEndpoint := fastlyEndpoint w;
      awsIPRangesEndpoint := awsIPRangesEndpoint w;
      requests := requests w;
      logged := logged w ++ [e];
      cfgChan := cfgChan w |}).

(** The send [cfgChan <- v]. The model records the value at the send. In
    the code the send waits until the consumer takes the value, so the run
    goes on to the next event of the loop only once it was taken. *)
Definition send (v : JSONPayload) : M unit := fun w =>
  (Ok tt,
   {| network := network w;
      cloudflareIPv4Endpoint := cloudflareIPv4Endpoint w;
      cloudflareIPv6Endpoint := cloudflareIPv6Endpoint w;
      fastlyEndpoint := fastlyEndpoint w;
      awsIPRangesEndpoint := awsIPRangesEndpoint w;
      requests := requests w;
      logged := logged w;
      cfgChan := cfgChan w ++ [v] |}).

(** [SetCloudflareEndpoints], [SetFastlyEndpoint], [SetAwsIPRangesEndpoint]. *)
Definition SetCloudflareEndpoints (v4 v6 : string) (w : World) : World :=
  {| network := network w;
     cloudflareIPv4Endpoint := if String.eqb v4 "" then cloudflareIPv4Endpoint w else v4;
     cloudflareIPv6Endpoint := if String.eqb v6 "" then cloudflareIPv6Endpoint w else v6;
     fastlyEndpoint := fastlyEndpoint w;
     awsIPRangesEndpoint := awsIPRangesEndpoint w;
     requests := requests w;
     logged := logged w;
     cfgChan := cfgChan w |}.

Definition SetFastlyEndpoint (url : string) (w : World) : World :=
  {| network := network w;
     cloudflareIPv4Endpoint := cloudflareIPv4Endpoint w;
     cloudflareIPv6Endpoint := cloudflareIPv6Endpoint w;
     fastlyEndpoint := if String.eqb url "" then fastlyEndpoint w else url;
     awsIPRangesEndpoint := awsIPRangesEndpoint w;
     requests := requests w;
     logged := logged w;
     cfgChan := cfgChan w |}.

Definition SetAwsIPRangesEndpoint (url : string) (w : World) : World :=
  {| network := network w;
     cloudflareIPv4Endpoint := cloudflareIPv4Endpoint w;
     cloudflareIPv6Endpoint := cloudflareIPv6Endpoint w;
     fastlyEndpoint := fastlyEndpoint w;
     awsIPRangesEndpoint := if String.eqb url "" then awsIPRangesEndpoint w else url;
     requests := requests w;
     logged := logged w;
     cfgChan := cfgChan w |}.

(** ** Upstream payloads and their decoding *)

(** The payload struct of [fetchFastlyRanges]. *)
Record FastlyPayload : Type := mkFastlyPayload {
  Addresses : list string;
  IPv6Addresses : list string
}.

(** The payload struct of [fetchCloudfrontRanges]. *)
Record Prefix : Type := mkPrefix {
  IPPrefix : string;
  Service : string
}.

Record Prefix6 : Type := mkPrefix6 {
  IPv6Prefix : string;
  Service6 : string
}.

Record CloudfrontPayload : Type := mkCloudfrontPayload {
  Prefixes : list Prefix;
  IPv6Prefixes : list Prefix6
}.

(** [json.Unmarshal] into a zero value of type [T]: the decoded value, or
    [None] for an error. The decoder of [encoding/json] is not part of the
    plugin, and the engine is stated for any decoder; the decoder of the
    library on the two payloads is [json_UnmarshalFastly] and
    [json_UnmarshalCloudfront] below. *)
Class Unmarshal (T : Type) : Type := json_Unmarshal : string -> option T.

(** ** The decoder of [encoding/json] on the two payloads

    An error of the decoder is [None]: the plugin tells no two of them
    apart. A type error does not stop the library, which goes on and
    returns the first one in the end; the model stops at it. *)

(** The members of an object stored into the payload of
    [fetchFastlyRanges], each slice with the rest of its backing array. *)
Fixpoint json_storeFastly (members : list (string * JSON))
    (addresses ipv6 : list string * list string)
    : option ((list string * list string) * (list string * list string)) :=
  match members with
  | [] => Some (addresses, ipv6)
  | (key, v) :: rest =>
      if json_names key "addresses" then
        match json_storeSlice json_storeString EmptyString v addresses with
        | Some addresses' => json_storeFastly rest addresses' ipv6
        | None => None
        end
      else if json_names key "ipv6_addresses" then
        match json_storeSlice json_storeString EmptyString v ipv6 with
        | Some ipv6' => json_storeFastly rest addresses ipv6'
        | None => None
        end
      else json_storeFastly rest addresses ipv6
  end.

(** [json.Unmarshal] into the payload of [fetchFastlyRanges]. *)
Definition json_UnmarshalFastly : Unmarshal FastlyPayload := fun data =>
  match json_parse data with
  | Some (JObject members) =>
      match json_storeFastly members ([], []) ([], []) with
      | Some (addresses, ipv6) =>
          Some {| Addresses := fst addresses; IPv6Addresses := fst ipv6 |}
      | None => None
      end
  | Some JNull => Some {| Addresses := []; IPv6Addresses := [] |}
  | _ => None
  end.

(** An element of [Prefixes]. *)
Fixpoint json_storePrefixFields (members : list (string * JSON)) (old : Prefix)
    : option Prefix :=
  match members with
  | [] => Some old
  | (key, v) :: rest =>
      if json_names key "ip_prefix" then
        match json_storeString v (IPPrefix old) with
        | Some s => json_storePrefixFields rest {| IPPrefix := s; Service := Service old |}
        | None => None
        end
      else if json_names key "service" then
        match json_storeString v (Service old) with
        | Some s => json_storePrefixFields rest {| IPPrefix := IPPrefix old; Service := s |}
        | None => None
        end
      else json_storePrefixFields rest old
  end.

Definition json_storePrefix (v : JSON) (old : Prefix) : option Prefix :=
  match v with
  | JObject members => json_storePrefixFields members old
  | JNull => Some old
  | _ => None
  end.

(** An element of [IPv6Prefixes]. *)
Fixpoint json_storePrefix6Fields (members : list (string * JSON)) (old : Prefix6)
    : option Prefix6 :=
  match members with
  | [] => Some old
  | (key, v) :: rest =>
      if json_names key "ipv6_prefix" then
        match json_storeString v (IPv6Prefix old) with
        | Some s =>
            json_storePrefix6Fields rest {| IPv6Prefix := s; Service6 := Service6 old |}
        | None => None
        end
      else if json_names key "service" then
        match json_storeString v (Service6 old) with
        | Some s =>
            json_storePrefix6Fields rest {| IPv6Prefix := IPv6Prefix old; Service6 := s |}
        | None => None
        end
      else json_storePrefix6Fields rest old
  end.

Definition json_storePrefix6 (v : JSON) (old : Prefix6) : option Prefix6 :=
  match v with
  | JObject members => json_storePrefix6Fields members old
  | JNull => Some old
  | _ => None
  end.

Fixpoint json_storeCloudfront (members : list (string * JSON))
    (prefixes : list Prefix * list Prefix) (ipv6 : list Prefix6 * list Prefix6)
    : option ((list Prefix * list Prefix) * (list Prefix6 * list Prefix6)) :=
  match members with
  | [] => Some (prefixes, ipv6)
  | (key, v) :: rest =>
      if json_names key "prefixes" then
        match json_storeSlice json_storePrefix
                {| IPPrefix := EmptyString; Service := EmptyString |} v prefixes with
        | Some prefixes' => json_storeCloudfront rest prefixes' ipv6
        | None => None
        end
      else if json_names key "ipv6_prefixes" then
        match json_storeSlice json_storePrefix6
                {| IPv6Prefix := EmptyString; Service6 := EmptyString |} v ipv6 with
        | Some ipv6' => json_storeCloudfront rest prefixes ipv6'
        | None => None
        end
      else json_storeCloudfront rest prefixes ipv6
  end.

(** [json.Unmarshal] into the payload of [fetchCloudfrontRanges]. *)
Definition json_UnmarshalCloudfront : Unmarshal CloudfrontPayload := fun data =>
  match json_parse data with
  | Some (JObject members) =>
      match json_storeCloudfront members ([], []) ([], []) with
      | Some (prefixes, ipv6) =>
          Some {| Prefixes := fst prefixes; IPv6Prefixes := fst ipv6 |}
      | None => None
      end
  | Some JNull => Some {| Prefixes := []; IPv6Prefixes := [] |}
  | _ => None
  end.

(** ** Provider strategies, aggregation, emission *)

Section Engine.

Context {decodeFastly : Unmarshal FastlyPayload}.
Context {decodeCloudfront : Unmarshal CloudfrontPayload}.

(** [fetchCloudflareRanges]. *)
Definition fetchCloudflareRanges (p : Provider) : M (list string) :=
  url ← readVar cloudflareIPv4Endpoint;
  body ← callHTTPGet p url;
  let ranges := parseLineList body in
  if (length ranges =? 0)%nat then fail ErrCloudflareEmpty
  else if whitelistIPv6 p then
    url6 ← readVar cloudflareIPv6Endpoint;
    body6 ← callHTTPGet p url6;
    mret (ranges ++ parseLineList body6)
  else mret ranges.

(** [fetchFastlyRanges]. *)
Definition fetchFastlyRanges (p : Provider) : M (list string) :=
  url ← readVar fastlyEndpoint;
  body ← callHTTPGet p url;
  match json_Unmarshal (T := FastlyPayload) body with
  | None => fail ErrFastlyJSON
  | Some payload =>
      let ranges := [] ++ Addresses payload in
      if (length ranges =? 0)%nat then fail ErrFastlyEmpty
      else if whitelistIPv6 p then mret (ranges ++ IPv6Addresses payload)
      else mret ranges
  end.

(** [fetchCloudfrontRanges]. *)
Definition fetchCloudfrontRanges (p : Provider) : M (list string) :=
  url ← readVar awsIPRangesEndpoint;
  body ← callHTTPGet p url;
  match json_Unmarshal (T := CloudfrontPayload) body with
  | None => fail ErrCloudfrontJSON
  | Some payload =>
      let ranges :=
        fold_left
          (fun ranges prefix =>
             if String.eqb (Service prefix) awsCloudfrontLabel
             then ranges ++ [strings_TrimSpace (IPPrefix prefix)]
             else ranges)
          (Prefixes payload) [] in
      if (length ranges =? 0)%nat then fail ErrCloudfrontEmpty
      else if whitelistIPv6 p then
        mret (fold_left
                (fun ranges prefix =>
                   if String.eqb (Service6 prefix) awsCloudfrontLabel
                   then ranges ++ [strings_TrimSpace (IPv6Prefix prefix)]
                   else ranges)
                (IPv6Prefixes payload) ranges)
      else mret ranges
  end.

(** [fetchCustomRanges]. *)
Definition fetchCustomRanges (p : Provider) : M (list string) :=
  if String.eqb (strings_TrimSpace (ipv4Resolver p)) "" then fail ErrIPv4ResolverRequired
  else
    body ← callHTTPGet p (ipv4Resolver p);
    let ipv4 := strings_TrimSpace body in
    if isNil (net_ParseIP ipv4) then fail ErrInvalidIPv4Response
    else
      let ranges := [ipv4] in
      if whitelistIPv6 p then
        if String.eqb (strings_TrimSpace (ipv6Resolver p)) "" then fail ErrIPv6ResolverRequired
        else
          body6 ← callHTTPGet p (ipv6Resolver p);
          let ipv6 := strings_TrimSpace body6 in
          if isNil (net_ParseIP ipv6) then fail ErrInvalidIPv6Response
          else
            match ipv6ToCIDR ipv6 with
            | Err e => fail e
            | Ok ipv6CIDR => mret (ranges ++ [ipv6CIDR])
            end
      else mret ranges.

(** [fetchProviderRanges]. *)
Definition fetchProviderRanges (p : Provider) : M (list string) :=
  if String.eqb (providerName p) providerCloudflare then fetchCloudflareRanges p
  else if String.eqb (providerName p) providerFastly then fetchFastlyRanges p
  else if String.eqb (providerName p) providerCloudfront then fetchCloudfrontRanges p
  else if String.eqb (providerName p) providerCustom then fetchCustomRanges p
  else fail (ErrUnsupportedProvider (providerName p)).

(** [buildSourceRanges]. *)
Definition buildSourceRanges (p : Provider) : M (list string) :=
  providerRanges ← fetchProviderRanges p;
  let sourceRange := [] ++ additionalSourceRange p in
  let sourceRange := sourceRange ++ providerRanges in
  if (length sourceRange =? 0)%nat then fail ErrNoSourceRanges
  else mret sourceRange.

(** [generateConfiguration]. *)
Definition generateConfiguration (p : Provider) : M Configuration :=
  sourceRange ← buildSourceRanges p;
  let configuration :=
    {| HTTP := {| httpRouters := ∅; Middlewares := ∅;
                  httpServices := ∅; ServersTransports := ∅ |};
       TCP := {| tcpRouters := ∅; tcpServices := ∅ |};
       TLS := {| Stores := ∅; Options := ∅ |};
       UDP := {| udpRouters := ∅; udpServices := ∅ |} |} in
  let middleware :=
    {| WhiteList :=
         {| SourceRange := sourceRange;
            Strategy := {| Depth := Depth (ipStrategy p);
                           ExcludedIPs := ExcludedIPs (ipStrategy p) |} |} |} in
  mret {| HTTP := {| httpRouters := httpRouters (HTTP configuration);
                     Middlewares :=
                       <["public_ipwhitelist" := middleware]>
                         (Middlewares (HTTP configuration));
                     httpServices := httpServices (HTTP configuration);
                     ServersTransports := ServersTransports (HTTP configuration) |};
          TCP := TCP configuration;
          TLS := TLS configuration;
          UDP := UDP configuration |}.

(** [GenerateConfiguration]. *)
Definition GenerateConfiguration (p : Provider) : M Configuration :=
  generateConfiguration p.

(** [emitConfiguration]: a failed refresh is logged and nothing is sent. *)
Definition emitConfiguration (p : Provider) : M unit := fun w =>
  match generateConfiguration p w with
  | (Err err, w') => logFailure err w'
  | (Ok configuration, w') =>
      send {| payloadConfiguration := configuration |} w'
  end.

(** What the [select] of the refresh loop receives: a tick of the ticker or
    the cancellation of the context. *)
Inductive Event : Type := Tick | Done.

(** The [for] loop of [loadConfiguration], over the events its [select]
    receives. The function returns at [Done]. At the end of the list it has
    not returned: it waits in [select], and the result [Ok tt] there says
    only that the run so far went without a panic; the world is the one in
    which it waits. *)
Fixpoint refreshLoop (p : Provider) (events : list Event) : M unit :=
  match events with
  | [] => mret tt
  | Tick :: rest => _ ← emitConfiguration p; refreshLoop p rest
  | Done :: _ => mret tt
  end.

(** [loadConfiguration]: the ticker is made first, and [time.NewTicker]
    panics on an interval that is not positive; then one refresh at once,
    then the loop. *)
Definition loadConfiguration (p : Provider) (events : list Event) : M unit :=
  if pollInterval p <=? 0 then fail PanicNewTicker
  else
    _ ← emitConfiguration p;
    refreshLoop p events.

(** The goroutine [Provide] starts, run over the events it receives: a panic
    of [loadConfiguration] is recovered and printed to the log. *)
Definition Provide (p : Provider) (events : list Event) : M unit := fun w =>
  match loadConfiguration p events w with
  | (Err err, w') => logFailure err w'
  | (Ok _, w') => (Ok tt, w')
  end.

End Engine.

(** * Reference definitions

    What the properties below are stated with: the specification's wording
    of a computation, to be compared with the code's, and the samples the
    examples run on. *)

(** The line-list parser in the words of the specification: split on line
    feeds, trim each line, drop the lines that are empty then. *)
Definition lineListSpec (data : string) : list string :=
  List.filter (fun line => negb (isEmpty line))
    (map strings_TrimSpace (splitLines data)).

Definition isByte (b : Z) : Prop := 0 <= b <= 255.

(** The text is an address and not an IPv4 one: it parses, and [To4]
    gives nothing, which leaves out dotted quads and the IPv4-mapped
    addresses [::ffff:a.b.c.d] in any spelling. *)
Definition validIPv6 (s : string) : bool :=
  negb (isNil (net_ParseIP s)) && isNil (To4 (net_ParseIP s)).

(** The address masked to its top 64 bits. *)
Definition network64 (ip : IP) : IP := take 8 ip ++ zeros 8.

(** The text is a dotted-quad IPv4 address. *)
Definition isIPv4Text (s : string) : bool :=
  match netip_ParseAddr s with
  | Some (Addr4 _) => true
  | _ => false
  end.

(** The duration string [New] parses: the default when the field is blank. *)
Definition effectivePollInterval (config : Config.t) : string :=
  if String.eqb (strings_TrimSpace (Config.PollInterval config)) ""
  then defaultPollInterval else Config.PollInterval config.

(** The provider settings [New] accepts: the provider, trimmed and in lower
    case, is a known identifier, and the custom provider has the resolvers
    it needs, a resolver of blanks counting as missing. *)
Definition providerAccepted (config : Config.t) : Prop :=
  let providerName := normalizeProviderName (Config.Provider config) in
  providerName ∈ supportedProviders
  /\ (providerName = providerCustom ->
      strings_TrimSpace (Config.IPv4Resolver config) <> ""
      /\ (Config.WhitelistIPv6 config = true ->
          strings_TrimSpace (Config.IPv6Resolver config) <> "")).

(** The same in the words of the specification: the provider compared
    without regard to case, the resolvers non-empty. *)
Definition claimedAccepted (config : Config.t) : Prop :=
  let lowered := strings_ToLower (Config.Provider config) in
  lowered ∈ supportedProviders
  /\ (lowered = providerCustom ->
      Config.IPv4Resolver config <> ""
      /\ (Config.WhitelistIPv6 config = true -> Config.IPv6Resolver config <> "")).

(** The body the getter returns for [url] in [w], if it returns one. *)
Definition replyBody (p : Provider) (url : string) (w : World) : option string :=
  match fst (httpGet p url (network w)) with
  | inr body => Some body
  | inl _ => None
  end.

(** The endpoint a strategy reads IPv4 ranges from. *)
Definition ipv4Endpoint (p : Provider) (w : World) : string :=
  if String.eqb (providerName p) providerCloudflare then cloudflareIPv4Endpoint w
  else if String.eqb (providerName p) providerFastly then fastlyEndpoint w
  else if String.eqb (providerName p) providerCloudfront then awsIPRangesEndpoint w
  else ipv4Resolver p.

(** The second endpoint of the strategies that have one. *)
Definition ipv6Endpoint (p : Provider) (w : World) : string :=
  if String.eqb (providerName p) providerCloudflare then cloudflareIPv6Endpoint w
  else ipv6Resolver p.

(** The service-filtered prefixes in the words of the specification: the
    records whose service label equals the fixed label, byte for byte. *)
Definition cloudfrontIPv4 (payload : CloudfrontPayload) : list string :=
  map (fun r => strings_TrimSpace (IPPrefix r))
    (List.filter (fun r => String.eqb (Service r) awsCloudfrontLabel)
       (Prefixes payload)).

Definition cloudfrontIPv6 (payload : CloudfrontPayload) : list string :=
  map (fun r => strings_TrimSpace (IPv6Prefix r))
    (List.filter (fun r => String.eqb (Service6 r) awsCloudfrontLabel)
       (IPv6Prefixes payload)).

(** The outcome of a fetch with IPv6 switched off, from the kind of
    provider, the IPv4 resolver, the reply of the IPv4 endpoint, and, for a
    body in JSON, the IPv4 field of what the body decodes to: [addresses]
    and [prefixes] give [None] for a body that does not decode, whichever
    of its fields is the reason, an IPv6 field included. *)
Definition ipv4Outcome (kind resolver : string) (reply : httpError + string)
    (addresses : string -> option (list string))
    (prefixes : string -> option (list Prefix)) : result (list string) :=
  if String.eqb kind providerCloudflare then
    match reply with
    | inl e => Err (ErrHTTP e)
    | inr body =>
        match parseLineList body with
        | [] => Err ErrCloudflareEmpty
        | rs => Ok rs
        end
    end
  else if String.eqb kind providerFastly then
    match reply with
    | inl e => Err (ErrHTTP e)
    | inr body =>
        match addresses body with
        | None => Err ErrFastlyJSON
        | Some [] => Err ErrFastlyEmpty
        | Some rs => Ok rs
        end
    end
  else if String.eqb kind providerCloudfront then
    match reply with
    | inl e => Err (ErrHTTP e)
    | inr body =>
        match prefixes body with
        | None => Err ErrCloudfrontJSON
        | Some records =>
            match map (fun r => strings_TrimSpace (IPPrefix r))
                    (List.filter (fun r => String.eqb (Service r) awsCloudfrontLabel)
                       records) with
            | [] => Err ErrCloudfrontEmpty
            | rs => Ok rs
            end
        end
    end
  else if String.eqb kind providerCustom then
    if String.eqb (strings_TrimSpace resolver) "" then Err ErrIPv4ResolverRequired
    else
      match reply with
      | inl e => Err (ErrHTTP e)
      | inr body =>
          if isNil (net_ParseIP (strings_TrimSpace body))
          then Err ErrInvalidIPv4Response
          else Ok [strings_TrimSpace body]
      end
  else Err (ErrUnsupportedProvider kind).

Section Provenance.

Context {decodeFastly : Unmarshal FastlyPayload}.
Context {decodeCloudfront : Unmarshal CloudfrontPayload}.

(** The ranges a strategy derives from its IPv4 endpoint or payload field. *)
Definition ipv4Derived (p : Provider) (w : World) : option (list string) :=
  match replyBody p (ipv4Endpoint p w) w with
  | None => None
  | Some body =>
      if String.eqb (providerName p) providerCloudflare then Some (parseLineList body)
      else if String.eqb (providerName p) providerFastly
      then option_map Addresses (json_Unmarshal body)
      else if String.eqb (providerName p) providerCloudfront
      then option_map cloudfrontIPv4 (json_Unmarshal body)
      else if String.eqb (providerName p) providerCustom
      then Some [strings_TrimSpace body]
      else None
  end.

(** The ranges a strategy derives from its IPv6 endpoint, asked after the
    IPv4 endpoint, or from the IPv6 field of the payload. *)
Definition ipv6Derived (p : Provider) (w : World) : option (list string) :=
  if String.eqb (providerName p) providerFastly then
    match replyBody p (ipv4Endpoint p w) w with
    | Some body => option_map IPv6Addresses (json_Unmarshal body)
    | None => None
    end
  else if String.eqb (providerName p) providerCloudfront then
    match replyBody p (ipv4Endpoint p w) w with
    | Some body => option_map cloudfrontIPv6 (json_Unmarshal body)
    | None => None
    end
  else
    match replyBody p (ipv6Endpoint p w) (afterGet p (ipv4Endpoint p w) w) with
    | None => None
    | Some body6 =>
        if String.eqb (providerName p) providerCloudflare
        then Some (parseLineList body6)
        else if String.eqb (providerName p) providerCustom then
          match ipv6ToCIDR (strings_TrimSpace body6) with
          | Ok cidr => Some [cidr]
          | Err _ => None
          end
        else None
    end.

(** The combined list in the words of the specification: the static
    ranges followed by what the provider resolves, which is nothing where
    a reply cannot be used. *)
Definition combinedRanges (p : Provider) (w : World) : list string :=
  additionalSourceRange p
  ++ default [] (ipv4Derived p w)
  ++ (if whitelistIPv6 p then default [] (ipv6Derived p w) else []).

(** The value was produced by a refresh that succeeded. *)
Definition producedBy (p : Provider) (v : JSONPayload) : Prop :=
  exists w0 w1, generateConfiguration p w0 = (Ok (payloadConfiguration v), w1).

End Provenance.

(** The worlds agree on everything but the network and the requests. *)
Definition sameOutside (w w' : World) : Prop :=
  cloudflareIPv4Endpoint w' = cloudflareIPv4Endpoint w
  /\ cloudflareIPv6Endpoint w' = cloudflareIPv6Endpoint w
  /\ fastlyEndpoint w' = fastlyEndpoint w
  /\ awsIPRangesEndpoint w' = awsIPRangesEndpoint w
  /\ logged w' = logged w
  /\ cfgChan w' = cfgChan w.

(** The delivered source ranges of the configurations on the channel. *)
Definition deliveredRanges (w : World) : list (option (list string)) :=
  map (fun v =>
         option_map (fun m => SourceRange (WhiteList m))
           (Middlewares (HTTP (payloadConfiguration v)) !! "public_ipwhitelist"))
    (cfgChan w).

(** The ticks the refresh loop serves: those before the first
    cancellation. *)
Fixpoint ticksBeforeDone (events : list Event) : nat :=
  match events with
  | Tick :: rest => S (ticksBeforeDone rest)
  | _ => O
  end.

Fixpoint untilDone (events : list Event) : list Event :=
  match events with
  | Tick :: rest => Tick :: untilDone rest
  | _ => []
  end.

(** None of the four endpoint variables is empty. *)
Definition endpointsSet (w : World) : Prop :=
  cloudflareIPv4Endpoint w <> "" /\ cloudflareIPv6Endpoint w <> ""
  /\ fastlyEndpoint w <> "" /\ awsIPRangesEndpoint w <> "".

(** A configuration with its provider field set, as a caller of
    [CreateConfig] does. *)
Definition withProvider (provider : string) (config : Config.t) : Config.t :=
  {| Config.Provider := provider;
     Config.PollInterval := Config.PollInterval config;
     Config.IPv4Resolver := Config.IPv4Resolver config;
     Config.IPv6Resolver := Config.IPv6Resolver config;
     Config.WhitelistIPv6 := Config.WhitelistIPv6 config;
     Config.AdditionalSourceRange := Config.AdditionalSourceRange config;
     Config.IPStrategy := Config.IPStrategy config |}.



(** ** Samples *)

Definition sampleConfig (provider interval : string) : Config.t :=
  {| Config.Provider := provider;
     Config.PollInterval := interval;
     Config.IPv4Resolver := "http://resolver.test/v4";
     Config.IPv6Resolver := "http://resolver.test/v6";
     Config.WhitelistIPv6 := false;
     Config.AdditionalSourceRange := ["127.0.0.1/32"; "192.168.0.24"];
     Config.IPStrategy := {| Depth := 1; ExcludedIPs := ["123.0.0.1"] |} |}.

Definition blankResolverConfig : Config.t :=
  {| Config.Provider := "custom";
     Config.PollInterval := "300s";
     Config.IPv4Resolver := " ";
     Config.IPv6Resolver := "";
     Config.WhitelistIPv6 := false;
     Config.AdditionalSourceRange := [];
     Config.IPStrategy := {| Depth := 0; ExcludedIPs := [] |} |}.

(** An upstream that serves the payloads of the plugin's tests. *)
Definition sampleUpstream (url : string) : Reply :=
  if String.eqb url defaultCloudflareIPv4Endpoint
  then Response 200 (Some ("198.51.100.0/24" +:+ LF +:+ "203.0.113.0/25"))
  else if String.eqb url defaultCloudflareIPv6Endpoint
  then Response 200 (Some ("2001:db8::/32" +:+ LF +:+ "2001:db8:1::/48"))
  else if String.eqb url defaultFastlyEndpoint
  then Response 200 (Some "fastly-sample")
  else if String.eqb url defaultAwsIPRangesEndpoint
  then Response 200 (Some "aws-sample")
  else if String.eqb url "http://resolver.test/v4"
  then Response 200 (Some "192.0.2.123")
  else if String.eqb url "http://resolver.test/v6"
  then Response 200 (Some "1234:1234:1234:1234:1234:1234:1234:1234")
  else Response 500 None.

Definition sampleNet : Net := mkNet (fun _ => sampleUpstream) 0.

(** An upstream that answers every request with status 500. *)
Definition failingNet : Net := mkNet (fun _ _ => Response 500 None) 0.

(** An upstream that answers every request with an empty body. *)
Definition emptyReplyNet : Net := mkNet (fun _ _ => Response 200 (Some "")) 0.

(** A resolver that answers with an IPv6 address and a line feed. *)
Definition ipv6TextNet : Net :=
  mkNet (fun _ _ => Response 200 (Some ("2001:db8::1" +:+ LF))) 0.

Definition sampleFastlyPayload : FastlyPayload :=
  {| Addresses := ["198.51.100.0/24"]; IPv6Addresses := ["2001:db8::/48"] |}.

Definition sampleCloudfrontPayload : CloudfrontPayload :=
  {| Prefixes := [ {| IPPrefix := "198.51.100.0/24"; Service := "CLOUDFRONT" |};
                   {| IPPrefix := "203.0.113.0/24"; Service := "cloudfront" |} ];
     IPv6Prefixes := [ {| IPv6Prefix := "2001:db8::/48"; Service6 := "CLOUDFRONT" |} ] |}.

(** Decoders for the examples; each knows one body. *)
Definition sampleDecodeFastly : Unmarshal FastlyPayload :=
  fun body => if String.eqb body "fastly-sample" then Some sampleFastlyPayload else None.

Definition sampleDecodeCloudfront : Unmarshal CloudfrontPayload :=
  fun body => if String.eqb body "aws-sample" then Some sampleCloudfrontPayload else None.

Definition sampleProvider (kind : string) (ipv6 : bool) : Provider :=
  {| name := "test";
     providerName := kind;
     pollInterval := 1000000000;
     ipv4Resolver := "http://resolver.test/v4";
     ipv6Resolver := "http://resolver.test/v6";
     whitelistIPv6 := ipv6;
     additionalSourceRange := ["127.0.0.1/32"; "192.168.0.24"];
     ipStrategy := {| Depth := 1; ExcludedIPs := ["123.0.0.1"] |};
     httpGet := defaultHTTPGetter {| Timeout := 10 * 1000000000 |} |}.

(** A body in JSON is written with [quoted] for its string literals. *)
Definition quoted (s : string) : string :=
  String (byteOf 34) s +:+ String (byteOf 34) EmptyString.

(** A reply of the fastly endpoint with one IPv4 range and the given text
    as the value of the IPv6 field. *)
Definition fastlyBody (ipv6 : string) : string :=
  "{" +:+ quoted "addresses" +:+ ":[" +:+ quoted "198.51.100.0/24" +:+ "],"
  +:+ quoted "ipv6_addresses" +:+ ":" +:+ ipv6 +:+ "}".

(** An upstream that answers every request with the given body. *)
Definition bodyNet (body : string) : Net :=
  mkNet (fun _ _ => Response 200 (Some body)) 0.

(** A provider without static ranges. *)
Definition bareProvider (kind : string) : Provider :=
  {| name := "test";
     providerName := kind;
     pollInterval := 1000000000;
     ipv4Resolver := "http://resolver.test/v4";
     ipv6Resolver := "http://resolver.test/v6";
     whitelistIPv6 := false;
     additionalSourceRange := [];
     ipStrategy := {| Depth := 0; ExcludedIPs := [] |};
     httpGet := defaultHTTPGetter {| Timeout := 10 * 1000000000 |} |}.

(** ** Tactics *)

Ltac sixteen ip Hlen :=
  do 16 (destruct ip as [|? ip]; [done|]); destruct ip; [clear Hlen|done].

Ltac unfold_M :=
  unfold mbind, M_bind, mret, M_ret, fail, readVar in *.

Ltac world_simpl :=
  cbn [network requests logged cfgChan cloudflareIPv4Endpoint
       cloudflareIPv6Endpoint fastlyEndpoint awsIPRangesEndpoint
       afterGet fst snd] in *.

Ltac name_providers :=
  unfold providerCloudflare, providerFastly, providerCloudfront,
    providerCustom in *;
  repeat match goal with
         | H : String.eqb _ _ = true |- _ => apply String.eqb_eq in H
         end.

Ltac use_replies :=
  repeat match goal with
         | H : ?x = ?x |- _ => clear H
         | H : fst ?x = _ |- _ => rewrite H in *
         end.

(** * Properties

    ** The line-list parser *)

Lemma eqb_empty (s : string) : String.eqb s "" = isEmpty s.
Proof. by destruct s. Qed.

Lemma code_LF c : code c = 10 -> String c EmptyString = LF.
Proof.
  intros H. unfold LF. f_equal. unfold byteOf.
  rewrite <- (ascii_N_embedding c). f_equal. unfold code in H. lia.
Qed.

Lemma splitLines_not_nil s : splitLines s <> [].
Proof.
  destruct s as [|c r]; simpl; [done|].
  destruct (code c =? 10); [done|]. by destruct (splitLines r).
Qed.

(** Joining the pieces with line feeds gives the input back. *)
Lemma splitLines_concat s : String.concat LF (splitLines s) = s.
Proof.
  induction s as [|c r IH]; simpl; [done|].
  destruct (code c =? 10) eqn:E.
  - apply Z.eqb_eq, code_LF in E.
    pose proof (splitLines_not_nil r) as Hne.
    destruct (splitLines r) as [|l ls] eqn:El; [done|].
    change (String.concat LF ("" :: l :: ls))
      with (LF +:+ String.concat LF (l :: ls)).
    rewrite IH. by rewrite <- E.
  - destruct (splitLines r) as [|l ls] eqn:El.
    + by destruct (splitLines_not_nil r).
    + destruct ls as [|l' ls']; simpl in *; by rewrite <- IH.
Qed.

(** The loop of [parseLineList], started on any slice of results. *)
Lemma parseLineList_loop (lines results : list string) :
  fold_left
    (fun results line =>
       let line := strings_TrimSpace line in
       if String.eqb line "" then results else results ++ [line])
    lines results
  = results ++ List.filter (fun line => negb (isEmpty line))
                 (map strings_TrimSpace lines).
Proof.
  revert results. induction lines as [|l lines IH]; intros results; simpl.
  - by rewrite app_nil_r.
  - rewrite IH, eqb_empty. destruct (isEmpty (strings_TrimSpace l)); simpl; [done|].
    by rewrite <- app_assoc.
Qed.

Lemma parseLineList_lineListSpec (data : string) :
  parseLineList data = lineListSpec data.
Proof. unfold parseLineList. by rewrite parseLineList_loop. Qed.

Lemma filter_sublist {A : Type} (f : A -> bool) (l : list A) :
  sublist (List.filter f l) l.
Proof.
  induction l as [|x l IH]; simpl; [constructor|].
  destruct (f x); by constructor.
Qed.

(** C7. For every input the line-list parser gives the lines of the input,
    split on line feeds and trimmed, without those that are empty after
    trimming and in their order (a sublist of the trimmed lines); the
    input of the specification, two ranges and a blank line, gives the two
    ranges. *)
Theorem parseLineList_splits_trims_drops (data : string) :
  parseLineList data = lineListSpec data
  /\ sublist (parseLineList data) (map strings_TrimSpace (splitLines data))
  /\ Forall (fun line => line <> "") (parseLineList data)
  /\ parseLineList ("198.51.100.0/24" +:+ LF +:+ "203.0.113.0/25" +:+ LF +:+ LF)
     = ["198.51.100.0/24"; "203.0.113.0/25"].
Proof.
  rewrite parseLineList_lineListSpec. unfold lineListSpec.
  split; [done|]. split; [apply filter_sublist|]. split; [|by vm_compute].
  apply Forall_forall. intros line Hin.
  apply list_elem_of_In, filter_In in Hin as [_ Hne]. by destruct line.
Qed.

(** ** Addresses: what the parser returns *)

Lemma inRange_true lo hi b : inRange lo hi b = true -> lo <= b <= hi.
Proof. unfold inRange. intros [H1 H2]%andb_true_iff. lia. Qed.

Lemma isDigit_code c : isDigit c = true -> 48 <= code c <= 57.
Proof. apply inRange_true. Qed.

(** A dotted quad parses to four bytes. *)
Lemma parseIPv4Fields_bytes s : forall prev val digLen fields out,
  parseIPv4Fields s prev val digLen fields = Some out ->
  Forall isByte fields -> isByte val -> (length fields <= 3)%nat ->
  Forall isByte out /\ length out = 4%nat.
Proof.
  induction s as [|c r IH]; intros prev val digLen fields out; simpl.
  - destruct (length fields <? 3)%nat eqn:E; [done|].
    intros [= <-] Hf Hv Hl. apply Nat.ltb_ge in E. split.
    + apply Forall_app; split; [done|]. by constructor.
    + rewrite length_app. simpl. lia.
  - destruct (isDigit c) eqn:Hd.
    + destruct ((digLen =? 1) && (val =? 0)); [done|].
      destruct (255 <? val * 10 + (code c - 48)) eqn:E; [done|].
      intros H Hf Hv Hl. apply (IH _ _ _ _ _ H); [done| |done].
      apply isDigit_code in Hd. unfold isByte in *. lia.
    + destruct (code c =? 46); [|done].
      destruct prev as [p|]; [|done].
      destruct (isEmpty r || (code p =? 46)); [done|].
      destruct (length fields =? 3)%nat eqn:E; [done|].
      intros H Hf Hv Hl. apply Nat.eqb_neq in E.
      apply (IH _ _ _ _ _ H).
      * apply Forall_app; split; [done|]. by constructor.
      * unfold isByte; lia.
      * rewrite length_app. simpl. lia.
Qed.

Lemma hexVal_range c d : hexVal c = Some d -> 0 <= d <= 15.
Proof.
  unfold hexVal.
  destruct (inRange 48 57 (code c)) eqn:E1;
    [apply inRange_true in E1; intros [= <-]; lia|].
  destruct (inRange 97 102 (code c)) eqn:E2;
    [apply inRange_true in E2; intros [= <-]; lia|].
  destruct (inRange 65 70 (code c)) eqn:E3;
    [apply inRange_true in E3; intros [= <-]; lia|done].
Qed.

Lemma hexGroup_range s : forall off acc off' acc' rest,
  hexGroup s off acc = Some (off', acc', rest) ->
  0 <= acc <= 65535 -> 0 <= acc' <= 65535.
Proof.
  induction s as [|c r IH]; intros off acc off' acc' rest; simpl.
  - intros ?; by simplify_eq.
  - destruct (hexVal c) as [d|] eqn:Hd; [|intros ?; by simplify_eq].
    destruct (3 <? off)%nat; [done|].
    destruct (65535 <? Z.shiftl acc 4 + d) eqn:E; [done|].
    intros H Hacc. apply (IH _ _ _ _ _ H).
    apply hexVal_range in Hd. apply Z.ltb_ge in E.
    rewrite Z.shiftl_mul_pow2 in * by lia. change (2 ^ 4) with 16 in *. lia.
Qed.

Lemma isByte_hi acc : 0 <= acc <= 65535 -> isByte (Z.shiftr acc 8).
Proof.
  intros H. unfold isByte. rewrite Z.shiftr_div_pow2 by lia.
  change (2 ^ 8) with 256.
  pose proof (Z.div_lt_upper_bound acc 256 256).
  pose proof (Z.div_pos acc 256). lia.
Qed.

Lemma isByte_lo acc : 0 <= acc -> isByte (Z.land acc 255).
Proof.
  intros H.
  assert (E : Z.land acc 255 = acc mod 256).
  { change 255 with (Z.ones 8). by rewrite Z.land_ones. }
  unfold isByte. rewrite E.
  pose proof (Z.mod_pos_bound acc 256). lia.
Qed.

(** The loop of the IPv6 parser writes bytes, and never more than 16. *)
Lemma parseIPv6Loop_bytes fuel : forall s ip ellipsis rest ip' ellipsis',
  parseIPv6Loop fuel s ip ellipsis = Some (rest, ip', ellipsis') ->
  Forall isByte ip -> Nat.Even (length ip) -> (length ip <= 16)%nat ->
  Forall isByte ip' /\ (length ip' <= 16)%nat.
Proof.
  induction fuel as [|fuel IH]; intros s ip ellipsis rest ip' ellipsis';
    cbn [parseIPv6Loop].
  - intros ? ? ? ?; simplify_eq. by split.
  - destruct (16 <=? length ip)%nat eqn:E16;
      [intros ? ? ? ?; simplify_eq; by split|].
    apply Nat.leb_gt in E16.
    destruct (hexGroup s 0 0) as [[[off acc] rest0]|] eqn:Hg; [|done].
    destruct (off =? 0)%nat; [done|].
    apply hexGroup_range in Hg; [|lia].
    destruct (startsWith 46 rest0).
    + destruct (noEllipsis ellipsis && negb (length ip =? 12)%nat); [done|].
      destruct (16 <? length ip + 4)%nat eqn:E4; [done|].
      apply Nat.ltb_ge in E4.
      destruct (parseIPv4Fields s None 0 0 []) as [quad|] eqn:Hq; [|done].
      intros ? Hb _ _; simplify_eq.
      apply parseIPv4Fields_bytes in Hq as [Hq1 Hq2];
        [|done|unfold isByte; lia|simpl; lia].
      split; [by apply Forall_app|]. rewrite length_app. lia.
    + intros H Hb Hev Hlen.
      assert (Hb' : Forall isByte (ip ++ [Z.shiftr acc 8; Z.land acc 255])).
      { apply Forall_app; split; [done|].
        constructor; [by apply isByte_hi|].
        constructor; [apply isByte_lo; lia|constructor]. }
      assert (Hev' : Nat.Even (length (ip ++ [Z.shiftr acc 8; Z.land acc 255]))).
      { rewrite length_app. simpl. destruct Hev as [k Hk]. exists (S k). lia. }
      assert (Hlen' : (length (ip ++ [Z.shiftr acc 8; Z.land acc 255]) <= 16)%nat).
      { rewrite length_app. simpl. destruct Hev as [k Hk]. lia. }
      destruct rest0 as [|c0 r0]; [simplify_eq; by split|].
      destruct (negb (code c0 =? 58)); [done|].
      destruct r0 as [|c1 r1]; [done|].
      destruct (code c1 =? 58).
      * destruct ellipsis; [done|].
        destruct (isEmpty r1); [simplify_eq; by split|].
        by apply (IH _ _ _ _ _ _ H).
      * by apply (IH _ _ _ _ _ _ H).
Qed.

Lemma Forall_isByte_zeros n : Forall isByte (zeros n).
Proof.
  unfold zeros. induction n as [|n IH]; simpl; constructor; [|done].
  unfold isByte. lia.
Qed.

Lemma netip_parseIPv6_bytes s b zone :
  netip_parseIPv6 s = Some (Addr6 b zone) ->
  Forall isByte b /\ length b = 16%nat.
Proof.
  unfold netip_parseIPv6.
  destruct (splitZone s) as [s0 z].
  destruct z as [[|zc zr]|]; [done| |].
  all: match goal with
       | |- context [if ?c && isEmpty ?x then _ else _] =>
           destruct (c && isEmpty x);
           [intros [= <- _]; split; [apply Forall_isByte_zeros|done]|]
       end.
  all: match goal with
       | |- context [parseIPv6Loop ?f ?x ?y ?e] =>
           destruct (parseIPv6Loop f x y e) as [[[rest ip] ell]|] eqn:Hl; [|done]
       end.
  all: apply parseIPv6Loop_bytes in Hl as [Hb Hlen];
         [|constructor|by exists 0%nat|simpl; lia].
  all: destruct (negb (isEmpty rest)); [done|].
  all: destruct (length ip <? 16)%nat eqn:E;
         [apply Nat.ltb_lt in E|apply Nat.ltb_ge in E];
         destruct ell as [e|]; try done; intros [= <- _].
  all: try (split; [done|lia]).
  all: split;
         [ repeat (apply Forall_app; split);
           [by apply Forall_take|apply Forall_isByte_zeros|by apply Forall_drop]
         | rewrite !length_app, length_take, length_drop; unfold zeros;
           rewrite repeat_length; lia ].
Qed.

(** [net.ParseIP] returns nil or sixteen bytes. *)
Lemma net_ParseIP_bytes s :
  net_ParseIP s = []
  \/ (Forall isByte (net_ParseIP s) /\ length (net_ParseIP s) = 16%nat).
Proof.
  unfold net_ParseIP, netip_ParseAddr.
  destruct (firstSeparator s) as [sep|]; [|by left].
  destruct (sep =? 46) eqn:E46.
  - apply Z.eqb_eq in E46. subst sep. simpl.
    unfold netip_parseIPv4.
    destruct (parseIPv4Fields s None 0 0 []) as [q|] eqn:Hq; [|by left].
    apply parseIPv4Fields_bytes in Hq as [Hq1 Hq2];
      [|done|unfold isByte; lia|simpl; lia].
    right. simpl. split.
    + by repeat (constructor; [unfold isByte; lia|]).
    + simpl. lia.
  - destruct (sep =? 58) eqn:E58.
    + apply Z.eqb_eq in E58. subst sep. simpl.
      destruct (netip_parseIPv6 s) as [[b|b zone]|] eqn:Hp; [| |by left].
      * exfalso. unfold netip_parseIPv6 in Hp. repeat case_match; simplify_eq.
      * destruct zone; [|by left]. right. simpl.
        by apply netip_parseIPv6_bytes in Hp.
    + left. apply Z.eqb_neq in E46, E58.
      destruct sep as [|q|q]; try done.
      do 7 (destruct q as [q|q|]; try done).
Qed.

(** ** ipv6ToCIDR *)

Lemma land_255_byte b : isByte b -> Z.land b 255 = b.
Proof.
  intros [H1 H2]. change 255 with (Z.ones 8). rewrite Z.land_ones by lia.
  apply Z.mod_small. change (2 ^ 8) with 256. lia.
Qed.

Lemma CIDRMask_64 : net_CIDRMask MaskSize 128 = repeat 255 8 ++ zeros 8.
Proof. reflexivity. Qed.

(** Masking with the 64-bit mask keeps the first eight bytes and clears the
    rest. *)
Lemma Mask_64 (ip : IP) :
  length ip = 16%nat -> Forall isByte ip ->
  Mask ip (net_CIDRMask MaskSize 128) = network64 ip.
Proof.
  intros Hlen Hb. rewrite CIDRMask_64. sixteen ip Hlen.
  repeat match goal with
         | H : Forall _ (_ :: _) |- _ => apply Forall_cons in H as [? H]
         end.
  unfold Mask, network64. cbn.
  rewrite !land_255_byte by done. by rewrite !Z.land_0_r.
Qed.

Lemma To4_network64 (ip : IP) :
  length ip = 16%nat -> To4 (network64 ip) = [].
Proof.
  intros Hlen. sixteen ip Hlen. unfold To4, network64. cbn.
  by rewrite !andb_false_r.
Qed.

(** A masked address is printed in the IPv6 notation. *)
Lemma IP_String_network64 (ip : IP) :
  length ip = 16%nat -> IP_String (network64 ip) = netip_string6 (network64 ip).
Proof.
  intros Hlen. unfold IP_String. rewrite To4_network64 by done.
  assert (E : length (network64 ip) = 16%nat).
  { unfold network64, zeros. rewrite length_app, length_take, repeat_length. lia. }
  by rewrite E.
Qed.

Lemma To16_sixteen (ip : IP) : length ip = 16%nat -> To16 ip = ip.
Proof. intros E. unfold To16. by rewrite E. Qed.

Lemma ipv6ToCIDR_network64 (s : string) :
  ipv6ToCIDR s =
  if validIPv6 s
  then Ok (netip_string6 (network64 (net_ParseIP s)) +:+ "/64")
  else Err (ErrNotIPv6 s).
Proof.
  unfold ipv6ToCIDR, validIPv6.
  destruct (net_ParseIP_bytes s) as [E|[Hb Hlen]].
  - by rewrite E.
  - rewrite To16_sixteen by done.
    assert (Hnn : isNil (net_ParseIP s) = false) by by destruct (net_ParseIP s).
    rewrite Hnn. destruct (isNil (To4 (net_ParseIP s))); simpl; [|done].
    by rewrite Mask_64, IP_String_network64.
Qed.

Lemma ipv6ToCIDR_error s e : ipv6ToCIDR s = Err e -> e = ErrNotIPv6 s.
Proof. rewrite ipv6ToCIDR_network64. destruct (validIPv6 s); congruence. Qed.

(** C3. For every input, [ipv6ToCIDR] gives the address masked to its top
    64 bits, in the IPv6 notation and followed by /64, when the input is an
    address that is not an IPv4 one, and the error for an input that is not
    an IPv6 address otherwise: when the input does not parse, when it is a
    dotted quad, and when it is an IPv4-mapped IPv6 address. The address of
    the specification with eight fields 1234 gives 1234:1234:1234:1234::/64
    and 203.0.113.5 gives the error. *)
Theorem ipv6ToCIDR_masks_to_64 (s : string) :
  ipv6ToCIDR s =
    (if validIPv6 s
     then Ok (netip_string6 (network64 (net_ParseIP s)) +:+ "/64")
     else Err (ErrNotIPv6 s))
  /\ ipv6ToCIDR "1234:1234:1234:1234:1234:1234:1234:1234"
     = Ok "1234:1234:1234:1234::/64"
  /\ ipv6ToCIDR "203.0.113.5" = Err (ErrNotIPv6 "203.0.113.5")
  /\ ipv6ToCIDR "::ffff:203.0.113.5" = Err (ErrNotIPv6 "::ffff:203.0.113.5")
  /\ ipv6ToCIDR "not an address" = Err (ErrNotIPv6 "not an address").
Proof.
  split; [apply ipv6ToCIDR_network64|]. repeat split; by vm_compute.
Qed.

(** ** Construction *)

Lemma New_unfold config name :
  New config name =
  match time_ParseDuration (effectivePollInterval config) with
  | None => Err (ErrDuration (effectivePollInterval config))
  | Some pi =>
      let providerName := normalizeProviderName (Config.Provider config) in
      if String.eqb providerName "" then Err ErrProviderRequired
      else if negb (bool_decide (providerName ∈ supportedProviders))
      then Err (ErrUnsupportedProvider (Config.Provider config))
      else if String.eqb providerName providerCustom
              && String.eqb (strings_TrimSpace (Config.IPv4Resolver config)) ""
      then Err ErrIPv4ResolverRequired
      else if String.eqb providerName providerCustom
              && Config.WhitelistIPv6 config
              && String.eqb (strings_TrimSpace (Config.IPv6Resolver config)) ""
      then Err ErrIPv6ResolverRequired
      else
        Ok {| name := name;
              providerName := providerName;
              pollInterval := pi;
              ipv4Resolver := Config.IPv4Resolver config;
              ipv6Resolver := Config.IPv6Resolver config;
              whitelistIPv6 := Config.WhitelistIPv6 config;
              additionalSourceRange := Config.AdditionalSourceRange config;
              ipStrategy := Config.IPStrategy config;
              httpGet := defaultHTTPGetter {| Timeout := 10 * 1000000000 |} |}
  end.
Proof. reflexivity. Qed.

Lemma empty_not_supported : "" ∉ supportedProviders.
Proof. apply (bool_decide_eq_false_1 _). by vm_compute. Qed.

(** Once the interval parses, [New] looks at the provider settings only. *)
Lemma New_ok_iff config name d :
  time_ParseDuration (effectivePollInterval config) = Some d ->
  (isOk (New config name) = true <-> providerAccepted config).
Proof.
  intros Hd. rewrite New_unfold, Hd. unfold providerAccepted. cbv zeta.
  set (pn := normalizeProviderName (Config.Provider config)).
  destruct (String.eqb pn "") eqn:E0.
  { apply String.eqb_eq in E0. rewrite E0. simpl. split; [done|].
    intros [H _]. by apply empty_not_supported in H. }
  destruct (bool_decide (pn ∈ supportedProviders)) eqn:Es; simpl.
  2: { apply bool_decide_eq_false in Es. split; [done|]. by intros [H _]. }
  apply bool_decide_eq_true in Es.
  destruct (String.eqb pn providerCustom) eqn:Ec; simpl.
  2: { apply String.eqb_neq in Ec. split; [|done]. intros _. by split. }
  apply String.eqb_eq in Ec.
  destruct (String.eqb (strings_TrimSpace (Config.IPv4Resolver config)) "") eqn:E4.
  { apply String.eqb_eq in E4. split; [done|]. intros [_ H].
    by destruct (H Ec) as [H4 _]. }
  apply String.eqb_neq in E4.
  destruct (Config.WhitelistIPv6 config); simpl.
  2: { split; [|done]. intros _. split; [done|]. intros _. by split. }
  destruct (String.eqb (strings_TrimSpace (Config.IPv6Resolver config)) "") eqn:E6.
  { apply String.eqb_eq in E6. split; [done|]. intros [_ H].
    destruct (H Ec) as [_ H6]. by destruct (H6 eq_refl). }
  apply String.eqb_neq in E6. split; [|done]. intros _. by repeat split.
Qed.

Lemma Init_ok_iff p : Init p = Ok tt <-> 0 < pollInterval p.
Proof.
  unfold Init. destruct (pollInterval p <=? 0) eqn:E.
  - apply Z.leb_le in E. split; [done|lia].
  - apply Z.leb_gt in E. by split.
Qed.

(** C2, as the code has it. The interval must be greater than zero, and it
    is [Init], called on the engine after [New], that says so: for every
    configuration whose interval parses to a duration of zero or less,
    every engine [New] returns carries that duration and [Init] fails on it
    with the poll-interval error; [New] returns an engine whenever the
    provider settings are acceptable; and [Init] succeeds exactly when the
    interval is positive. *)
Theorem nonpositive_interval_rejected_by_Init config name d :
  time_ParseDuration (effectivePollInterval config) = Some d ->
  d <= 0 ->
  (forall p, New config name = Ok p ->
             pollInterval p = d /\ Init p = Err ErrPollInterval)
  /\ (providerAccepted config -> exists p, New config name = Ok p)
  /\ (forall p, Init p = Ok tt <-> 0 < pollInterval p).
Proof.
  intros Hd Hle. split; [|split].
  - intros p Hp. rewrite New_unfold, Hd in Hp. cbv zeta in Hp.
    repeat case_match; simplify_eq. split; [done|].
    unfold Init. simpl. by rewrite (proj2 (Z.leb_le d 0)).
  - intros Hacc. apply (New_ok_iff config name d Hd) in Hacc.
    destruct (New config name) as [p|e]; [by exists p|done].
  - apply Init_ok_iff.
Qed.

(** C2 fails as stated: the interval 0s parses to zero, [New] returns an
    engine all the same, and the failure comes from [Init], after
    construction. *)
Lemma New_accepts_zero_interval :
  time_ParseDuration (effectivePollInterval (sampleConfig "cloudflare" "0s")) = Some 0
  /\ exists p, New (sampleConfig "cloudflare" "0s") "test" = Ok p
               /\ Init p = Err ErrPollInterval.
Proof. split; [by vm_compute|]. eexists. split; by vm_compute. Qed.

Lemma nonpositive_interval_witness :
  time_ParseDuration (effectivePollInterval (sampleConfig "fastly" "-5s"))
    = Some (-5000000000)
  /\ -5000000000 <= 0
  /\ exists p, New (sampleConfig "fastly" "-5s") "test" = Ok p
               /\ Init p = Err ErrPollInterval.
Proof.
  assert (Hd : time_ParseDuration (effectivePollInterval (sampleConfig "fastly" "-5s"))
               = Some (-5000000000)) by (vm_compute; reflexivity).
  assert (Hle : -5000000000 <= 0) by lia.
  split; [exact Hd|]. split; [exact Hle|].
  destruct (nonpositive_interval_rejected_by_Init
              (sampleConfig "fastly" "-5s") "test" _ Hd Hle) as (Hall & Hex & _).
  destruct Hex as [p Hp].
  - split; [by apply (bool_decide_eq_true_1 _)|]. intros E. by vm_compute in E.
  - exists p. split; [exact Hp|]. by destruct (Hall p Hp).
Defined.

(** C5, as the code has it. For every configuration whose interval parses,
    [New] succeeds if and only if the provider field, with surrounding
    white space trimmed and in lower case, is one of the four identifiers,
    and, for the custom provider, the IPv4 resolver is not blank and the
    IPv6 resolver is not blank when IPv6 is asked for. *)
Theorem New_succeeds_iff_provider_accepted config name :
  (exists d, time_ParseDuration (effectivePollInterval config) = Some d) ->
  (isOk (New config name) = true <-> providerAccepted config).
Proof. intros [d Hd]. by apply (New_ok_iff config name d). Qed.

(** C5 fails as stated, in both directions: a provider name with a leading
    blank equals none of the four identifiers whatever the case, and [New]
    accepts it; a resolver of one blank is not empty, and [New] refuses the
    custom provider that has it. *)
Lemma New_acceptance_differs_from_claim :
  (time_ParseDuration (effectivePollInterval (sampleConfig " cloudflare" "300s"))
     = Some 300000000000
   /\ isOk (New (sampleConfig " cloudflare" "300s") "test") = true
   /\ ~ claimedAccepted (sampleConfig " cloudflare" "300s"))
  /\ (time_ParseDuration (effectivePollInterval blankResolverConfig)
        = Some 300000000000
      /\ claimedAccepted blankResolverConfig
      /\ New blankResolverConfig "test" = Err ErrIPv4ResolverRequired).
Proof.
  split; (split; [by vm_compute|]); split.
  - by vm_compute.
  - intros [H _]. by apply (bool_decide_eq_true_2 _) in H.
  - split; [by apply (bool_decide_eq_true_1 _)|]. intros _. split; [done|]. intros [=].
  - by vm_compute.
Qed.

Lemma New_succeeds_witness :
  (exists d, time_ParseDuration
               (effectivePollInterval (sampleConfig " CloudFront " "")) = Some d)
  /\ isOk (New (sampleConfig " CloudFront " "") "test") = true.
Proof.
  assert (Hd : exists d, time_ParseDuration
               (effectivePollInterval (sampleConfig " CloudFront " "")) = Some d).
  { exists 300000000000. by vm_compute. }
  split; [exact Hd|].
  apply (New_succeeds_iff_provider_accepted _ "test" Hd).
  split; [by apply (bool_decide_eq_true_1 _)|]. intros E. by vm_compute in E.
Defined.

(** ** The custom provider and its IPv4 resolver *)

(** C1. The code at the failing input: the IPv4 resolver answers with the
    text of an IPv6 address; trimmed, it is not an IPv4 address, and
    [fetchCustomRanges] returns it as the provider's range where the claim
    has the invalid-IPv4-response error. *)
Theorem custom_ipv4_reply_may_be_ipv6_text :
  isIPv4Text (strings_TrimSpace ("2001:db8::1" +:+ LF)) = false
  /\ exists p, New (sampleConfig "custom" "1s") "test" = Ok p
               /\ fst (fetchCustomRanges p (initialWorld ipv6TextNet))
                  = Ok ["2001:db8::1"].
Proof.
  split; [by vm_compute|]. eexists. split; [by vm_compute|]. by vm_compute.
Qed.

(** ** Provider strategies, aggregation and emission *)

Lemma fold_left_append_filter {A B : Type} (keep : A -> bool) (f : A -> B)
    (l : list A) (acc : list B) :
  fold_left (fun acc x => if keep x then acc ++ [f x] else acc) l acc
  = acc ++ map f (List.filter keep l).
Proof.
  revert acc. induction l as [|x l IH]; intros acc; simpl.
  - by rewrite app_nil_r.
  - rewrite IH. destruct (keep x); simpl; [|done].
    by rewrite <- app_assoc.
Qed.

Lemma length_eqb_0 {A : Type} (l : list A) :
  (length l =? 0)%nat = match l with [] => true | _ => false end.
Proof. by destruct l. Qed.

Lemma sameOutside_refl w : sameOutside w w.
Proof. by repeat split. Qed.

Lemma sameOutside_afterGet p url w : sameOutside w (afterGet p url w).
Proof. by repeat split. Qed.

(** The entries kept by the service filter are those of the records with
    the label. *)
Lemma cloudfrontIPv4_elem payload x :
  x ∈ cloudfrontIPv4 payload <->
  exists r, r ∈ Prefixes payload /\ Service r = awsCloudfrontLabel
            /\ x = strings_TrimSpace (IPPrefix r).
Proof.
  unfold cloudfrontIPv4. rewrite list_elem_of_In, in_map_iff. split.
  - intros (r & <- & [Hin Hs]%filter_In). exists r.
    by rewrite list_elem_of_In, <- String.eqb_eq.
  - intros (r & Hin & Hs & ->). exists r. split; [done|].
    apply filter_In. by rewrite <- list_elem_of_In, String.eqb_eq.
Qed.

Section EngineProperties.

Context {decodeFastly : Unmarshal FastlyPayload}.
Context {decodeCloudfront : Unmarshal CloudfrontPayload}.

Ltac run_fetch :=
  unfold fetchProviderRanges, fetchCloudflareRanges, fetchFastlyRanges,
    fetchCloudfrontRanges, fetchCustomRanges in *;
  unfold_M; unfold callHTTPGet in *;
  repeat (case_match; simplify_eq).

(** A fetch changes the network and the record of requests, nothing else. *)
Lemma fetchProviderRanges_frame p w r w' :
  fetchProviderRanges p w = (r, w') -> sameOutside w w'.
Proof.
  intros H. run_fetch; try apply sameOutside_refl;
    try apply sameOutside_afterGet;
    by repeat split.
Qed.

(** A successful fetch is the IPv4-derived ranges, of which there is at
    least one, followed by the IPv6-derived ones. *)
Lemma fetchProviderRanges_parts p w rs w' :
  fetchProviderRanges p w = (Ok rs, w') ->
  exists v4 v6,
    ipv4Derived p w = Some v4
    /\ (if whitelistIPv6 p then ipv6Derived p w = Some v6 else v6 = [])
    /\ rs = v4 ++ v6 /\ v4 <> [].
Proof.
  intros H.
  unfold ipv4Derived, ipv6Derived, ipv4Endpoint, ipv6Endpoint, replyBody.
  run_fetch; world_simpl.
  all: use_replies; name_providers; try congruence.
  all: repeat match goal with
       | H : json_Unmarshal _ = _ |- _ => rewrite H
       end; cbn [option_map].
  all: rewrite ?fold_left_append_filter, ?app_nil_l, ?length_eqb_0 in *.
  all: eexists _, _; split; [reflexivity|]; split; [reflexivity|].
  all: simplify_eq; split; [by rewrite ?app_nil_r|].
  all: try done.
  all: intros E; unfold cloudfrontIPv4 in *; by rewrite E in *.
Qed.

Lemma fetchProviderRanges_error p w e w' :
  fetchProviderRanges p w = (Err e, w') -> e <> ErrNoSourceRanges.
Proof.
  intros H. run_fetch; try done.
  match goal with
  | H : ipv6ToCIDR _ = Err _ |- _ => apply ipv6ToCIDR_error in H; by subst
  end.
Qed.

Lemma buildSourceRanges_unfold p w :
  buildSourceRanges p w =
  match fetchProviderRanges p w with
  | (Ok rs, w') =>
      (match additionalSourceRange p ++ rs with
       | [] => Err ErrNoSourceRanges
       | sr => Ok sr
       end, w')
  | (Err e, w') => (Err e, w')
  end.
Proof.
  unfold buildSourceRanges. unfold_M.
  destruct (fetchProviderRanges p w) as [[rs|e] w']; [|done].
  rewrite app_nil_l, length_eqb_0. by destruct (additionalSourceRange p ++ rs).
Qed.

Lemma buildSourceRanges_no_empty_error p w :
  fst (buildSourceRanges p w) <> Err ErrNoSourceRanges.
Proof.
  rewrite buildSourceRanges_unfold.
  destruct (fetchProviderRanges p w) as [[rs|e] w'] eqn:H; simpl.
  - apply fetchProviderRanges_parts in H as (v4 & v6 & _ & _ & -> & Hne).
    destruct (additionalSourceRange p ++ v4 ++ v6) eqn:E; [|done].
    apply app_eq_nil in E as [_ [E _]%app_eq_nil]. done.
  - apply fetchProviderRanges_error in H. congruence.
Qed.

(** C10. For every provider and world, a fetch that succeeds returns the
    ranges derived from the IPv4 endpoint or field, at least one, followed
    by those derived from the IPv6 endpoint or field (none when IPv6 is not
    asked for); and the aggregator never fails with the error of the empty
    combined list. *)
Theorem provider_fetch_never_empty (p : Provider) (w : World) :
  (forall rs w', fetchProviderRanges p w = (Ok rs, w') ->
     rs <> []
     /\ exists v4 v6,
          ipv4Derived p w = Some v4
          /\ (if whitelistIPv6 p then ipv6Derived p w = Some v6 else v6 = [])
          /\ rs = v4 ++ v6 /\ v4 <> [])
  /\ fst (buildSourceRanges p w) <> Err ErrNoSourceRanges.
Proof.
  split; [|apply buildSourceRanges_no_empty_error].
  intros rs w' H.
  destruct (fetchProviderRanges_parts _ _ _ _ H) as (v4 & v6 & H4 & H6 & -> & Hne).
  split; [by destruct v4|]. by exists v4, v6.
Qed.

(** C4, as the code has it. For every provider, whatever its kind: when
    the fetch returns a list, [buildSourceRanges] returns the static ranges
    as configured followed by that list, and the result is never empty;
    when the fetch fails, its error is passed on as it is. So
    [buildSourceRanges] never fails with the error of no source ranges:
    where nothing is resolved, the static list being empty and the replies
    yielding no range, the failure is the error of the provider. *)
Theorem buildSourceRanges_static_then_provider p w :
  match fetchProviderRanges p w with
  | (Ok rs, w') =>
      buildSourceRanges p w = (Ok (additionalSourceRange p ++ rs), w')
      /\ additionalSourceRange p ++ rs <> []
  | (Err e, w') => buildSourceRanges p w = (Err e, w')
  end
  /\ fst (buildSourceRanges p w) <> Err ErrNoSourceRanges
  /\ (combinedRanges p w = [] ->
      exists e, fst (fetchProviderRanges p w) = Err e
                /\ fst (buildSourceRanges p w) = Err e
                /\ e <> ErrNoSourceRanges).
Proof.
  split; [|split; [apply buildSourceRanges_no_empty_error|]].
  - rewrite buildSourceRanges_unfold.
    destruct (fetchProviderRanges p w) as [[rs|e] w'] eqn:H; [|done].
    apply fetchProviderRanges_parts in H as (v4 & v6 & _ & _ & -> & Hne).
    destruct (additionalSourceRange p ++ v4 ++ v6) eqn:E; [|done].
    apply app_eq_nil in E as [_ [E _]%app_eq_nil]. done.
  - intros Hc. rewrite buildSourceRanges_unfold.
    destruct (fetchProviderRanges p w) as [[rs|e] w'] eqn:H.
    + apply fetchProviderRanges_parts in H as (v4 & v6 & H4 & _ & _ & Hne).
      unfold combinedRanges in Hc. rewrite H4 in Hc. simpl in Hc.
      apply app_eq_nil in Hc as [_ [Hc _]%app_eq_nil]. done.
    + exists e. repeat split. by eapply fetchProviderRanges_error.
Qed.

(** With IPv6 switched off the outcome of a fetch, list or error, with
    any decoders. *)
Lemma fetch_ipv4Outcome (fastly2 : Unmarshal FastlyPayload)
    (cloudfront2 : Unmarshal CloudfrontPayload) p w :
  whitelistIPv6 p = false ->
  fst (fetchProviderRanges (decodeFastly := fastly2)
         (decodeCloudfront := cloudfront2) p w) =
  ipv4Outcome (providerName p) (ipv4Resolver p)
    (fst (httpGet p (ipv4Endpoint p w) (network w)))
    (fun body => option_map Addresses (fastly2 body))
    (fun body => option_map Prefixes (cloudfront2 body)).
Proof.
  intros Hflag. unfold ipv4Outcome, ipv4Endpoint.
  destruct (fetchProviderRanges (decodeFastly := fastly2)
              (decodeCloudfront := cloudfront2) p w) as [r w'] eqn:H. simpl.
  unfold json_Unmarshal in *.
  run_fetch; world_simpl.
  all: unfold json_Unmarshal in *.
  all: use_replies; try congruence.
  all: rewrite ?fold_left_append_filter, ?app_nil_l, ?length_eqb_0 in *.
  all: cbn [option_map] in *; simplify_eq; try done.
  all: repeat case_match; simplify_eq; try done.
  all: repeat match goal with
       | H : ?f ?x = _, H' : context [option_map _ (?f ?x)] |- _ => rewrite H in H'
       end; cbn [option_map] in *; simplify_eq.
  all: congruence.
Qed.

Lemma ipv4Outcome_ext kind resolver reply
    (a a' : string -> option (list string)) (b b' : string -> option (list Prefix)) :
  (forall body, a body = a' body) ->
  (forall body, b body = b' body) ->
  ipv4Outcome kind resolver reply a b = ipv4Outcome kind resolver reply a' b'.
Proof.
  intros Ha Hb. unfold ipv4Outcome. destruct reply as [e|body]; [done|].
  by rewrite Ha, Hb.
Qed.

(** C8, as the code has it. For every provider with IPv6 switched off: a
    fetch calls the getter at most once, on the IPv4 endpoint of its
    strategy, so that no IPv6 endpoint is asked; a list it returns is the
    list derived from that reply, with no entry from an IPv6 field; and of
    the decoding of a body in JSON the outcome keeps only whether the body
    decodes and what its IPv4 field holds: with any other decoders that
    agree with these on that much, the fetch has the same outcome. The IPv6
    fields are decoded with the rest of the body all the same: a body that
    does not decode, for what an IPv6 field holds or for anything else,
    fails the fetch with the JSON error of the strategy. *)
Theorem ipv6_disabled_only_ipv4_endpoint p w r w' :
  whitelistIPv6 p = false ->
  fetchProviderRanges p w = (r, w') ->
  (w' = w \/ w' = afterGet p (ipv4Endpoint p w) w)
  /\ (requests w' = requests w \/ requests w' = requests w ++ [ipv4Endpoint p w])
  /\ (forall rs, r = Ok rs -> ipv4Derived p w = Some rs)
  /\ (forall (fastly2 : Unmarshal FastlyPayload)
             (cloudfront2 : Unmarshal CloudfrontPayload),
        (forall body, option_map Addresses (fastly2 body)
                      = option_map Addresses (decodeFastly body)) ->
        (forall body, option_map Prefixes (cloudfront2 body)
                      = option_map Prefixes (decodeCloudfront body)) ->
        fst (fetchProviderRanges (decodeFastly := fastly2)
               (decodeCloudfront := cloudfront2) p w) = r)
  /\ (forall body,
        replyBody p (ipv4Endpoint p w) w = Some body ->
        (providerName p = providerFastly ->
         json_Unmarshal (T := FastlyPayload) body = None -> r = Err ErrFastlyJSON)
        /\ (providerName p = providerCloudfront ->
            json_Unmarshal (T := CloudfrontPayload) body = None ->
            r = Err ErrCloudfrontJSON)).
Proof.
  intros Hflag H.
  assert (Hout : r = ipv4Outcome (providerName p) (ipv4Resolver p)
           (fst (httpGet p (ipv4Endpoint p w) (network w)))
           (fun body => option_map Addresses (json_Unmarshal body))
           (fun body => option_map Prefixes (json_Unmarshal body))).
  { pose proof (fetch_ipv4Outcome decodeFastly decodeCloudfront p w Hflag) as E.
    rewrite H in E. exact E. }
  assert (Hany : forall (fastly2 : Unmarshal FastlyPayload)
             (cloudfront2 : Unmarshal CloudfrontPayload),
        (forall body, option_map Addresses (fastly2 body)
                      = option_map Addresses (decodeFastly body)) ->
        (forall body, option_map Prefixes (cloudfront2 body)
                      = option_map Prefixes (decodeCloudfront body)) ->
        fst (fetchProviderRanges (decodeFastly := fastly2)
               (decodeCloudfront := cloudfront2) p w) = r).
  { intros fastly2 cloudfront2 Ha Hb.
    rewrite (fetch_ipv4Outcome fastly2 cloudfront2 p w Hflag), Hout.
    apply ipv4Outcome_ext; [exact Ha|exact Hb]. }
  assert (Hfail : forall body,
        replyBody p (ipv4Endpoint p w) w = Some body ->
        (providerName p = providerFastly ->
         json_Unmarshal (T := FastlyPayload) body = None -> r = Err ErrFastlyJSON)
        /\ (providerName p = providerCloudfront ->
            json_Unmarshal (T := CloudfrontPayload) body = None ->
            r = Err ErrCloudfrontJSON)).
  { intros body Hb. unfold replyBody in Hb. rewrite Hout.
    destruct (fst (httpGet p (ipv4Endpoint p w) (network w))) as [e|b];
      [done|]. injection Hb as ->.
    split; intros Hp Hn; unfold ipv4Outcome; rewrite Hp; simpl; by rewrite Hn. }
  cut ((w' = w \/ w' = afterGet p (ipv4Endpoint p w) w)
       /\ (requests w' = requests w
           \/ requests w' = requests w ++ [ipv4Endpoint p w])
       /\ (forall rs, r = Ok rs -> ipv4Derived p w = Some rs)).
  { intros (H1 & H2 & H3). split; [exact H1|]. split; [exact H2|].
    split; [exact H3|]. split; [exact Hany|exact Hfail]. }
  clear Hout Hany Hfail.
  unfold ipv4Derived, ipv4Endpoint, replyBody in *.
  run_fetch; world_simpl.
  all: use_replies; name_providers; try congruence.
  all: repeat match goal with
       | H : json_Unmarshal _ = _ |- _ => rewrite H
       end; cbn [option_map].
  all: rewrite ?fold_left_append_filter, ?app_nil_l in *.
  all: split; [auto|]; split; [auto|]; intros rs ?; by simplify_eq.
Qed.

(** C6. For every reply of the ranges endpoint that decodes, the fetch keeps
    the prefixes of exactly the records whose service label is the fixed
    label, byte for byte, the IPv4 records and the IPv6 records filtered
    apart; it fails when no IPv4 record is kept, and the IPv6 prefixes
    follow only when IPv6 is asked for. With one IPv4 record that has the
    label and one that has another, in either order, the IPv4 set has
    exactly one entry. *)
Theorem cloudfront_keeps_matching_service p w body payload :
  replyBody p (awsIPRangesEndpoint w) w = Some body ->
  json_Unmarshal body = Some payload ->
  fst (fetchCloudfrontRanges p w) =
    (if bool_decide (cloudfrontIPv4 payload = []) then Err ErrCloudfrontEmpty
     else Ok (cloudfrontIPv4 payload
              ++ (if whitelistIPv6 p then cloudfrontIPv6 payload else [])))
  /\ (forall x, x ∈ cloudfrontIPv4 payload <->
        exists r, r ∈ Prefixes payload /\ Service r = awsCloudfrontLabel
                  /\ x = strings_TrimSpace (IPPrefix r))
  /\ (forall a b,
        Service a = awsCloudfrontLabel -> Service b <> awsCloudfrontLabel ->
        Prefixes payload = [a; b] \/ Prefixes payload = [b; a] ->
        cloudfrontIPv4 payload = [strings_TrimSpace (IPPrefix a)]
        /\ (whitelistIPv6 p = false ->
            fst (fetchCloudfrontRanges p w) = Ok [strings_TrimSpace (IPPrefix a)])).
Proof.
  intros Hbody Hdec.
  assert (E : fst (fetchCloudfrontRanges p w) =
    (if bool_decide (cloudfrontIPv4 payload = []) then Err ErrCloudfrontEmpty
     else Ok (cloudfrontIPv4 payload
              ++ (if whitelistIPv6 p then cloudfrontIPv6 payload else [])))).
  { unfold replyBody in Hbody. unfold fetchCloudfrontRanges. unfold_M.
    unfold callHTTPGet.
    destruct (fst (httpGet p (awsIPRangesEndpoint w) (network w))) as [e|b];
      [done|]. simplify_eq. rewrite Hdec.
    rewrite !fold_left_append_filter, app_nil_l, length_eqb_0.
    fold (cloudfrontIPv4 payload). fold (cloudfrontIPv6 payload).
    destruct (cloudfrontIPv4 payload) as [|x l]; [done|].
    rewrite bool_decide_eq_false_2 by done.
    destruct (whitelistIPv6 p); simpl; [done|by rewrite app_nil_r]. }
  split; [done|]. split; [apply cloudfrontIPv4_elem|]. intros a b Ha Hb Hab.
  assert (Ea : String.eqb (Service a) awsCloudfrontLabel = true)
    by by apply String.eqb_eq.
  assert (Eb : String.eqb (Service b) awsCloudfrontLabel = false)
    by by apply String.eqb_neq.
  assert (E4 : cloudfrontIPv4 payload = [strings_TrimSpace (IPPrefix a)]).
  { unfold cloudfrontIPv4. destruct Hab as [-> | ->]; simpl; by rewrite Ea, Eb. }
  split; [done|]. intros Hflag. by rewrite E, E4, Hflag.
Qed.

(** A refresh leaves the log and the delivery channel alone. *)
Lemma generateConfiguration_frame p w r w' :
  generateConfiguration p w = (r, w') -> sameOutside w w'.
Proof.
  unfold generateConfiguration. unfold_M. rewrite buildSourceRanges_unfold.
  destruct (fetchProviderRanges p w) as [[rs|e] w1] eqn:H;
    apply fetchProviderRanges_frame in H.
  - destruct (additionalSourceRange p ++ rs); intros; by simplify_eq.
  - intros; by simplify_eq.
Qed.

Lemma emitConfiguration_unfold p w :
  emitConfiguration p w =
  match generateConfiguration p w with
  | (Err err, w') => logFailure err w'
  | (Ok configuration, w') => send {| payloadConfiguration := configuration |} w'
  end.
Proof. done. Qed.

Lemma emitConfiguration_returns p w : fst (emitConfiguration p w) = Ok tt.
Proof.
  rewrite emitConfiguration_unfold.
  by destruct (generateConfiguration p w) as [[c|e] w1].
Qed.

(** One emission adds to the channel nothing, or one value a successful
    refresh produced. *)
Lemma emitConfiguration_sent p w :
  exists sent,
    cfgChan (snd (emitConfiguration p w)) = cfgChan w ++ sent
    /\ Forall (producedBy p) sent.
Proof.
  rewrite emitConfiguration_unfold.
  destruct (generateConfiguration p w) as [[c|e] w1] eqn:H;
    pose proof (generateConfiguration_frame _ _ _ _ H) as (_ & _ & _ & _ & _ & Hc);
    simpl.
  - exists [mkJSONPayload c]. rewrite Hc. split; [done|].
    constructor; [|constructor]. by exists w, w1.
  - exists []. rewrite Hc, app_nil_r. by split.
Qed.

Lemma refreshLoop_sent p events : forall w,
  exists sent,
    cfgChan (snd (refreshLoop p events w)) = cfgChan w ++ sent
    /\ Forall (producedBy p) sent.
Proof.
  induction events as [|[|] events IH]; intros w; simpl.
  - exists []. rewrite app_nil_r. by split.
  - unfold_M.
    destruct (emitConfiguration_sent p w) as (s1 & H1 & F1).
    pose proof (emitConfiguration_returns p w) as Hr.
    destruct (emitConfiguration p w) as [[[]|e] w1] eqn:E; simpl in *; [|done].
    destruct (IH w1) as (s2 & H2 & F2). exists (s1 ++ s2).
    rewrite H2, H1, app_assoc. split; [done|]. by apply Forall_app.
  - exists []. rewrite app_nil_r. by split.
Qed.

Lemma loadConfiguration_sent p events w :
  exists sent,
    cfgChan (snd (loadConfiguration p events w)) = cfgChan w ++ sent
    /\ Forall (producedBy p) sent.
Proof.
  unfold loadConfiguration. unfold_M.
  destruct (pollInterval p <=? 0).
  { exists []. simpl. rewrite app_nil_r. by split. }
  destruct (emitConfiguration_sent p w) as (s1 & H1 & F1).
  pose proof (emitConfiguration_returns p w) as Hr.
  destruct (emitConfiguration p w) as [[[]|e] w1] eqn:E; simpl in *; [|done].
  destruct (refreshLoop_sent p events w1) as (s2 & H2 & F2). exists (s1 ++ s2).
  rewrite H2, H1, app_assoc. split; [done|]. by apply Forall_app.
Qed.

(** C9. For every provider and world, one emission sends the produced
    configuration when the refresh succeeds; when the refresh fails it
    sends nothing, leaves what was delivered before as it was, and logs the
    error. So the channel changes if and only if the refresh succeeds, and
    over the whole refresh loop, whatever the ticks, the channel keeps what
    it held and gains only values that a successful refresh produced. *)
Theorem emitConfiguration_sends_iff_ok p w :
  (match generateConfiguration p w with
   | (Ok configuration, _) =>
       cfgChan (snd (emitConfiguration p w))
       = cfgChan w ++ [mkJSONPayload configuration]
   | (Err err, _) =>
       cfgChan (snd (emitConfiguration p w)) = cfgChan w
       /\ logged (snd (emitConfiguration p w)) = logged w ++ [err]
   end)
  /\ (cfgChan (snd (emitConfiguration p w)) <> cfgChan w
      <-> isOk (fst (generateConfiguration p w)) = true)
  /\ (forall events, exists sent,
        cfgChan (snd (loadConfiguration p events w)) = cfgChan w ++ sent
        /\ Forall (producedBy p) sent).
Proof.
  split; [|split; [|intros events; apply loadConfiguration_sent]].
  - rewrite emitConfiguration_unfold.
    destruct (generateConfiguration p w) as [[c|e] w1] eqn:H;
      pose proof (generateConfiguration_frame _ _ _ _ H)
        as (_ & _ & _ & _ & Hl & Hc); simpl; by rewrite ?Hc, ?Hl.
  - rewrite emitConfiguration_unfold.
    destruct (generateConfiguration p w) as [[c|e] w1] eqn:H;
      pose proof (generateConfiguration_frame _ _ _ _ H)
        as (_ & _ & _ & _ & Hl & Hc); simpl; rewrite Hc.
    + split; [done|]. intros _ E.
      apply (f_equal length) in E. rewrite length_app in E. simpl in E. lia.
    + split; [done|]. intros [=].
Qed.

(** ** From construction to delivery *)

(** The provider names [New] lets through. *)
Lemma supported_cases s :
  s ∈ supportedProviders ->
  s = providerCloudflare \/ s = providerFastly \/ s = providerCloudfront
  \/ s = providerCustom.
Proof.
  unfold supportedProviders. rewrite !elem_of_union, !elem_of_singleton. tauto.
Qed.

Lemma New_fields config name p :
  New config name = Ok p ->
  providerName p = normalizeProviderName (Config.Provider config)
  /\ providerName p ∈ supportedProviders
  /\ (exists d, time_ParseDuration (effectivePollInterval config) = Some d
                /\ pollInterval p = d)
  /\ ipv4Resolver p = Config.IPv4Resolver config
  /\ ipv6Resolver p = Config.IPv6Resolver config
  /\ whitelistIPv6 p = Config.WhitelistIPv6 config
  /\ additionalSourceRange p = Config.AdditionalSourceRange config
  /\ ipStrategy p = Config.IPStrategy config
  /\ httpGet p = defaultHTTPGetter {| Timeout := 10 * 1000000000 |}
  /\ (providerName p = providerCustom ->
      strings_TrimSpace (ipv4Resolver p) <> ""
      /\ (whitelistIPv6 p = true -> strings_TrimSpace (ipv6Resolver p) <> "")).
Proof.
  rewrite New_unfold.
  destruct (time_ParseDuration (effectivePollInterval config)) as [d|] eqn:Hd; [|done].
  cbv zeta. set (pn := normalizeProviderName (Config.Provider config)).
  destruct (String.eqb pn ""); [done|].
  destruct (bool_decide (pn ∈ supportedProviders)) eqn:Es; [|done].
  apply bool_decide_eq_true in Es. simpl.
  destruct (String.eqb pn providerCustom) eqn:Ec; simpl.
  - destruct (String.eqb (strings_TrimSpace (Config.IPv4Resolver config)) "") eqn:E4;
      [done|]. apply String.eqb_neq in E4.
    destruct (Config.WhitelistIPv6 config) eqn:E6f; simpl.
    + destruct (String.eqb (strings_TrimSpace (Config.IPv6Resolver config)) "") eqn:E6;
        [done|]. apply String.eqb_neq in E6.
      intros [= <-]. simpl. repeat split; try done. by exists d.
    + intros [= <-]. simpl. repeat split; try done. by exists d.
  - apply String.eqb_neq in Ec. intros [= <-]. simpl.
    repeat split; try done. by exists d.
Qed.

(** X1. A provider that [New] returned never makes a fetch fail for a
    reason of configuration: whatever the upstream answers,
    [fetchProviderRanges] returns neither the unsupported-provider error
    nor one of the two resolver-required errors, which [New] has ruled
    out. *)
Theorem New_rules_out_configuration_errors config name p w :
  New config name = Ok p ->
  (forall s, fst (fetchProviderRanges p w) <> Err (ErrUnsupportedProvider s))
  /\ fst (fetchProviderRanges p w) <> Err ErrIPv4ResolverRequired
  /\ fst (fetchProviderRanges p w) <> Err ErrIPv6ResolverRequired.
Proof.
  intros (_ & Hs & _ & _ & _ & _ & _ & _ & _ & Hc)%New_fields.
  apply supported_cases in Hs.
  destruct (fetchProviderRanges p w) as [r w'] eqn:H. simpl.
  assert (Hcidr : forall s e, ipv6ToCIDR s = Err e -> e = ErrNotIPv6 s)
    by apply ipv6ToCIDR_error.
  run_fetch; name_providers.
  all: repeat match goal with
       | H : String.eqb _ _ = false |- _ => apply String.eqb_neq in H
       end.
  all: repeat split; try (intros s); try done.
  all: try (destruct Hs as [?|[?|[?|?]]]; congruence).
  all: try match goal with
       | H : ipv6ToCIDR _ = Err _ |- _ => apply Hcidr in H; by subst
       end.
  all: destruct Hc as [Hc4 Hc6]; [congruence|]; try congruence.
  all: by destruct Hc6.
Qed.

Lemma IPStrategy_eta (s : IPStrategy) :
  {| Depth := Depth s; ExcludedIPs := ExcludedIPs s |} = s.
Proof. by destruct s. Qed.

Lemma generateConfiguration_unfold p w :
  generateConfiguration p w =
  match buildSourceRanges p w with
  | (Ok sourceRange, w') =>
      (Ok {| HTTP := {| httpRouters := ∅;
                        Middlewares :=
                          <["public_ipwhitelist" :=
                              {| WhiteList := {| SourceRange := sourceRange;
                                                 Strategy := ipStrategy p |} |}]> ∅;
                        httpServices := ∅;
                        ServersTransports := ∅ |};
             TCP := {| tcpRouters := ∅; tcpServices := ∅ |};
             TLS := {| Stores := ∅; Options := ∅ |};
             UDP := {| udpRouters := ∅; udpServices := ∅ |} |}, w')
  | (Err e, w') => (Err e, w')
  end.
Proof.
  unfold generateConfiguration. unfold_M.
  destruct (buildSourceRanges p w) as [[sr|e] w']; [|done].
  simpl. by rewrite IPStrategy_eta.
Qed.

(** X2. The configuration a successful refresh generates, for a provider
    that [New] built from [config]: it has one middleware, under the key
    public_ipwhitelist, whose source ranges are the additional ranges of
    [config] followed by the fetched ones and whose strategy is that of
    [config]; routers, services, transports and the TCP, TLS and UDP parts
    are empty. *)
Theorem generated_configuration_passes_config_through config name p w c w' :
  New config name = Ok p ->
  generateConfiguration p w = (Ok c, w') ->
  exists rs,
    fetchProviderRanges p w = (Ok rs, w')
    /\ Middlewares (HTTP c) !! "public_ipwhitelist"
       = Some {| WhiteList :=
                   {| SourceRange := Config.AdditionalSourceRange config ++ rs;
                      Strategy := Config.IPStrategy config |} |}
    /\ dom (Middlewares (HTTP c)) = {["public_ipwhitelist"]}
    /\ httpRouters (HTTP c) = ∅ /\ httpServices (HTTP c) = ∅
    /\ ServersTransports (HTTP c) = ∅
    /\ TCP c = {| tcpRouters := ∅; tcpServices := ∅ |}
    /\ TLS c = {| Stores := ∅; Options := ∅ |}
    /\ UDP c = {| udpRouters := ∅; udpServices := ∅ |}.
Proof.
  intros (_ & _ & _ & _ & _ & _ & Ha & Hi & _)%New_fields.
  rewrite generateConfiguration_unfold, buildSourceRanges_unfold.
  destruct (fetchProviderRanges p w) as [[rs|e] w1]; [|done].
  destruct (additionalSourceRange p ++ rs) as [|x l] eqn:E; [done|].
  intros [= <- <-]. exists rs. simpl. rewrite <- Ha, <- Hi, E.
  split; [done|]. split; [by rewrite lookup_insert_eq|].
  split; [|done]. by rewrite dom_insert_L, dom_empty_L, union_empty_r_L.
Qed.

(** X3. [generateConfiguration] fails exactly when the fetch fails, with
    the same error and in the same world: aggregation and assembly add no
    failure of their own. *)
Theorem generateConfiguration_fails_as_fetch p w e w' :
  generateConfiguration p w = (Err e, w')
  <-> fetchProviderRanges p w = (Err e, w').
Proof.
  rewrite generateConfiguration_unfold, buildSourceRanges_unfold.
  destruct (fetchProviderRanges p w) as [[rs|e1] w1] eqn:H.
  - apply fetchProviderRanges_parts in H as (v4 & v6 & _ & _ & -> & Hne).
    destruct (additionalSourceRange p ++ v4 ++ v6) eqn:E; [|by split].
    apply app_eq_nil in E as [_ [E _]%app_eq_nil]. done.
  - split; by intros [= -> ->].
Qed.

Lemma fetch_first_call_fails p w e :
  providerName p ∈ supportedProviders ->
  (providerName p = providerCustom -> strings_TrimSpace (ipv4Resolver p) <> "") ->
  fst (httpGet p (ipv4Endpoint p w) (network w)) = inl e ->
  fetchProviderRanges p w = (Err (ErrHTTP e), afterGet p (ipv4Endpoint p w) w).
Proof.
  intros Hs%supported_cases Hc He. unfold ipv4Endpoint in *.
  destruct (fetchProviderRanges p w) as [r w'] eqn:H.
  run_fetch; name_providers.
  all: repeat match goal with
       | H : String.eqb _ _ = false |- _ => apply String.eqb_neq in H
       end.
  all: try congruence.
  all: try (destruct Hs as [?|[?|[?|?]]]; congruence).
  by destruct Hc.
Qed.

(** X4. For a provider that [New] built: a reply to the first request
    with a status below 200 or from 300 up is the status error of the
    getter, carrying the status and the URL; and when the getter fails on
    the first request, with whatever error, the refresh fails with that
    error, and one emission sends nothing, adds the error to the log, and
    has asked the IPv4 endpoint and nothing else. *)
Theorem upstream_failure_is_logged_not_delivered config name p w :
  New config name = Ok p ->
  (forall status body,
     upstream (network w) (served (network w)) (ipv4Endpoint p w)
       = Response status body ->
     status < 200 \/ 300 <= status ->
     fst (httpGet p (ipv4Endpoint p w) (network w))
       = inl (ErrStatus status (ipv4Endpoint p w)))
  /\ (forall e,
        fst (httpGet p (ipv4Endpoint p w) (network w)) = inl e ->
        fst (generateConfiguration p w) = Err (ErrHTTP e)
        /\ cfgChan (snd (emitConfiguration p w)) = cfgChan w
        /\ logged (snd (emitConfiguration p w)) = logged w ++ [ErrHTTP e]
        /\ requests (snd (emitConfiguration p w))
           = requests w ++ [ipv4Endpoint p w]).
Proof.
  intros (_ & Hs & _ & _ & _ & _ & _ & _ & Hg & Hc)%New_fields. split.
  - intros status body Hr Hst. rewrite Hg. unfold defaultHTTPGetter. rewrite Hr.
    assert (E : (status <? 200) || (300 <=? status) = true).
    { apply orb_true_iff. destruct Hst; [left|right]; lia. }
    by rewrite E.
  - intros e He.
    pose proof (fetch_first_call_fails p w e Hs (fun H => proj1 (Hc H)) He) as Hf.
    rewrite emitConfiguration_unfold, generateConfiguration_unfold,
      buildSourceRanges_unfold, Hf. by simpl.
Qed.

(** X5. What a fetch asks upstream: nothing, and then it fails; or the
    IPv4 endpoint of the strategy alone; or the IPv4 endpoint and then the
    IPv6 endpoint, which happens only when IPv6 is asked for, for the
    cloudflare and custom strategies, and after the IPv4 reply gave at
    least one range. *)
Theorem fetch_asks_ipv4_first_ipv6_after p w r w' :
  fetchProviderRanges p w = (r, w') ->
  (w' = w /\ exists e, r = Err e)
  \/ w' = afterGet p (ipv4Endpoint p w) w
  \/ (w' = afterGet p (ipv6Endpoint p w) (afterGet p (ipv4Endpoint p w) w)
      /\ whitelistIPv6 p = true
      /\ (providerName p = providerCloudflare \/ providerName p = providerCustom)
      /\ exists v4, ipv4Derived p w = Some v4 /\ v4 <> []).
Proof.
  intros H. unfold ipv4Derived, ipv4Endpoint, ipv6Endpoint, replyBody.
  run_fetch; world_simpl.
  all: use_replies; name_providers; try congruence.
  all: rewrite ?length_eqb_0 in *.
  all: try (by left; split; [|eexists]).
  all: try (by right; left).
  all: try (right; right; split; [done|]; split; [done|]; split; [by auto|];
           eexists; split; [done|];
           first [done | by intros E; rewrite E in * ]).
Qed.

(** X6. For the three publisher strategies, a fetch returns [rs] if and
    only if the IPv4 endpoint or field yields at least one range, the IPv6
    endpoint or field, when IPv6 is asked for, yields a list, empty or not,
    and [rs] is the former followed by the latter. *)
Theorem publisher_fetch_succeeds_iff p w rs :
  providerName p <> providerCustom ->
  (fst (fetchProviderRanges p w) = Ok rs
   <-> exists v4 v6,
         ipv4Derived p w = Some v4 /\ v4 <> []
         /\ (if whitelistIPv6 p then ipv6Derived p w = Some v6 else v6 = [])
         /\ rs = v4 ++ v6).
Proof.
  intros Hnc. split.
  - destruct (fetchProviderRanges p w) as [r w'] eqn:H. simpl. intros ->.
    apply fetchProviderRanges_parts in H as (v4 & v6 & H4 & H6 & Hrs & Hne).
    by exists v4, v6.
  - intros (v4 & v6 & H4 & Hne & H6 & ->).
    unfold ipv4Derived, ipv6Derived, ipv4Endpoint, ipv6Endpoint, replyBody in *.
    destruct (fetchProviderRanges p w) as [r w'] eqn:H. simpl.
    run_fetch; world_simpl.
    all: use_replies; name_providers; try congruence.
    all: repeat match goal with
         | H : json_Unmarshal _ = _, H' : context [json_Unmarshal _] |- _ =>
             rewrite H in H'
         end; cbn [option_map] in *; simplify_eq.
    all: rewrite ?fold_left_append_filter, ?app_nil_l, ?length_eqb_0,
           ?app_nil_r in *.
    all: unfold cloudfrontIPv4, cloudfrontIPv6 in *.
    all: try done.
    all: try (repeat case_match; simplify_eq; done).
Qed.

(** X7. The custom provider with IPv6 on, both resolvers set and an IPv4
    reply that parses: the trimmed IPv6 reply decides the result. A reply
    that does not parse gives the invalid-IPv6-response error; an IPv4
    address, dotted or mapped, gives the not-an-IPv6-address error with the
    trimmed text; any other address gives the trimmed IPv4 reply followed
    by the /64 network of the IPv6 one. *)
Theorem custom_ipv6_reply_classified p w body body6 :
  strings_TrimSpace (ipv4Resolver p) <> "" ->
  strings_TrimSpace (ipv6Resolver p) <> "" ->
  whitelistIPv6 p = true ->
  replyBody p (ipv4Resolver p) w = Some body ->
  net_ParseIP (strings_TrimSpace body) <> [] ->
  replyBody p (ipv6Resolver p) (afterGet p (ipv4Resolver p) w) = Some body6 ->
  fst (fetchCustomRanges p w) =
    if isNil (net_ParseIP (strings_TrimSpace body6)) then Err ErrInvalidIPv6Response
    else if validIPv6 (strings_TrimSpace body6)
    then Ok [strings_TrimSpace body;
             netip_string6 (network64 (net_ParseIP (strings_TrimSpace body6)))
             +:+ "/64"]
    else Err (ErrNotIPv6 (strings_TrimSpace body6)).
Proof.
  intros H4%String.eqb_neq H6%String.eqb_neq Hflag Hb Hp Hb6.
  unfold replyBody in *. unfold fetchCustomRanges. unfold_M. unfold callHTTPGet.
  rewrite H4, Hflag, H6.
  destruct (fst (httpGet p (ipv4Resolver p) (network w))) as [e|b] eqn:E; [done|].
  simplify_eq.
  destruct (net_ParseIP (strings_TrimSpace body)) eqn:Ep; [done|]. simpl.
  world_simpl.
  destruct (fst (httpGet p (ipv6Resolver p)
                   (snd (httpGet p (ipv4Resolver p) (network w))))) as [e|b6] eqn:E6;
    [done|]. simplify_eq.
  destruct (isNil (net_ParseIP (strings_TrimSpace body6))) eqn:En; [done|].
  rewrite ipv6ToCIDR_network64.
  by destruct (validIPv6 (strings_TrimSpace body6)).
Qed.

Lemma emit_grows_by_one p w :
  (length (cfgChan (snd (emitConfiguration p w)))
   + length (logged (snd (emitConfiguration p w))))%nat
  = S (length (cfgChan w) + length (logged w)).
Proof.
  rewrite emitConfiguration_unfold.
  destruct (generateConfiguration p w) as [[c|e] w1] eqn:H;
    pose proof (generateConfiguration_frame _ _ _ _ H)
      as (_ & _ & _ & _ & Hl & Hc); simpl; rewrite Hc, Hl, length_app; simpl; lia.
Qed.

Lemma emit_returns_ok p w : exists w', emitConfiguration p w = (Ok tt, w').
Proof.
  rewrite emitConfiguration_unfold.
  destruct (generateConfiguration p w) as [[c|e] w1]; by eexists.
Qed.

Lemma refreshLoop_count p events : forall w,
  (length (cfgChan (snd (refreshLoop p events w)))
   + length (logged (snd (refreshLoop p events w))))%nat
  = (length (cfgChan w) + length (logged w) + ticksBeforeDone events)%nat.
Proof.
  induction events as [|[|] events IH]; intros w; simpl; [lia| |lia].
  unfold_M. pose proof (emit_grows_by_one p w) as Hg.
  destruct (emit_returns_ok p w) as [w1 E]. rewrite E in *. simpl in Hg.
  rewrite IH. lia.
Qed.

(** Over any events: the run so far went without a panic, and each
    refresh made so far has left one trace. *)
Lemma loadConfiguration_count p events w :
  0 < pollInterval p ->
  fst (loadConfiguration p events w) = Ok tt
  /\ (length (cfgChan (snd (loadConfiguration p events w)))
      + length (logged (snd (loadConfiguration p events w))))%nat
     = (length (cfgChan w) + length (logged w) + 1 + ticksBeforeDone events)%nat.
Proof.
  intros Hi. unfold loadConfiguration.
  rewrite (proj2 (Z.leb_gt _ _) Hi). unfold_M.
  pose proof (emit_grows_by_one p w) as Hg.
  destruct (emit_returns_ok p w) as [w1 E]. rewrite E in *. simpl in Hg.
  rewrite refreshLoop_count. split; [|lia].
  clear. revert w1. induction events as [|[|] events IH]; intros w1; simpl; try done.
  unfold_M. destruct (emit_returns_ok p w1) as [w2 E]. rewrite E. apply IH.
Qed.

Lemma ticksBeforeDone_replicate n after :
  ticksBeforeDone (replicate n Tick ++ Done :: after) = n.
Proof. induction n as [|n IH]; simpl; by rewrite ?IH. Qed.

(** X8. For a provider that [Init] has accepted, when the select of the
    loop has received [n] ticks and then the cancellation, so that every
    value sent before was taken from the channel, [loadConfiguration] has
    returned, without a panic, and each of the [n + 1] refreshes it made,
    the first one and one for each tick, has left exactly one trace: a
    value sent on the channel or an error in the log. What the select
    would have received after the cancellation plays no part. *)
Theorem every_refresh_delivers_or_logs p n after w :
  Init p = Ok tt ->
  fst (loadConfiguration p (replicate n Tick ++ Done :: after) w) = Ok tt
  /\ (length (cfgChan (snd (loadConfiguration p
                              (replicate n Tick ++ Done :: after) w)))
      + length (logged (snd (loadConfiguration p
                               (replicate n Tick ++ Done :: after) w))))%nat
     = (length (cfgChan w) + length (logged w) + 1 + n)%nat.
Proof.
  intros Hi%Init_ok_iff.
  destruct (loadConfiguration_count p (replicate n Tick ++ Done :: after) w Hi)
    as [Hr Hc].
  split; [exact Hr|]. by rewrite Hc, ticksBeforeDone_replicate.
Qed.

Lemma refreshLoop_untilDone p events w :
  refreshLoop p events w = refreshLoop p (untilDone events) w.
Proof.
  revert w. induction events as [|[|] events IH]; intros w; simpl; try done.
  unfold_M. destruct (emitConfiguration p w) as [[[]|e] w1]; [apply IH|done].
Qed.

(** X9. Nothing is refreshed after cancellation: the events that follow
    the first [Done] change neither the result nor the world. *)
Theorem nothing_happens_after_Done p before after w :
  loadConfiguration p (before ++ Done :: after) w
  = loadConfiguration p (untilDone before) w.
Proof.
  assert (E : untilDone (before ++ Done :: after) = untilDone before).
  { induction before as [|[|] before IH]; simpl; by rewrite ?IH. }
  unfold loadConfiguration. destruct (pollInterval p <=? 0); [done|]. unfold_M.
  destruct (emitConfiguration p w) as [[[]|e] w1]; [|done].
  by rewrite refreshLoop_untilDone, E, <- refreshLoop_untilDone.
Qed.


Lemma fetch_error_not_panic p w e w' :
  fetchProviderRanges p w = (Err e, w') -> e <> PanicNewTicker.
Proof.
  intros H. run_fetch; try done.
  all: match goal with
       | H : ipv6ToCIDR _ = Err _ |- _ => apply ipv6ToCIDR_error in H; by subst
       end.
Qed.

Lemma fetch_requests_prefix p w r w' :
  fetchProviderRanges p w = (r, w') -> requests w `prefix_of` requests w'.
Proof.
  intros H. run_fetch; world_simpl; try done.
  all: try by apply prefix_app_r.
  all: rewrite <- app_assoc; by apply prefix_app_r.
Qed.

Lemma generate_error_not_panic p w e w' :
  generateConfiguration p w = (Err e, w') -> e <> PanicNewTicker.
Proof.
  rewrite generateConfiguration_unfold, buildSourceRanges_unfold.
  destruct (fetchProviderRanges p w) as [[rs|e'] w1] eqn:H.
  - destruct (additionalSourceRange p ++ rs); intros ?; by simplify_eq.
  - intros ?; simplify_eq. by eapply fetch_error_not_panic.
Qed.

(** What one refresh leaves of the world. *)
Lemma emit_frame p w :
  let w' := snd (emitConfiguration p w) in
  cloudflareIPv4Endpoint w' = cloudflareIPv4Endpoint w
  /\ cloudflareIPv6Endpoint w' = cloudflareIPv6Endpoint w
  /\ fastlyEndpoint w' = fastlyEndpoint w
  /\ awsIPRangesEndpoint w' = awsIPRangesEndpoint w
  /\ requests w `prefix_of` requests w'
  /\ logged w `prefix_of` logged w'
  /\ cfgChan w `prefix_of` cfgChan w'
  /\ (PanicNewTicker ∉ logged w -> PanicNewTicker ∉ logged w').
Proof.
  rewrite emitConfiguration_unfold.
  destruct (generateConfiguration p w) as [[c|e] w1] eqn:H;
    pose proof (generateConfiguration_frame _ _ _ _ H)
      as (H1 & H2 & H3 & H4 & Hl & Hc); simpl.
  all: assert (Hr : requests w `prefix_of` requests w1)
    by (rewrite generateConfiguration_unfold, buildSourceRanges_unfold in H;
        destruct (fetchProviderRanges p w) as [[rs|e'] w2] eqn:Hf;
        [destruct (additionalSourceRange p ++ rs)|];
        simplify_eq; by eapply fetch_requests_prefix).
  all: rewrite H1, H2, H3, H4, Hl, Hc; repeat split; try done.
  all: try by apply prefix_app_r.
  intros Hn [?|?%list_elem_of_singleton]%elem_of_app; [done|].
  subst. by eapply generate_error_not_panic.
Qed.

(** The refresh loop keeps what one refresh keeps. *)
Lemma refreshLoop_frame p events : forall w,
  let w' := snd (refreshLoop p events w) in
  fst (refreshLoop p events w) = Ok tt
  /\ cloudflareIPv4Endpoint w' = cloudflareIPv4Endpoint w
  /\ cloudflareIPv6Endpoint w' = cloudflareIPv6Endpoint w
  /\ fastlyEndpoint w' = fastlyEndpoint w
  /\ awsIPRangesEndpoint w' = awsIPRangesEndpoint w
  /\ requests w `prefix_of` requests w'
  /\ logged w `prefix_of` logged w'
  /\ cfgChan w `prefix_of` cfgChan w'
  /\ (PanicNewTicker ∉ logged w -> PanicNewTicker ∉ logged w').
Proof.
  induction events as [|[|] events IH]; intros w; simpl; try done.
  unfold_M. pose proof (emit_frame p w) as (H1 & H2 & H3 & H4 & Hr & Hl & Hc & Hn).
  destruct (emit_returns_ok p w) as [w1 E]. rewrite E in *. simpl in *.
  destruct (IH w1) as (I0 & I1 & I2 & I3 & I4 & Ir & Il & Ic & In).
  rewrite I1, I2, I3, I4. repeat split; try done; try by etrans.
  intros ?. by apply In, Hn.
Qed.

Lemma loadConfiguration_frame p events w :
  0 < pollInterval p ->
  let w' := snd (loadConfiguration p events w) in
  fst (loadConfiguration p events w) = Ok tt
  /\ cloudflareIPv4Endpoint w' = cloudflareIPv4Endpoint w
  /\ cloudflareIPv6Endpoint w' = cloudflareIPv6Endpoint w
  /\ fastlyEndpoint w' = fastlyEndpoint w
  /\ awsIPRangesEndpoint w' = awsIPRangesEndpoint w
  /\ requests w `prefix_of` requests w'
  /\ logged w `prefix_of` logged w'
  /\ cfgChan w `prefix_of` cfgChan w'
  /\ (PanicNewTicker ∉ logged w -> PanicNewTicker ∉ logged w').
Proof.
  intros Hi. unfold loadConfiguration. rewrite (proj2 (Z.leb_gt _ _) Hi). unfold_M.
  pose proof (emit_frame p w) as (H1 & H2 & H3 & H4 & Hr & Hl & Hc & Hn).
  destruct (emit_returns_ok p w) as [w1 E]. rewrite E in *. simpl in *.
  destruct (refreshLoop_frame p events w1) as (I0 & I1 & I2 & I3 & I4 & Ir & Il & Ic & In).
  rewrite I1, I2, I3, I4. repeat split; try done; try by etrans.
  intros ?. by apply In, Hn.
Qed.

(** X10. [Provide] never reports a failure. With an interval that is not
    positive the goroutine stops at the ticker: no request, nothing sent,
    one more entry in the log, that of the panic. With a positive interval
    the log never gains that entry. *)
Theorem Provide_recovers_ticker_panic p events w :
  fst (Provide p events w) = Ok tt
  /\ (pollInterval p <= 0 ->
      requests (snd (Provide p events w)) = requests w
      /\ cfgChan (snd (Provide p events w)) = cfgChan w
      /\ logged (snd (Provide p events w)) = logged w ++ [PanicNewTicker])
  /\ (0 < pollInterval p ->
      PanicNewTicker ∉ logged w ->
      PanicNewTicker ∉ logged (snd (Provide p events w))).
Proof.
  unfold Provide. destruct (Z.leb_spec (pollInterval p) 0) as [Hle|Hlt].
  - unfold loadConfiguration. rewrite (proj2 (Z.leb_le _ _) Hle). unfold_M. simpl.
    split; [done|]. split; [done|]. lia.
  - destruct (loadConfiguration_frame p events w Hlt)
      as (I0 & _ & _ & _ & _ & _ & _ & _ & In).
    destruct (loadConfiguration p events w) as [[[]|e] w1]; simpl in *; [|done].
    split; [done|]. split; [lia|]. intros _. apply In.
Qed.

(** X11. Running the provider leaves the four endpoint variables as they
    were and only appends to the record of requests, to the log and to the
    channel: nothing that was delivered or logged before is removed or
    reordered. *)
Theorem Provide_only_appends p events w :
  let w' := snd (Provide p events w) in
  cloudflareIPv4Endpoint w' = cloudflareIPv4Endpoint w
  /\ cloudflareIPv6Endpoint w' = cloudflareIPv6Endpoint w
  /\ fastlyEndpoint w' = fastlyEndpoint w
  /\ awsIPRangesEndpoint w' = awsIPRangesEndpoint w
  /\ requests w `prefix_of` requests w'
  /\ logged w `prefix_of` logged w'
  /\ cfgChan w `prefix_of` cfgChan w'.
Proof.
  unfold Provide. destruct (Z.leb_spec (pollInterval p) 0) as [Hle|Hlt].
  - unfold loadConfiguration. rewrite (proj2 (Z.leb_le _ _) Hle). unfold_M. simpl.
    repeat split; try done. by apply prefix_app_r.
  - destruct (loadConfiguration_frame p events w Hlt)
      as (I0 & I1 & I2 & I3 & I4 & Ir & Il & Ic & _).
    by destruct (loadConfiguration p events w) as [[[]|e] w1]; simpl in *.
Qed.

(** X12. The result of a fetch depends on the world through the network
    and the endpoints of the strategy of the provider only: two worlds that
    agree on those give the same result, whatever the other endpoint
    variables, the log and the channel hold. *)
Theorem fetch_depends_on_own_endpoints p w1 w2 :
  network w1 = network w2 ->
  ipv4Endpoint p w1 = ipv4Endpoint p w2 ->
  ipv6Endpoint p w1 = ipv6Endpoint p w2 ->
  fst (fetchProviderRanges p w1) = fst (fetchProviderRanges p w2).
Proof.
  intros Hn H4 H6. unfold ipv4Endpoint, ipv6Endpoint in *.
  unfold fetchProviderRanges.
  destruct (String.eqb (providerName p) providerCloudflare);
    [|destruct (String.eqb (providerName p) providerFastly);
      [|destruct (String.eqb (providerName p) providerCloudfront);
        [|destruct (String.eqb (providerName p) providerCustom); [|done]]]].
  all: unfold fetchCloudflareRanges, fetchFastlyRanges,
    fetchCloudfrontRanges, fetchCustomRanges.
  all: destruct w1, w2; world_simpl; subst.
  all: unfold_M; unfold callHTTPGet; world_simpl.
  all: repeat (case_match; world_simpl; simplify_eq; try done).
Qed.

(** X13. An override reaches the strategy it is meant for: after a setter
    was given a URL that is not empty, the first request of the cloudflare
    strategy, and the only request of the fastly and cloudfront strategies,
    goes to that URL. *)
Theorem overridden_endpoint_is_requested p url v6 w :
  url <> "" ->
  let requested w' := requests (snd (fetchProviderRanges p w')) in
  (providerName p = providerCloudflare ->
   exists rest, requested (SetCloudflareEndpoints url v6 w) = requests w ++ url :: rest)
  /\ (providerName p = providerFastly ->
      requested (SetFastlyEndpoint url w) = requests w ++ [url])
  /\ (providerName p = providerCloudfront ->
      requested (SetAwsIPRangesEndpoint url w) = requests w ++ [url]).
Proof.
  intros Hu%String.eqb_neq. simpl. repeat split; intros Hp.
  all: unfold fetchProviderRanges; rewrite Hp; simpl.
  all: unfold fetchCloudflareRanges, fetchFastlyRanges, fetchCloudfrontRanges.
  all: unfold_M; unfold callHTTPGet; simpl; rewrite Hu.
  all: repeat (case_match; simplify_eq); world_simpl.
  all: try (by eexists; rewrite <- ?app_assoc).
  all: try done.
Qed.

Lemma fetch_requests_bound p w r w' :
  fetchProviderRanges p w = (r, w') ->
  (length (requests w') <= length (requests w) + (if whitelistIPv6 p then 2 else 1))%nat.
Proof.
  intros H. run_fetch; world_simpl; rewrite ?length_app; simpl; lia.
Qed.

Lemma emit_requests_bound p w :
  (length (requests (snd (emitConfiguration p w)))
   <= length (requests w) + (if whitelistIPv6 p then 2 else 1))%nat.
Proof.
  rewrite emitConfiguration_unfold, generateConfiguration_unfold,
    buildSourceRanges_unfold.
  destruct (fetchProviderRanges p w) as [[rs|e] w1] eqn:H;
    apply fetch_requests_bound in H; [|done].
  by destruct (additionalSourceRange p ++ rs).
Qed.

Lemma refreshLoop_requests_bound p events : forall w,
  (length (requests (snd (refreshLoop p events w)))
   <= length (requests w)
      + (if whitelistIPv6 p then 2 else 1) * ticksBeforeDone events)%nat.
Proof.
  induction events as [|[|] events IH]; intros w; simpl; [lia| |lia].
  unfold_M. pose proof (emit_requests_bound p w) as Hb.
  destruct (emit_returns_ok p w) as [w1 E]. rewrite E in *. simpl in Hb.
  etrans; [apply IH|]. lia.
Qed.

(** X14. A refresh makes at most two upstream requests, and at most one
    when IPv6 is off; a run makes at most that many for each of its
    refreshes, the first one and one for each tick before cancellation. *)
Theorem refresh_makes_at_most_two_requests p events w :
  (length (requests (snd (Provide p events w)))
   <= length (requests w)
      + (if whitelistIPv6 p then 2 else 1) * (1 + ticksBeforeDone events))%nat.
Proof.
  unfold Provide, loadConfiguration.
  destruct (pollInterval p <=? 0); [simpl; lia|]. unfold_M.
  pose proof (emit_requests_bound p w) as Hb.
  destruct (emit_returns_ok p w) as [w1 E]. rewrite E in *. simpl in Hb.
  pose proof (refreshLoop_requests_bound p events w1) as Hl.
  destruct (refreshLoop_frame p events w1) as (I0 & _).
  destruct (refreshLoop p events w1) as [[[]|e] w2]; simpl in *; [lia|done].
Qed.

(** X15. Every configuration the provider delivers lists the additional
    source ranges first, followed by at least one range from the
    provider. *)
Theorem delivered_ranges_extend_static p events w :
  exists sent,
    deliveredRanges (snd (Provide p events w)) = deliveredRanges w ++ sent
    /\ Forall (fun d => exists rs, rs <> []
                 /\ d = Some (additionalSourceRange p ++ rs)) sent.
Proof.
  assert (Hs : exists sent,
    cfgChan (snd (Provide p events w)) = cfgChan w ++ sent
    /\ Forall (producedBy p) sent).
  { unfold Provide. destruct (loadConfiguration_sent p events w) as (sent & Hc & Hf).
    exists sent. by destruct (loadConfiguration p events w) as [[[]|e] w1]. }
  destruct Hs as (sent & Hc & Hf).
  exists (map (fun v =>
    option_map (fun m => SourceRange (WhiteList m))
      (Middlewares (HTTP (payloadConfiguration v)) !! "public_ipwhitelist")) sent).
  unfold deliveredRanges. rewrite Hc, map_app. split; [done|].
  apply Forall_map. eapply Forall_impl; [exact Hf|].
  intros v (w0 & w1 & Hg). simpl.
  rewrite generateConfiguration_unfold, buildSourceRanges_unfold in Hg.
  destruct (fetchProviderRanges p w0) as [[rs|e] w2] eqn:H; [|done].
  apply fetchProviderRanges_parts in H as (v4 & v6 & _ & _ & -> & Hne).
  destruct (additionalSourceRange p ++ v4 ++ v6) eqn:E; [done|].
  simplify_eq. rewrite <- H. simpl. rewrite lookup_insert_eq. simpl.
  exists (v4 ++ v6). split; [|by rewrite E].
  intros [? _]%app_eq_nil. done.
Qed.

End EngineProperties.

(** ** The properties at the samples *)

Lemma provider_fetch_witness :
  fetchProviderRanges (decodeFastly := sampleDecodeFastly)
    (decodeCloudfront := sampleDecodeCloudfront)
    (sampleProvider "fastly" true) (initialWorld sampleNet)
  = (Ok ["198.51.100.0/24"; "2001:db8::/48"],
     afterGet (sampleProvider "fastly" true) defaultFastlyEndpoint
       (initialWorld sampleNet))
  /\ exists v4 v6,
       ipv4Derived (decodeFastly := sampleDecodeFastly)
         (decodeCloudfront := sampleDecodeCloudfront)
         (sampleProvider "fastly" true) (initialWorld sampleNet) = Some v4
       /\ ["198.51.100.0/24"; "2001:db8::/48"] = v4 ++ v6 /\ v4 <> [].
Proof.
  assert (H : fetchProviderRanges (decodeFastly := sampleDecodeFastly)
    (decodeCloudfront := sampleDecodeCloudfront)
    (sampleProvider "fastly" true) (initialWorld sampleNet)
  = (Ok ["198.51.100.0/24"; "2001:db8::/48"],
     afterGet (sampleProvider "fastly" true) defaultFastlyEndpoint
       (initialWorld sampleNet))) by (vm_compute; reflexivity).
  split; [exact H|].
  destruct (provider_fetch_never_empty (decodeFastly := sampleDecodeFastly)
              (decodeCloudfront := sampleDecodeCloudfront)
              (sampleProvider "fastly" true) (initialWorld sampleNet)) as [Hall _].
  destruct (Hall _ _ H) as (_ & v4 & v6 & H4 & _ & Hrs & Hne).
  exists v4, v6. split; [exact H4|]. split; [exact Hrs|exact Hne].
Defined.

Lemma buildSourceRanges_witness :
  fetchProviderRanges (decodeFastly := sampleDecodeFastly)
    (decodeCloudfront := sampleDecodeCloudfront)
    (sampleProvider "custom" true) (initialWorld sampleNet)
  = (Ok ["192.0.2.123"; "1234:1234:1234:1234::/64"],
     afterGet (sampleProvider "custom" true) "http://resolver.test/v6"
       (afterGet (sampleProvider "custom" true) "http://resolver.test/v4"
          (initialWorld sampleNet)))
  /\ fst (buildSourceRanges (decodeFastly := sampleDecodeFastly)
            (decodeCloudfront := sampleDecodeCloudfront)
            (sampleProvider "custom" true) (initialWorld sampleNet))
     = Ok ["127.0.0.1/32"; "192.168.0.24"; "192.0.2.123"; "1234:1234:1234:1234::/64"].
Proof.
  assert (H : fetchProviderRanges (decodeFastly := sampleDecodeFastly)
    (decodeCloudfront := sampleDecodeCloudfront)
    (sampleProvider "custom" true) (initialWorld sampleNet)
  = (Ok ["192.0.2.123"; "1234:1234:1234:1234::/64"],
     afterGet (sampleProvider "custom" true) "http://resolver.test/v6"
       (afterGet (sampleProvider "custom" true) "http://resolver.test/v4"
          (initialWorld sampleNet)))) by (vm_compute; reflexivity).
  split; [exact H|].
  pose proof (proj1 (buildSourceRanges_static_then_provider
                       (decodeFastly := sampleDecodeFastly)
                       (decodeCloudfront := sampleDecodeCloudfront)
                       (sampleProvider "custom" true) (initialWorld sampleNet))) as E.
  destruct E as [E _]. rewrite E. vm_compute. reflexivity.
Defined.

(** C4 fails as stated: with no static range and a reply of the
    publisher that holds no range, nothing is resolved and the combined
    list is empty, and [buildSourceRanges] fails with the error of the
    cloudflare strategy, not with the error of no source ranges. *)
Lemma empty_list_error_is_the_providers :
  combinedRanges (decodeFastly := sampleDecodeFastly)
    (decodeCloudfront := sampleDecodeCloudfront)
    (bareProvider "cloudflare") (initialWorld emptyReplyNet) = []
  /\ fst (buildSourceRanges (decodeFastly := sampleDecodeFastly)
            (decodeCloudfront := sampleDecodeCloudfront)
            (bareProvider "cloudflare") (initialWorld emptyReplyNet))
     = Err ErrCloudflareEmpty
  /\ ~ (fst (buildSourceRanges (decodeFastly := sampleDecodeFastly)
               (decodeCloudfront := sampleDecodeCloudfront)
               (bareProvider "cloudflare") (initialWorld emptyReplyNet))
        = Err ErrNoSourceRanges
        <-> combinedRanges (decodeFastly := sampleDecodeFastly)
              (decodeCloudfront := sampleDecodeCloudfront)
              (bareProvider "cloudflare") (initialWorld emptyReplyNet) = []).
Proof.
  assert (Hc : combinedRanges (decodeFastly := sampleDecodeFastly)
                 (decodeCloudfront := sampleDecodeCloudfront)
                 (bareProvider "cloudflare") (initialWorld emptyReplyNet) = [])
    by (vm_compute; reflexivity).
  assert (Hb : fst (buildSourceRanges (decodeFastly := sampleDecodeFastly)
                      (decodeCloudfront := sampleDecodeCloudfront)
                      (bareProvider "cloudflare") (initialWorld emptyReplyNet))
               = Err ErrCloudflareEmpty) by (vm_compute; reflexivity).
  split; [exact Hc|]. split; [exact Hb|].
  intros [_ Hiff]. specialize (Hiff Hc). rewrite Hb in Hiff. discriminate Hiff.
Qed.

Lemma cloudfront_witness :
  replyBody (sampleProvider "cloudfront" false) defaultAwsIPRangesEndpoint
    (initialWorld sampleNet) = Some "aws-sample"
  /\ sampleDecodeCloudfront "aws-sample" = Some sampleCloudfrontPayload
  /\ fst (fetchCloudfrontRanges (decodeCloudfront := sampleDecodeCloudfront)
            (sampleProvider "cloudfront" false) (initialWorld sampleNet))
     = Ok ["198.51.100.0/24"].
Proof.
  assert (H1 : replyBody (sampleProvider "cloudfront" false)
                 (awsIPRangesEndpoint (initialWorld sampleNet))
                 (initialWorld sampleNet) = Some "aws-sample")
    by (vm_compute; reflexivity).
  assert (H2 : json_Unmarshal (Unmarshal := sampleDecodeCloudfront) "aws-sample"
               = Some sampleCloudfrontPayload) by reflexivity.
  split; [exact H1|]. split; [exact H2|].
  destruct (cloudfront_keeps_matching_service _ _ _ _ H1 H2) as (_ & _ & H).
  apply (H {| IPPrefix := "198.51.100.0/24"; Service := "CLOUDFRONT" |}
           {| IPPrefix := "203.0.113.0/24"; Service := "cloudfront" |}).
  - reflexivity.
  - discriminate.
  - left. reflexivity.
  - reflexivity.
Defined.

Lemma ipv6_disabled_witness :
  whitelistIPv6 (sampleProvider "cloudflare" false) = false
  /\ fetchProviderRanges (decodeFastly := sampleDecodeFastly)
       (decodeCloudfront := sampleDecodeCloudfront)
       (sampleProvider "cloudflare" false) (initialWorld sampleNet)
     = (Ok ["198.51.100.0/24"; "203.0.113.0/25"],
        afterGet (sampleProvider "cloudflare" false) defaultCloudflareIPv4Endpoint
          (initialWorld sampleNet))
  /\ ipv4Derived (decodeFastly := sampleDecodeFastly)
       (decodeCloudfront := sampleDecodeCloudfront)
       (sampleProvider "cloudflare" false) (initialWorld sampleNet)
     = Some ["198.51.100.0/24"; "203.0.113.0/25"].
Proof.
  assert (H : fetchProviderRanges (decodeFastly := sampleDecodeFastly)
       (decodeCloudfront := sampleDecodeCloudfront)
       (sampleProvider "cloudflare" false) (initialWorld sampleNet)
     = (Ok ["198.51.100.0/24"; "203.0.113.0/25"],
        afterGet (sampleProvider "cloudflare" false) defaultCloudflareIPv4Endpoint
          (initialWorld sampleNet))) by (vm_compute; reflexivity).
  split; [reflexivity|]. split; [exact H|].
  destruct (ipv6_disabled_only_ipv4_endpoint
              (sampleProvider "cloudflare" false) _ _ _ eq_refl H) as (_ & _ & Hd & _).
  apply Hd. reflexivity.
Defined.

(** C8 fails as stated: with IPv6 off and the decoder of the library, two
    replies of the fastly endpoint with the same IPv4 field, one with a
    list in the IPv6 field and one with a string there, give a list and the
    JSON error. The IPv6 field is decoded, and what it holds decides
    whether the fetch succeeds. *)
Lemma ipv6_field_is_decoded_with_flag_off :
  whitelistIPv6 (sampleProvider "fastly" false) = false
  /\ json_parse (fastlyBody ("[" +:+ quoted "2a04:4e40::/32" +:+ "]"))
     = Some (JObject [("addresses", JArray [JString "198.51.100.0/24"]);
                      ("ipv6_addresses", JArray [JString "2a04:4e40::/32"])])
  /\ json_parse (fastlyBody (quoted "2a04:4e40::/32"))
     = Some (JObject [("addresses", JArray [JString "198.51.100.0/24"]);
                      ("ipv6_addresses", JString "2a04:4e40::/32")])
  /\ fst (fetchProviderRanges (decodeFastly := json_UnmarshalFastly)
            (decodeCloudfront := json_UnmarshalCloudfront)
            (sampleProvider "fastly" false)
            (initialWorld (bodyNet (fastlyBody ("[" +:+ quoted "2a04:4e40::/32" +:+ "]")))))
     = Ok ["198.51.100.0/24"]
  /\ fst (fetchProviderRanges (decodeFastly := json_UnmarshalFastly)
            (decodeCloudfront := json_UnmarshalCloudfront)
            (sampleProvider "fastly" false)
            (initialWorld (bodyNet (fastlyBody (quoted "2a04:4e40::/32")))))
     = Err ErrFastlyJSON.
Proof. repeat split; by vm_compute. Qed.

(** ** The library models at values of the library's own tests *)

Example TrimSpace_values :
  strings_TrimSpace (" " +:+ String (byteOf 9) ("192.0.2.123 " +:+ LF)) = "192.0.2.123"
  /\ strings_TrimSpace "   " = ""
  /\ strings_TrimSpace ("a b" +:+ String (byteOf 194) (String (byteOf 160) "")) = "a b"
  /\ strings_TrimSpace (String (byteOf 227) (String (byteOf 128) (String (byteOf 128) "x")))
     = "x"
  /\ strings_TrimSpace (String (byteOf 128) " ") = String (byteOf 128) "".
Proof. repeat split; by vm_compute. Qed.

Example ParseDuration_values :
  time_ParseDuration "300s" = Some 300000000000
  /\ time_ParseDuration "0" = Some 0
  /\ time_ParseDuration "-1.5h" = Some (-5400000000000)
  /\ time_ParseDuration "1h15m30.918273645s" = Some 4530918273645
  /\ time_ParseDuration "0.3333333333333333333h" = Some 1200000000000
  /\ time_ParseDuration "0.830103483285477580700h" = Some 2988372539827
  /\ time_ParseDuration "9223372036854775807ns" = Some 9223372036854775807
  /\ time_ParseDuration "9223372036854775808ns" = None
  /\ time_ParseDuration "-9223372036854775808ns" = Some (-9223372036854775808)
  /\ time_ParseDuration "" = None
  /\ time_ParseDuration "3" = None
  /\ time_ParseDuration ".s" = None
  /\ time_ParseDuration " 1s" = None.
Proof. repeat split; by vm_compute. Qed.

Example ParseIP_values :
  net_ParseIP "192.0.2.123" = v4InV6Prefix ++ [192; 0; 2; 123]
  /\ net_ParseIP "192.0.2.0123" = []
  /\ net_ParseIP "192.0.2" = []
  /\ net_ParseIP "::ffff:192.0.2.1" = v4InV6Prefix ++ [192; 0; 2; 1]
  /\ net_ParseIP "2001:db8::1" = [32; 1; 13; 184; 0; 0; 0; 0; 0; 0; 0; 0; 0; 0; 0; 1]
  /\ net_ParseIP "fe80::1%eth0" = []
  /\ net_ParseIP "1:2:3:4:5:6:7:8:9" = []
  /\ net_ParseIP "1::2::3" = []
  /\ net_ParseIP "12345::" = []
  /\ IP_String (net_ParseIP "2001:0db8:0000:0000:0001:0000:0000:0001") = "2001:db8::1:0:0:1"
  /\ IP_String (net_ParseIP "::ffff:192.0.2.1") = "192.0.2.1"
  /\ IP_String (net_ParseIP "0:0:0:0:0:0:0:0") = "::".
Proof. repeat split; by vm_compute. Qed.

Example json_values :
  json_parse "[1, -0.5e+10, true, false, null, [], {}, [[]]]"
  = Some (JArray [JNumber "1"; JNumber "-0.5e+10"; JBool true; JBool false; JNull;
                  JArray []; JObject []; JArray [JArray []]])
  /\ json_parse "01" = None
  /\ json_parse "[1,]" = None
  /\ json_parse "" = None
  /\ json_parse "1 2" = None
  /\ json_parse "1." = None
  /\ json_parse "{1:2}" = None
  /\ json_parse (quoted "a\u00e9\ud83d\ude00\ud83dx\n\/")
     = Some (JString ("a" +:+ utf8_EncodeRune 233 +:+ utf8_EncodeRune 128512
                      +:+ utf8_EncodeRune 65533 +:+ "x" +:+ LF +:+ "/"))
  /\ json_parse (quoted "\x") = None
  /\ json_UnmarshalFastly "null" = Some {| Addresses := []; IPv6Addresses := [] |}
  /\ json_UnmarshalFastly "{}" = Some {| Addresses := []; IPv6Addresses := [] |}
  /\ json_UnmarshalFastly "[]" = None
  /\ json_UnmarshalFastly
       ("{" +:+ quoted "Addresses" +:+ ":[" +:+ quoted "a" +:+ ",null],"
        +:+ quoted "other" +:+ ":{" +:+ quoted "addresses" +:+ ":1}}")
     = Some {| Addresses := ["a"; ""]; IPv6Addresses := [] |}
  /\ json_UnmarshalFastly ("{" +:+ quoted "addresses" +:+ ":[1]}") = None
  /\ json_UnmarshalFastly
       ("{" +:+ quoted ("ADDRE" +:+ utf8_EncodeRune 383 +:+ "SES") +:+ ":["
        +:+ quoted "a" +:+ "]}")
     = Some {| Addresses := ["a"]; IPv6Addresses := [] |}
  /\ json_UnmarshalFastly
       ("{" +:+ quoted "addresses" +:+ ":[" +:+ quoted "a" +:+ "," +:+ quoted "b"
        +:+ "]," +:+ quoted "addresses" +:+ ":[null]}")
     = Some {| Addresses := ["a"]; IPv6Addresses := [] |}
  /\ json_UnmarshalCloudfront
       ("{" +:+ quoted "prefixes" +:+ ":[{" +:+ quoted "ip_prefix" +:+ ":"
        +:+ quoted "192.0.2.0/24" +:+ "," +:+ quoted "SERVICE" +:+ ":"
        +:+ quoted "CLOUDFRONT" +:+ "," +:+ quoted "region" +:+ ":1}]}")
     = Some {| Prefixes := [ {| IPPrefix := "192.0.2.0/24"; Service := "CLOUDFRONT" |} ];
               IPv6Prefixes := [] |}.
Proof. repeat split; by vm_compute. Qed.

(** ** The plugin's tests, run on the model *)

(** TestProvideCustomProvider: both resolvers, IPv6 on, two static ranges. *)
Example custom_provider_end_to_end :
  deliveredRanges
    (snd (loadConfiguration (decodeFastly := sampleDecodeFastly)
            (decodeCloudfront := sampleDecodeCloudfront)
            (sampleProvider "custom" true) [Done] (initialWorld sampleNet)))
  = [Some ["127.0.0.1/32"; "192.168.0.24"; "192.0.2.123";
           "1234:1234:1234:1234::/64"]].
Proof. by vm_compute. Qed.

(** TestCloudflareProvider, with the static ranges of the sample. *)
Example cloudflare_provider_ranges :
  fst (fetchProviderRanges (decodeFastly := sampleDecodeFastly)
         (decodeCloudfront := sampleDecodeCloudfront)
         (sampleProvider "cloudflare" true) (initialWorld sampleNet))
  = Ok ["198.51.100.0/24"; "203.0.113.0/25"; "2001:db8::/32"; "2001:db8:1::/48"].
Proof. by vm_compute. Qed.

(** TestProviderRequiresName and TestCustomProviderRequiresResolvers. *)
Example provider_is_required :
  New (sampleConfig "" "1s") "test" = Err ErrProviderRequired
  /\ New blankResolverConfig "test" = Err ErrIPv4ResolverRequired.
Proof. split; by vm_compute. Qed.

(** TestFastlyProvider and TestCloudfrontProvider, with the decoder of
    the library on the payloads of the tests. *)
Example fastly_and_cloudfront_payloads :
  fst (fetchProviderRanges (decodeFastly := json_UnmarshalFastly)
         (decodeCloudfront := json_UnmarshalCloudfront)
         (sampleProvider "fastly" true)
         (initialWorld (bodyNet (fastlyBody ("[" +:+ quoted "2001:db8::/48" +:+ "]")))))
  = Ok ["198.51.100.0/24"; "2001:db8::/48"]
  /\ fst (fetchProviderRanges (decodeFastly := json_UnmarshalFastly)
            (decodeCloudfront := json_UnmarshalCloudfront)
            (sampleProvider "cloudfront" true)
            (initialWorld
               (bodyNet ("{" +:+ quoted "prefixes" +:+ ":[{" +:+ quoted "ip_prefix"
                         +:+ ":" +:+ quoted "198.51.100.0/24" +:+ ","
                         +:+ quoted "service" +:+ ":" +:+ quoted "CLOUDFRONT" +:+ "}],"
                         +:+ quoted "ipv6_prefixes" +:+ ":[{" +:+ quoted "ipv6_prefix"
                         +:+ ":" +:+ quoted "2001:db8::/48" +:+ ","
                         +:+ quoted "service" +:+ ":" +:+ quoted "CLOUDFRONT"
                         +:+ "}]}"))))
     = Ok ["198.51.100.0/24"; "2001:db8::/48"].
Proof. split; by vm_compute. Qed.

(** An upstream that starts to answer 500 after two requests: the first
    refresh is delivered, the second is logged, and the channel still holds
    the first configuration alone. *)
Example failed_refresh_keeps_delivery :
  let flaky := mkNet (fun k url => if (k <? 2)%nat then sampleUpstream url
                                   else Response 500 None) 0 in
  let w := snd (loadConfiguration (decodeFastly := sampleDecodeFastly)
                  (decodeCloudfront := sampleDecodeCloudfront)
                  (sampleProvider "custom" true) [Tick; Done] (initialWorld flaky)) in
  deliveredRanges w
  = [Some ["127.0.0.1/32"; "192.168.0.24"; "192.0.2.123";
           "1234:1234:1234:1234::/64"]]
  /\ logged w = [ErrHTTP (ErrStatus 500 "http://resolver.test/v4")].
Proof. split; by vm_compute. Qed.

(** An upstream that answers 500 from the start: nothing is delivered and
    the failure is in the log. *)
Example upstream_500_delivers_nothing :
  let w := snd (emitConfiguration (decodeFastly := sampleDecodeFastly)
                  (decodeCloudfront := sampleDecodeCloudfront)
                  (sampleProvider "cloudflare" false) (initialWorld failingNet)) in
  cfgChan w = []
  /\ logged w = [ErrHTTP (ErrStatus 500 defaultCloudflareIPv4Endpoint)].
Proof. split; by vm_compute. Qed.

(** An engine with the interval 0s, started without [Init]: the ticker
    panics, the goroutine recovers, and nothing is delivered. *)
Example zero_interval_without_Init :
  exists p, New (sampleConfig "custom" "0s") "test" = Ok p
    /\ (let w := snd (Provide (decodeFastly := sampleDecodeFastly)
                       (decodeCloudfront := sampleDecodeCloudfront)
                       p [Tick; Tick] (initialWorld sampleNet)) in
        cfgChan w = [] /\ logged w = [PanicNewTicker] /\ requests w = []).
Proof. eexists. split; [by vm_compute|]. repeat split; by vm_compute. Qed.

(** ** Endpoints, parser, interval, request identifier and defaults *)

Lemma World_eta w :
  {| network := network w;
     cloudflareIPv4Endpoint := cloudflareIPv4Endpoint w;
     cloudflareIPv6Endpoint := cloudflareIPv6Endpoint w;
     fastlyEndpoint := fastlyEndpoint w;
     awsIPRangesEndpoint := awsIPRangesEndpoint w;
     requests := requests w;
     logged := logged w;
     cfgChan := cfgChan w |} = w.
Proof. by destruct w. Qed.


(** X16. No endpoint variable is ever empty: the defaults are not, and
    from endpoints that are all set, a call of a setter, with any
    arguments, leaves them all set. *)
Theorem setters_never_blank_an_endpoint :
  (forall n, endpointsSet (initialWorld n))
  /\ forall w, endpointsSet w ->
       (forall v4 v6, endpointsSet (SetCloudflareEndpoints v4 v6 w))
       /\ (forall url, endpointsSet (SetFastlyEndpoint url w))
       /\ (forall url, endpointsSet (SetAwsIPRangesEndpoint url w)).
Proof.
  split; [by intros n|]. intros w (H1 & H2 & H3 & H4).
  repeat split; simpl; try done.
  all: match goal with
       | |- (if String.eqb ?u "" then _ else _) <> "" =>
           destruct (String.eqb_spec u ""); done
       end.
Qed.

(** X17. From endpoints that are all set, calling a setter again with the
    previous values undoes an override; and a setter given empty strings
    changes nothing. *)
Theorem setters_restore v4 v6 fastly aws w :
  endpointsSet w ->
  SetCloudflareEndpoints (cloudflareIPv4Endpoint w) (cloudflareIPv6Endpoint w)
    (SetCloudflareEndpoints v4 v6 w) = w
  /\ SetFastlyEndpoint (fastlyEndpoint w) (SetFastlyEndpoint fastly w) = w
  /\ SetAwsIPRangesEndpoint (awsIPRangesEndpoint w) (SetAwsIPRangesEndpoint aws w) = w
  /\ SetCloudflareEndpoints "" "" w = w
  /\ SetFastlyEndpoint "" w = w
  /\ SetAwsIPRangesEndpoint "" w = w.
Proof.
  intros (H1%String.eqb_neq & H2%String.eqb_neq & H3%String.eqb_neq
          & H4%String.eqb_neq).
  unfold SetCloudflareEndpoints, SetFastlyEndpoint, SetAwsIPRangesEndpoint.
  simpl. rewrite H1, H2, H3, H4. repeat split; apply World_eta.
Qed.

Lemma splitLines_app a b :
  splitLines (a +:+ LF +:+ b) = splitLines a ++ splitLines b.
Proof.
  induction a as [|c r IH]; simpl; [done|].
  destruct (code c =? 10); [by rewrite IH|].
  rewrite IH. pose proof (splitLines_not_nil r).
  by destruct (splitLines r).
Qed.

(** X18. Parsing two texts joined by a line feed gives the lines of the
    first followed by the lines of the second. *)
Theorem parseLineList_line_feed_appends a b :
  parseLineList (a +:+ LF +:+ b) = parseLineList a ++ parseLineList b.
Proof.
  rewrite !parseLineList_lineListSpec. unfold lineListSpec.
  by rewrite splitLines_app, map_app, List.filter_app.
Qed.

(** X19. A blank poll interval stands for five minutes: the provider
    [New] returns has the interval 300s, and [Init] accepts it. *)
Theorem blank_interval_defaults_to_five_minutes config name p :
  strings_TrimSpace (Config.PollInterval config) = "" ->
  New config name = Ok p ->
  pollInterval p = 300 * 1000000000 /\ Init p = Ok tt.
Proof.
  intros Hb Hn. apply New_fields in Hn as (_ & _ & (d & Hd & Hp) & _).
  unfold effectivePollInterval in Hd. rewrite Hb in Hd. simpl in Hd.
  vm_compute in Hd. injection Hd as <-.
  split; [done|]. unfold Init. by rewrite Hp.
Qed.

(** X20. The interval is tested for blankness after trimming but parsed
    as written: one that starts with a space and is not blank is refused by
    [New] with the parse error. *)
Theorem padded_interval_is_rejected config name rest :
  Config.PollInterval config = String " " rest ->
  strings_TrimSpace (Config.PollInterval config) <> "" ->
  New config name = Err (ErrDuration (Config.PollInterval config)).
Proof.
  intros E Hb%String.eqb_neq. unfold New. rewrite Hb, E.
  assert (time_ParseDuration (String " " rest) = None) as ->; [|done].
  unfold time_ParseDuration.
  change ((code " " =? 45) || (code " " =? 43)) with false. cbn iota.
  change (String.eqb (String " " rest) "0") with false.
  cbn [isEmpty]. cbn [String.length durationTerms].
  by change (negb ((code " " =? 46) || isDigit " ")) with true.
Qed.








(** X22. The default configuration needs a provider name and nothing
    else: with any name [New] accepts, the custom one included, [New] and
    [Init] succeed, the interval is five minutes, IPv6 is off, there are no
    additional ranges and the resolvers are the defaults. *)
Theorem default_config_needs_only_a_provider provider name :
  normalizeProviderName provider ∈ supportedProviders ->
  exists p, New (withProvider provider CreateConfig) name = Ok p
    /\ Init p = Ok tt
    /\ pollInterval p = 300 * 1000000000
    /\ whitelistIPv6 p = false
    /\ additionalSourceRange p = []
    /\ ipv4Resolver p = "https://api4.ipify.org/?format=text"
    /\ ipv6Resolver p = "https://api6.ipify.org/?format=text".
Proof.
  intros Hs. rewrite New_unfold.
  change (time_ParseDuration (effectivePollInterval (withProvider provider CreateConfig)))
    with (time_ParseDuration "300s").
  assert (time_ParseDuration "300s" = Some (300 * 1000000000)) as ->
    by (vm_compute; reflexivity).
  cbv zeta. change (Config.Provider (withProvider provider CreateConfig)) with provider.
  destruct (String.eqb_spec (normalizeProviderName provider) "") as [E|_].
  { rewrite E in Hs. by apply empty_not_supported in Hs. }
  rewrite (bool_decide_eq_true_2 _ Hs). simpl.
  change (String.eqb (strings_TrimSpace "https://api4.ipify.org/?format=text") "")
    with false.
  rewrite !andb_false_r. eexists. split; [reflexivity|]. by repeat split.
Qed.

(** ** These properties at the samples *)

Lemma New_rules_out_witness :
  New (sampleConfig "custom" "1s") "test" = Ok (sampleProvider "custom" false)
  /\ fst (fetchProviderRanges (decodeFastly := sampleDecodeFastly)
            (decodeCloudfront := sampleDecodeCloudfront)
            (sampleProvider "custom" false) (initialWorld failingNet))
     <> Err ErrIPv4ResolverRequired.
Proof.
  assert (H : New (sampleConfig "custom" "1s") "test"
              = Ok (sampleProvider "custom" false)) by (vm_compute; reflexivity).
  split; [exact H|].
  exact (proj1 (proj2 (New_rules_out_configuration_errors
                         (decodeFastly := sampleDecodeFastly)
                         (decodeCloudfront := sampleDecodeCloudfront)
                         _ _ _ (initialWorld failingNet) H))).
Defined.

Lemma generated_configuration_witness :
  New (sampleConfig "cloudflare" "1s") "test" = Ok (sampleProvider "cloudflare" false)
  /\ exists c w',
       generateConfiguration (decodeFastly := sampleDecodeFastly)
         (decodeCloudfront := sampleDecodeCloudfront)
         (sampleProvider "cloudflare" false) (initialWorld sampleNet) = (Ok c, w')
       /\ Middlewares (HTTP c) !! "public_ipwhitelist"
          = Some {| WhiteList :=
                      {| SourceRange := ["127.0.0.1/32"; "192.168.0.24";
                                         "198.51.100.0/24"; "203.0.113.0/25"];
                         Strategy := {| Depth := 1; ExcludedIPs := ["123.0.0.1"] |} |} |}.
Proof.
  assert (H : New (sampleConfig "cloudflare" "1s") "test"
              = Ok (sampleProvider "cloudflare" false)) by (vm_compute; reflexivity).
  split; [exact H|].
  assert (Hf : fst (fetchProviderRanges (decodeFastly := sampleDecodeFastly)
                      (decodeCloudfront := sampleDecodeCloudfront)
                      (sampleProvider "cloudflare" false) (initialWorld sampleNet))
               = Ok ["198.51.100.0/24"; "203.0.113.0/25"]) by (vm_compute; reflexivity).
  assert (Hok : isOk (fst (generateConfiguration (decodeFastly := sampleDecodeFastly)
                      (decodeCloudfront := sampleDecodeCloudfront)
                      (sampleProvider "cloudflare" false) (initialWorld sampleNet)))
                = true) by (vm_compute; reflexivity).
  destruct (generateConfiguration (decodeFastly := sampleDecodeFastly)
              (decodeCloudfront := sampleDecodeCloudfront)
              (sampleProvider "cloudflare" false) (initialWorld sampleNet))
    as [[c|e] w'] eqn:Hg; [|discriminate Hok].
  exists c, w'. split; [reflexivity|].
  destruct (generated_configuration_passes_config_through _ _ _ _ _ _ H Hg)
    as (rs & Hrs & Hm & _).
  rewrite Hrs in Hf. simpl in Hf. injection Hf as ->. exact Hm.
Defined.

Lemma upstream_failure_witness :
  New (sampleConfig "cloudflare" "1s") "test" = Ok (sampleProvider "cloudflare" false)
  /\ logged (snd (emitConfiguration (decodeFastly := sampleDecodeFastly)
                    (decodeCloudfront := sampleDecodeCloudfront)
                    (sampleProvider "cloudflare" false) (initialWorld failingNet)))
     = [ErrHTTP (ErrStatus 500 defaultCloudflareIPv4Endpoint)].
Proof.
  assert (H : New (sampleConfig "cloudflare" "1s") "test"
              = Ok (sampleProvider "cloudflare" false)) by (vm_compute; reflexivity).
  split; [exact H|].
  destruct (upstream_failure_is_logged_not_delivered
              (decodeFastly := sampleDecodeFastly)
              (decodeCloudfront := sampleDecodeCloudfront)
              _ _ _ (initialWorld failingNet) H) as [Hs Hf].
  assert (Hlt : 500 < 200 \/ 300 <= 500) by (right; lia).
  destruct (Hf _ (Hs 500 None eq_refl Hlt)) as (_ & _ & Hl & _).
  exact Hl.
Defined.

Lemma fetch_asks_witness :
  fetchProviderRanges (decodeFastly := sampleDecodeFastly)
    (decodeCloudfront := sampleDecodeCloudfront)
    (sampleProvider "custom" true) (initialWorld sampleNet)
  = (Ok ["192.0.2.123"; "1234:1234:1234:1234::/64"],
     afterGet (sampleProvider "custom" true) "http://resolver.test/v6"
       (afterGet (sampleProvider "custom" true) "http://resolver.test/v4"
          (initialWorld sampleNet)))
  /\ requests (afterGet (sampleProvider "custom" true) "http://resolver.test/v6"
       (afterGet (sampleProvider "custom" true) "http://resolver.test/v4"
          (initialWorld sampleNet)))
     = ["http://resolver.test/v4"; "http://resolver.test/v6"]
  /\ exists v4, ipv4Derived (decodeFastly := sampleDecodeFastly)
                  (decodeCloudfront := sampleDecodeCloudfront)
                  (sampleProvider "custom" true) (initialWorld sampleNet) = Some v4
                /\ v4 <> [].
Proof.
  assert (H : fetchProviderRanges (decodeFastly := sampleDecodeFastly)
    (decodeCloudfront := sampleDecodeCloudfront)
    (sampleProvider "custom" true) (initialWorld sampleNet)
  = (Ok ["192.0.2.123"; "1234:1234:1234:1234::/64"],
     afterGet (sampleProvider "custom" true) "http://resolver.test/v6"
       (afterGet (sampleProvider "custom" true) "http://resolver.test/v4"
          (initialWorld sampleNet)))) by (vm_compute; reflexivity).
  split; [exact H|]. split; [reflexivity|].
  destruct (fetch_asks_ipv4_first_ipv6_after _ _ _ _ H)
    as [[E _]|[E|(_ & _ & _ & Hv)]].
  - apply (f_equal requests) in E. discriminate E.
  - apply (f_equal requests) in E. discriminate E.
  - exact Hv.
Defined.

Lemma publisher_fetch_witness :
  providerName (sampleProvider "fastly" true) <> providerCustom
  /\ fst (fetchProviderRanges (decodeFastly := sampleDecodeFastly)
            (decodeCloudfront := sampleDecodeCloudfront)
            (sampleProvider "fastly" true) (initialWorld sampleNet))
     = Ok (["198.51.100.0/24"] ++ ["2001:db8::/48"]).
Proof.
  assert (Hn : providerName (sampleProvider "fastly" true) <> providerCustom)
    by discriminate.
  split; [exact Hn|].
  apply (publisher_fetch_succeeds_iff _ _ _ Hn).
  exists ["198.51.100.0/24"], ["2001:db8::/48"].
  split; [reflexivity|]. split; [discriminate|]. split; reflexivity.
Defined.

Lemma custom_ipv6_reply_witness :
  fst (fetchCustomRanges (sampleProvider "custom" true) (initialWorld sampleNet))
  = Ok ["192.0.2.123"; "1234:1234:1234:1234::/64"]
  /\ fst (fetchCustomRanges (sampleProvider "custom" true)
            (initialWorld (mkNet (fun _ _ => Response 200 (Some "192.0.2.123")) 0)))
     = Err (ErrNotIPv6 "192.0.2.123").
Proof.
  split.
  - rewrite (custom_ipv6_reply_classified (sampleProvider "custom" true)
               (initialWorld sampleNet) "192.0.2.123"
               "1234:1234:1234:1234:1234:1234:1234:1234").
    + vm_compute. reflexivity.
    + vm_compute. discriminate.
    + vm_compute. discriminate.
    + reflexivity.
    + vm_compute. reflexivity.
    + vm_compute. discriminate.
    + vm_compute. reflexivity.
  - rewrite (custom_ipv6_reply_classified (sampleProvider "custom" true)
               (initialWorld (mkNet (fun _ _ => Response 200 (Some "192.0.2.123")) 0))
               "192.0.2.123" "192.0.2.123").
    + vm_compute. reflexivity.
    + vm_compute. discriminate.
    + vm_compute. discriminate.
    + reflexivity.
    + vm_compute. reflexivity.
    + vm_compute. discriminate.
    + vm_compute. reflexivity.
Defined.

Lemma every_refresh_witness :
  Init (sampleProvider "fastly" false) = Ok tt
  /\ (length (cfgChan (snd (loadConfiguration (decodeFastly := sampleDecodeFastly)
                              (decodeCloudfront := sampleDecodeCloudfront)
                              (sampleProvider "fastly" false)
                              (replicate 2 Tick ++ Done :: [Tick])
                              (initialWorld failingNet))))
      + length (logged (snd (loadConfiguration (decodeFastly := sampleDecodeFastly)
                               (decodeCloudfront := sampleDecodeCloudfront)
                               (sampleProvider "fastly" false)
                               (replicate 2 Tick ++ Done :: [Tick])
                               (initialWorld failingNet)))))%nat
     = 3%nat.
Proof.
  split; [reflexivity|].
  exact (proj2 (every_refresh_delivers_or_logs (decodeFastly := sampleDecodeFastly)
                  (decodeCloudfront := sampleDecodeCloudfront)
                  (sampleProvider "fastly" false) 2 [Tick]
                  (initialWorld failingNet) eq_refl)).
Defined.

Lemma setters_restore_witness :
  endpointsSet (initialWorld sampleNet)
  /\ SetFastlyEndpoint defaultFastlyEndpoint
       (SetFastlyEndpoint "http://127.0.0.1:8080/fastly" (initialWorld sampleNet))
     = initialWorld sampleNet.
Proof.
  assert (H : endpointsSet (initialWorld sampleNet)) by (repeat split; discriminate).
  split; [exact H|].
  exact (proj1 (proj2 (setters_restore "" "" "http://127.0.0.1:8080/fastly" ""
                         (initialWorld sampleNet) H))).
Defined.

Lemma fetch_depends_witness :
  fst (fetchProviderRanges (decodeFastly := sampleDecodeFastly)
         (decodeCloudfront := sampleDecodeCloudfront)
         (sampleProvider "cloudflare" true)
         (SetFastlyEndpoint "http://127.0.0.1:8080/fastly" (initialWorld sampleNet)))
  = fst (fetchProviderRanges (decodeFastly := sampleDecodeFastly)
           (decodeCloudfront := sampleDecodeCloudfront)
           (sampleProvider "cloudflare" true) (initialWorld sampleNet)).
Proof.
  apply (fetch_depends_on_own_endpoints (sampleProvider "cloudflare" true)); reflexivity.
Defined.

Lemma overridden_endpoint_witness :
  "http://127.0.0.1:8080/fastly" <> ""
  /\ requests (snd (fetchProviderRanges (decodeFastly := sampleDecodeFastly)
                      (decodeCloudfront := sampleDecodeCloudfront)
                      (sampleProvider "fastly" false)
                      (SetFastlyEndpoint "http://127.0.0.1:8080/fastly"
                         (initialWorld failingNet))))
     = ["http://127.0.0.1:8080/fastly"].
Proof.
  assert (H : "http://127.0.0.1:8080/fastly" <> "") by discriminate.
  split; [exact H|].
  exact (proj1 (proj2 (overridden_endpoint_is_requested
                         (decodeFastly := sampleDecodeFastly)
                         (decodeCloudfront := sampleDecodeCloudfront)
                         (sampleProvider "fastly" false) _ ""
                         (initialWorld failingNet) H)) eq_refl).
Defined.

Lemma blank_interval_witness :
  strings_TrimSpace (Config.PollInterval (sampleConfig "fastly" "  ")) = ""
  /\ New (sampleConfig "fastly" "  ") "test"
     = Ok {| name := "test"; providerName := "fastly"; pollInterval := 300000000000;
             ipv4Resolver := "http://resolver.test/v4";
             ipv6Resolver := "http://resolver.test/v6";
             whitelistIPv6 := false;
             additionalSourceRange := ["127.0.0.1/32"; "192.168.0.24"];
             ipStrategy := {| Depth := 1; ExcludedIPs := ["123.0.0.1"] |};
             httpGet := defaultHTTPGetter {| Timeout := 10 * 1000000000 |} |}
  /\ Init {| name := "test"; providerName := "fastly"; pollInterval := 300000000000;
             ipv4Resolver := "http://resolver.test/v4";
             ipv6Resolver := "http://resolver.test/v6";
             whitelistIPv6 := false;
             additionalSourceRange := ["127.0.0.1/32"; "192.168.0.24"];
             ipStrategy := {| Depth := 1; ExcludedIPs := ["123.0.0.1"] |};
             httpGet := defaultHTTPGetter {| Timeout := 10 * 1000000000 |} |} = Ok tt.
Proof.
  assert (Hb : strings_TrimSpace (Config.PollInterval (sampleConfig "fastly" "  ")) = "")
    by (vm_compute; reflexivity).
  assert (Hn : New (sampleConfig "fastly" "  ") "test"
     = Ok {| name := "test"; providerName := "fastly"; pollInterval := 300000000000;
             ipv4Resolver := "http://resolver.test/v4";
             ipv6Resolver := "http://resolver.test/v6";
             whitelistIPv6 := false;
             additionalSourceRange := ["127.0.0.1/32"; "192.168.0.24"];
             ipStrategy := {| Depth := 1; ExcludedIPs := ["123.0.0.1"] |};
             httpGet := defaultHTTPGetter {| Timeout := 10 * 1000000000 |} |})
    by (vm_compute; reflexivity).
  split; [exact Hb|]. split; [exact Hn|].
  exact (proj2 (blank_interval_defaults_to_five_minutes _ _ _ Hb Hn)).
Defined.

Lemma padded_interval_witness :
  Config.PollInterval (sampleConfig "fastly" " 5s") = String " " "5s"
  /\ strings_TrimSpace (Config.PollInterval (sampleConfig "fastly" " 5s")) <> ""
  /\ New (sampleConfig "fastly" " 5s") "test" = Err (ErrDuration " 5s").
Proof.
  assert (Hb : strings_TrimSpace (Config.PollInterval (sampleConfig "fastly" " 5s")) <> "")
    by (vm_compute; discriminate).
  split; [reflexivity|]. split; [exact Hb|].
  exact (padded_interval_is_rejected (sampleConfig "fastly" " 5s") "test" "5s"
           eq_refl Hb).
Defined.


Lemma default_config_witness :
  normalizeProviderName " CloudFlare " ∈ supportedProviders
  /\ exists p, New (withProvider " CloudFlare " CreateConfig) "test" = Ok p
               /\ Init p = Ok tt.
Proof.
  assert (H : normalizeProviderName " CloudFlare " ∈ supportedProviders)
    by (apply (bool_decide_eq_true_1 _); vm_compute; reflexivity).
  split; [exact H|].
  destruct (default_config_needs_only_a_provider " CloudFlare " "test" H)
    as (p & Hn & Hi & _).
  exists p. split; [exact Hn|exact Hi].
Defined.

Example newRequestID_values :
  newRequestID [0; 17; 34; 51; 68; 85; 102; 119;
                136; 153; 170; 187; 204; 221; 238; 255] 0
  = "00112233445566778899aabbccddeeff"
  /\ fmt_Sprintf_032x 1700000000000000000 = "000000000000000017979cfe362a0000"
  /\ fmt_Sprintf_032x (-255) = "-00000000000000000000000000000ff".
Proof. repeat split; by vm_compute. Qed.
